(** * airq: a shallow embedding of [app.py]

    The program polls air-quality devices, stores their readings in two
    SQLite tables and serves "latest" and "history" queries.  This file
    embeds the functions of [app.py] that carry the behaviour specified for
    the adapter, the scheduler, the store, the query facade and the
    device-add command, and proves (or refutes) the specified properties.

    Conventions of the embedding:
    - Python exceptions are values of [exn]; a function that can raise
      returns a [result];
    - code that touches the database or the logger runs in the monad [M],
      which threads the database and a trace and propagates exceptions;
    - everything the program reads from outside (the HTTP round trip, the
      clock, a failure of the storage engine) is an explicit argument;
    - an integer bound to a [?] of a statement must fit 64 bits: beyond,
      the [sqlite3] module raises [OverflowError];
    - the rows of an SQL [ORDER BY] whose keys are equal come in an order
      SQL leaves to the engine: such queries are relations, and an executable
      instance (a sort) is given next to each of them.  The two queries that
      order by [timestamp DESC] are answered from the indexes on
      [timestamp], read backwards: there, rows with equal timestamps come in
      descending row id. *)

From Stdlib Require Import ZArith List String Ascii Bool Lia Permutation Sorted.
Import ListNotations.

Local Open Scope string_scope.
Local Open Scope Z_scope.

(* ================================================================== *)
(** * Exceptions and results *)

(** The exception classes that the modelled code can meet.  All of them are
    subclasses of Python's [Exception]. *)
Inductive exn : Type :=
| ValueError (msg : string)
| KeyError (key : string)
| TypeError
| AttributeError
| OverflowError
| RequestException (kind : string)   (* requests.exceptions.RequestException and subclasses *)
| SqliteError (msg : string).        (* sqlite3.Error and subclasses *)

Inductive result (A : Type) : Type :=
| Ok (a : A)
| Raise (e : exn).
Arguments Ok {A} a.
Arguments Raise {A} e.

(** [except requests.exceptions.RequestException] *)
Definition is_RequestException (e : exn) : bool :=
  match e with RequestException _ => true | _ => false end.

(** [except sqlite3.Error] *)
Definition is_sqlite3_Error (e : exn) : bool :=
  match e with SqliteError _ => true | _ => false end.

(** [except Exception] *)
Definition is_Exception (e : exn) : bool := true.

Definition obind {A B} (o : option A) (f : A -> option B) : option B :=
  match o with Some a => f a | None => None end.

Notation "'do' x <- o ; k" := (obind o (fun x => k))
  (at level 10, x pattern, o at level 100, k at level 200).

(* ================================================================== *)
(** * The part of Python's [datetime] that the program uses *)

Module Datetime.

(** A [datetime] object.  [tzinfo] is [None] for a naive value and
    [Some off] for an aware one, [off] being the UTC offset in microseconds. *)
Record datetime : Type := mkDatetime {
  year : Z; month : Z; day : Z;
  hour : Z; minute : Z; second : Z; microsecond : Z;
  tzinfo : option Z
}.

Definition is_leap (y : Z) : bool :=
  (y mod 4 =? 0) && (negb (y mod 100 =? 0) || (y mod 400 =? 0)).

Definition days_in_month (y m : Z) : Z :=
  if m =? 2 then (if is_leap y then 29 else 28)
  else if (m =? 4) || (m =? 6) || (m =? 9) || (m =? 11) then 30
  else 31.

(** [_DAYS_BEFORE_MONTH[m]], for a common year. *)
Definition days_before_month_common (m : Z) : Z :=
  match m with
  | 1 => 0 | 2 => 31 | 3 => 59 | 4 => 90 | 5 => 120 | 6 => 151
  | 7 => 181 | 8 => 212 | 9 => 243 | 10 => 273 | 11 => 304 | 12 => 334
  | _ => 0
  end.

Definition days_before_year (y : Z) : Z :=
  let p := y - 1 in p * 365 + p / 4 - p / 100 + p / 400.

Definition days_before_month (y m : Z) : Z :=
  days_before_month_common m + (if (2 <? m) && is_leap y then 1 else 0).

(** [_ymd2ord]: the proleptic Gregorian ordinal, 0001-01-01 being day 1. *)
Definition ymd2ord (y m d : Z) : Z :=
  days_before_year y + days_before_month y m + d.

Definition DI400Y : Z := 146097.
Definition DI100Y : Z := 36524.
Definition DI4Y : Z := 1461.
Definition MAXORDINAL : Z := 3652059.

(** [_ord2ymd], with the same sequence of [divmod]s. *)
Definition ord2ymd (ordinal : Z) : Z * Z * Z :=
  let n := ordinal - 1 in
  let n400 := n / DI400Y in let n := n mod DI400Y in
  let y := n400 * 400 + 1 in
  let n100 := n / DI100Y in let n := n mod DI100Y in
  let n4 := n / DI4Y in let n := n mod DI4Y in
  let n1 := n / 365 in let n := n mod 365 in
  let y := y + n100 * 100 + n4 * 4 + n1 in
  if (n1 =? 4) || (n100 =? 4) then (y - 1, 12, 31)
  else
    let leapyear := (n1 =? 3) && (negb (n4 =? 24) || (n100 =? 3)) in
    let m := Z.shiftr (n + 50) 5 in
    let preceding := days_before_month_common m
                     + (if (2 <? m) && leapyear then 1 else 0) in
    if n <? preceding then
      let m' := m - 1 in
      let preceding' :=
        preceding - (days_in_month 1 m' + (if (m' =? 2) && leapyear then 1 else 0)) in
      (y, m', n - preceding' + 1)
    else (y, m, n - preceding + 1).

(** The argument checks of the [datetime] constructor. *)
Definition valid_fields (y m d hh mm ss us : Z) : bool :=
  (1 <=? y) && (y <=? 9999) && (1 <=? m) && (m <=? 12)
  && (1 <=? d) && (d <=? days_in_month y m)
  && (0 <=? hh) && (hh <=? 23) && (0 <=? mm) && (mm <=? 59)
  && (0 <=? ss) && (ss <=? 59) && (0 <=? us) && (us <=? 999999).

Definition valid (t : datetime) : bool :=
  valid_fields (year t) (month t) (day t) (hour t) (minute t) (second t)
               (microsecond t).

(** ** Decimal digits *)

Definition digit_val (c : ascii) : option Z :=
  let n := Z.of_nat (nat_of_ascii c) in
  if (48 <=? n) && (n <=? 57) then Some (n - 48) else None.

Definition digit_char (d : Z) : ascii := ascii_of_nat (Z.to_nat (48 + d)).

Fixpoint int_of_digits (acc : Z) (cs : list ascii) : option Z :=
  match cs with
  | [] => Some acc
  | c :: cs' => do v <- digit_val c; int_of_digits (10 * acc + v) cs'
  end.

(** [int(s)] on a non-empty run of decimal digits. *)
Definition parse_int (cs : list ascii) : option Z :=
  match cs with [] => None | _ => int_of_digits 0 cs end.

(** The Python slice [s[i:j]]. *)
Definition slice {A} (s : list A) (i j : nat) : list A :=
  firstn (j - i) (skipn i s).

Definition pad2 (n : Z) : string :=
  String (digit_char (n / 10 mod 10)) (String (digit_char (n mod 10)) "").

Definition pad4 (n : Z) : string :=
  String (digit_char (n / 1000 mod 10)) (String (digit_char (n / 100 mod 10)) (pad2 n)).

Definition pad6 (n : Z) : string :=
  String (digit_char (n / 100000 mod 10)) (String (digit_char (n / 10000 mod 10)) (pad4 n)).

(** ** [datetime.fromisoformat]

    The grammar is the one the function is documented with up to Python 3.10,
    the output of [isoformat()]:
    [YYYY-MM-DD[*HH[:MM[:SS[.fff[fff]]]][+HH:MM[:SS[.ffffff]]]]], where [*] is
    any single character.  ([None] stands for the [ValueError].)  Later
    versions of Python accept further ISO 8601 spellings; no statement below
    rests on a string outside this grammar being refused. *)

Definition parse_isoformat_date (d : list ascii) : option (Z * Z * Z) :=
  if Nat.eqb (List.length d) 10 then
    match parse_int (slice d 0 4), nth_error d 4,
          parse_int (slice d 5 7), nth_error d 7,
          parse_int (slice d 8 10) with
    | Some y, Some "-"%char, Some m, Some "-"%char, Some dd => Some (y, m, dd)
    | _, _, _, _, _ => None
    end
  else None.

Definition two_digits (s : list ascii) : option (Z * list ascii) :=
  match s with
  | a :: b :: r =>
      do x <- digit_val a; do y <- digit_val b; Some (10 * x + y, r)
  | _ => None
  end.

Definition parse_fraction (r : list ascii) : option Z :=
  match r with
  | [] => Some 0
  | "."%char :: f =>
      if Nat.eqb (List.length f) 3 then do v <- parse_int f; Some (v * 1000)
      else if Nat.eqb (List.length f) 6 then parse_int f
      else None
  | _ => None
  end.

(** [_parse_hh_mm_ss_ff]: [HH[:MM[:SS[.fff[fff]]]]]. *)
Definition parse_hh_mm_ss_ff (t : list ascii) : option (Z * Z * Z * Z) :=
  do (hh, r1) <- two_digits t;
  match r1 with
  | [] => Some (hh, 0, 0, 0)
  | ":"%char :: r1' =>
      do (mm, r2) <- two_digits r1';
      match r2 with
      | [] => Some (hh, mm, 0, 0)
      | ":"%char :: r2' =>
          do (ss, r3) <- two_digits r2';
          do us <- parse_fraction r3;
          Some (hh, mm, ss, us)
      | _ => None
      end
  | _ => None
  end.

(** Splits a time string at its first ['+'] or ['-']: the part before it,
    and the sign with the part after it. *)
Fixpoint split_tz (t : list ascii) : list ascii * option (Z * list ascii) :=
  match t with
  | [] => ([], None)
  | c :: r =>
      if Ascii.eqb c "+" then ([], Some (1, r))
      else if Ascii.eqb c "-" then ([], Some (-1, r))
      else let '(a, b) := split_tz r in (c :: a, b)
  end.

Definition usec_per_second : Z := 1000000.
Definition usec_per_hour : Z := 3600 * usec_per_second.
Definition usec_per_day : Z := 24 * usec_per_hour.

(** [_parse_isoformat_time]; the offset must lie strictly between -24h and
    +24h, as the [timezone] constructor demands. *)
Definition parse_isoformat_time (t : list ascii)
  : option (Z * Z * Z * Z * option Z) :=
  let '(timestr, tz) := split_tz t in
  do (hh, mm, ss, us) <- parse_hh_mm_ss_ff timestr;
  match tz with
  | None => Some (hh, mm, ss, us, None)
  | Some (sign, tzstr) =>
      let n := List.length tzstr in
      if Nat.eqb n 5 || Nat.eqb n 8 || Nat.eqb n 15 then
        do (th, tm, tsec, tus) <- parse_hh_mm_ss_ff tzstr;
        let off := sign * (th * usec_per_hour + tm * 60 * usec_per_second
                           + tsec * usec_per_second + tus) in
        if (- usec_per_day <? off) && (off <? usec_per_day)
        then Some (hh, mm, ss, us, Some off)
        else None
      else None
  end.

Definition fromisoformat (s : string) : option datetime :=
  let cs := list_ascii_of_string s in
  do (y, m, d) <- parse_isoformat_date (slice cs 0 10);
  do (hh, mm, ss, us, tz) <-
     match skipn 10 cs with
     | [] => Some (0, 0, 0, 0, None)
     | _ :: tstr => parse_isoformat_time tstr
     end;
  if valid_fields y m d hh mm ss us
  then Some (mkDatetime y m d hh mm ss us tz)
  else None.

(** [t.replace(tzinfo=None)] *)
Definition replace_tzinfo_None (t : datetime) : datetime :=
  mkDatetime (year t) (month t) (day t) (hour t) (minute t) (second t)
             (microsecond t) None.

(** [%Y] as the C library's [strftime] writes it on Linux: the decimal
    digits of the year with no padding, so ["999"] for the year 999.  (Only
    [isoformat] pads the year to four digits.) *)
Definition strftime_Y (y : Z) : string :=
  if y <? 10 then String (digit_char (y mod 10)) ""
  else if y <? 100 then pad2 y
  else if y <? 1000 then String (digit_char (y / 100 mod 10)) (pad2 y)
  else pad4 y.

(** [-MM-DD HH:MM:SS]: what follows the year, in [strftime] as in
    [isoformat]. *)
Definition month_to_second (t : datetime) : string :=
  "-" ++ pad2 (month t) ++ "-" ++ pad2 (day t) ++ " "
  ++ pad2 (hour t) ++ ":" ++ pad2 (minute t) ++ ":" ++ pad2 (second t).

(** [t.strftime("%Y-%m-%d %H:%M:%S")] *)
Definition strftime_ymd_hms (t : datetime) : string :=
  strftime_Y (year t) ++ month_to_second t.

(** [t.isoformat(" ")] up to the seconds: [YYYY-MM-DD HH:MM:SS], the year on
    four digits. *)
Definition isoformat_seconds (t : datetime) : string :=
  pad4 (year t) ++ month_to_second t.

(** [t.isoformat(" ")] of a naive value: the text that the [sqlite3] module
    binds for a [datetime] parameter. *)
Definition isoformat_space (t : datetime) : string :=
  isoformat_seconds t
  ++ (if microsecond t =? 0 then "" else "." ++ pad6 (microsecond t)).

(** The instant of a value read as UTC wall-clock time, in microseconds
    since the start of day 0 of the proleptic calendar. *)
Definition wall_usec (t : datetime) : Z :=
  (ymd2ord (year t) (month t) (day t) * 86400
   + hour t * 3600 + minute t * 60 + second t) * usec_per_second
  + microsecond t.

(** The absolute instant that an aware value denotes (a naive one is read
    as UTC). *)
Definition utc_usec (t : datetime) : Z :=
  wall_usec t - match tzinfo t with Some off => off | None => 0 end.

(** [t - timedelta(hours=h)]: [None] is the [OverflowError] raised when the
    result leaves the range of [datetime]. *)
Definition sub_hours (t : datetime) (h : Z) : option datetime :=
  let secs := ymd2ord (year t) (month t) (day t) * 86400
              + hour t * 3600 + minute t * 60 + second t - h * 3600 in
  let days := secs / 86400 in
  let rem := secs mod 86400 in
  if (0 <? days) && (days <=? MAXORDINAL) then
    let '(y, m, d) := ord2ymd days in
    Some (mkDatetime y m d (rem / 3600) (rem mod 3600 / 60) (rem mod 60)
                     (microsecond t) (tzinfo t))
  else None.

End Datetime.

Import Datetime.

(* ================================================================== *)
(** * Values *)

#[local] Set Warnings "-register-all".

(** A value decoded from JSON: what [response.json()] and [json.loads]
    return.  [JNull] is Python's [None]; a float is kept as its decimal
    literal [m * 10^e]; an object is the resulting [dict], searched by key. *)
Inductive json : Type :=
| JNull
| JBool (b : bool)
| JInt (z : Z)
| JFloat (m e : Z)
| JStr (s : string)
| JArr (items : list json)
| JObj (fields : list (string * json)).

(** Python's truth value of such a value ([if v:]). *)
Definition truthy (v : json) : bool :=
  match v with
  | JNull => false
  | JBool b => b
  | JInt z => negb (z =? 0)
  | JFloat m _ => negb (m =? 0)
  | JStr s => negb (String.eqb s "")
  | JArr l => match l with [] => false | _ => true end
  | JObj f => match f with [] => false | _ => true end
  end.

Fixpoint assoc {V} (k : string) (l : list (string * V)) : option V :=
  match l with
  | [] => None
  | (k', v) :: r => if String.eqb k k' then Some v else assoc k r
  end.

(** [d.get(k)] on a dict decoded from JSON: [None] when the key is absent. *)
Definition dict_get (d : list (string * json)) (k : string) : json :=
  match assoc k d with Some v => v | None => JNull end.

(** A value held in (or read from) a column of an SQLite table. *)
Inductive sqlval : Type :=
| SqlNull
| SqlInt (z : Z)
| SqlReal (m e : Z)
| SqlText (s : string).

Definition int64_min : Z := - 2 ^ 63.
Definition int64_max : Z := 2 ^ 63 - 1.

(** An integer that the [sqlite3] module can bind to a [?]. *)
Definition fits_int64 (z : Z) : bool := (int64_min <=? z) && (z <=? int64_max).

(** How the [sqlite3] module binds a Python value to a [?]: an integer that
    does not fit 64 bits raises [OverflowError], a list or a dict raises a
    [sqlite3.Error] ("Error binding parameter").  The value is kept as bound:
    the conversion that the affinity of a column applies when the row is
    written (an integer kept as a real in a [REAL] column, a numeric text as
    a number) is not modelled, and no statement below reads the form of a
    stored value that is not [NULL]. *)
Definition bind_param (v : json) : result sqlval :=
  match v with
  | JNull => Ok SqlNull
  | JBool b => Ok (SqlInt (if b then 1 else 0))
  | JInt z => if (int64_min <=? z) && (z <=? int64_max) then Ok (SqlInt z)
              else Raise OverflowError
  | JFloat m e => Ok (SqlReal m e)
  | JStr s => Ok (SqlText s)
  | JArr _ | JObj _ => Raise (SqliteError "Error binding parameter")
  end.

(** A Python [dict] with string keys, in insertion order. *)
Definition pydict : Type := list (string * sqlval).

Definition keys (d : pydict) : list string := map fst d.

(* ================================================================== *)
(** * The database *)

(** The [config] column of [devices]: a text that is JSON (kept decoded), a
    text that is not, or [NULL] (the column is declared without
    [NOT NULL]). *)
Inductive config_column : Type :=
| ConfigJson (v : json)
| ConfigNotJson
| ConfigNull.

(** A row of [devices] (alias [d] in the queries). *)
Record device_row : Type := mkDevice {
  d_id : Z;
  d_name : string;
  d_provider : string;
  d_config : config_column;
  d_active : bool
}.

(** A row of [measurements] (alias [m] in the queries). *)
Record measurement_row : Type := mkMeasurement {
  m_id : Z;
  m_device_id : Z;
  m_timestamp : string;
  m_pm1 : sqlval; m_pm2 : sqlval; m_pm10 : sqlval;
  m_co2 : sqlval; m_temperature : sqlval; m_humidity : sqlval;
  m_nox : sqlval; m_tvoc : sqlval
}.

(** The two tables, and the [sqlite_sequence] counter that [AUTOINCREMENT]
    keeps for [measurements]. *)
Record database : Type := mkDatabase {
  devices : list device_row;
  measurements : list measurement_row;
  measurements_seq : Z
}.

Definition empty_database : database := mkDatabase [] [] 0.

(* ================================================================== *)
(** * Effects: database, trace, exceptions *)

(** What a run leaves behind besides the database: the calls that the
    properties count, the records handed to the logger, and the lines
    printed by the commands. *)
Inductive event : Type :=
| CallFetch (device : Z)          (* [adapter.fetch_data()] entered *)
| CallStore (device : Z)          (* [store_measurement(data)] entered with a reading *)
| LogInfo (msg : string)
| LogWarning (msg : string)
| LogError (msg : string)
| Printed (msg : string) (arg : option Z).

Record state : Type := mkState {
  db : database;
  trace : list event
}.

Definition M (A : Type) : Type := state -> result A * state.

Definition ret {A} (a : A) : M A := fun s => (Ok a, s).

Definition raise {A} (e : exn) : M A := fun s => (Raise e, s).

Definition bind {A B} (c : M A) (k : A -> M B) : M B :=
  fun s => match c s with
           | (Ok a, s') => k a s'
           | (Raise e, s') => (Raise e, s')
           end.

Notation "x <- c ;; k" := (bind c (fun x => k))
  (at level 61, c at next level, right associativity).
Notation "c ;;; k" := (bind c (fun _ => k))
  (at level 61, right associativity).

Definition lift {A} (r : result A) : M A :=
  match r with Ok a => ret a | Raise e => raise e end.

Definition emit (ev : event) : M unit :=
  fun s => (Ok tt, mkState (db s) (trace s ++ [ev])%list).

Definition get_db : M database := fun s => (Ok (db s), s).

Definition put_db (d : database) : M unit :=
  fun s => (Ok tt, mkState d (trace s)).

(** [try: body  except <classes> as e: handler e] *)
Definition try_except {A} (body : M A) (classes : exn -> bool)
           (handler : exn -> M A) : M A :=
  fun s => match body s with
           | (Raise e, s') => if classes e then handler e s' else (Raise e, s')
           | r => r
           end.

(** [for x in l: body x] *)
Fixpoint for_each {A} (l : list A) (body : A -> M unit) : M unit :=
  match l with
  | [] => ret tt
  | x :: r => body x ;;; for_each r body
  end.

(* ================================================================== *)
(** * What the program reads from outside *)

(** The outcome of [requests.get(url, timeout=10)] followed by
    [response.json()]. *)
Inductive json_body : Type :=
| JsonBody (v : json)
| NotJson (as_request_exception : bool).
    (* the body does not decode; requests 2.27 and later raise their own
       JSONDecodeError, a RequestException ([true]), earlier ones the json
       module's, a ValueError ([false]) *)

Inductive http_result : Type :=
| ConnectionFailed (kind : string)   (* ConnectionError, SSLError, ...: raised by [get] *)
| TimedOut                           (* Timeout: raised by [get] after 10 s *)
| Response (status : Z) (body : json_body).

(** The entries of the dict that [get_configured_devices] builds. *)
Record device_config : Type := mkConfig {
  cfg_id : Z;
  cfg_name : string;
  cfg_provider : string;
  cfg_config : json
}.

(** An [AirGradientAdapter] instance. *)
Record adapter : Type := mkAdapter {
  a_device_config : device_config;
  a_name : string;
  a_device_id : Z;
  a_api_token : json;
  a_location_id : json
}.

(** The world around one run: the round trip made for an adapter, the clock
    read while the reading of a device is stored, and whether the storage
    engine fails on the statement run for a device ([Some msg]: it raises a
    [sqlite3.Error]). *)
Record environment : Type := mkEnv {
  requests_get : adapter -> http_result;
  utcnow : Z -> datetime;
  sqlite_fault : Z -> option string
}.

(* ================================================================== *)
(** * Device registry *)

Fixpoint insert_by {A} (leb : A -> A -> bool) (x : A) (l : list A) : list A :=
  match l with
  | [] => [x]
  | y :: r => if leb x y then x :: y :: r else y :: insert_by leb x r
  end.

(** A stable sort: one way to run an [ORDER BY]. *)
Definition sort_by {A} (leb : A -> A -> bool) (l : list A) : list A :=
  fold_right (insert_by leb) [] l.

(** [json.loads(config_json)] on the stored column: a text that is not JSON
    raises [JSONDecodeError], a [ValueError]; [None] raises [TypeError]. *)
Definition json_loads (c : config_column) : result json :=
  match c with
  | ConfigJson v => Ok v
  | ConfigNotJson => Raise (ValueError "JSONDecodeError")
  | ConfigNull => Raise TypeError
  end.

Fixpoint load_configs (rows : list device_row) : result (list device_config) :=
  match rows with
  | [] => Ok []
  | r :: rest =>
      match json_loads (d_config r) with
      | Raise e => Raise e
      | Ok c =>
          match load_configs rest with
          | Raise e => Raise e
          | Ok l => Ok (mkConfig (d_id r) (d_name r) (d_provider r) c :: l)
          end
      end
  end.

(** [SELECT id, name, provider, config FROM devices WHERE active = 1
     ORDER BY id].  [id] is the primary key, so the order is determined. *)
Definition select_active_devices (d : database) : list device_row :=
  sort_by (fun a b => d_id a <=? d_id b) (filter d_active (devices d)).

Definition get_configured_devices : M (list device_config) :=
  d <- get_db ;;
  lift (load_configs (select_active_devices d)).

(* ================================================================== *)
(** * Device adapter *)

(** [device_config["config"][key]] *)
Definition config_item (c : json) (key : string) : result json :=
  match c with
  | JObj f => match assoc key f with
              | Some v => Ok v
              | None => Raise (KeyError key)
              end
  | _ => Raise TypeError
  end.

(** [AirGradientAdapter.__init__] *)
Definition AirGradientAdapter (dc : device_config) : result adapter :=
  match config_item (cfg_config dc) "api_token" with
  | Raise e => Raise e
  | Ok tok =>
      match config_item (cfg_config dc) "location_id" with
      | Raise e => Raise e
      | Ok loc => Ok (mkAdapter dc (cfg_name dc) (cfg_id dc) tok loc)
      end
  end.

Definition create_device_adapter (dc : device_config) : result adapter :=
  if String.eqb (cfg_provider dc) "airgradient" then AirGradientAdapter dc
  else Raise (ValueError "Unknown device provider").

(** The standardized dict that [fetch_data] returns. *)
Record reading : Type := mkReading {
  device_id : Z;
  timestamp : json;
  pm1 : json; pm2 : json; pm10 : json;
  co2 : json; temperature : json; humidity : json;
  nox : json; tvoc : json
}.

(** [requests.get(...)]; [response.raise_for_status()]; [response.json()]:
    the decoded body, or the exception one of the three raises.
    [raise_for_status] raises [HTTPError] for a status from 400 to 599. *)
Definition round_trip (h : http_result) : result json :=
  match h with
  | ConnectionFailed kind => Raise (RequestException kind)
  | TimedOut => Raise (RequestException "Timeout")
  | Response status body =>
      if (400 <=? status) && (status <? 600)
      then Raise (RequestException "HTTPError")
      else match body with
           | JsonBody v => Ok v
           | NotJson true => Raise (RequestException "JSONDecodeError")
           | NotJson false => Raise (ValueError "JSONDecodeError")
           end
  end.

(** The dict literal of [fetch_data]; [data.get] exists on a dict only. *)
Definition standardize (a : adapter) (data : json) : result reading :=
  match data with
  | JObj f =>
      Ok (mkReading (a_device_id a)
            (dict_get f "timestamp")
            (dict_get f "pm01") (dict_get f "pm02") (dict_get f "pm10")
            (dict_get f "rco2") (dict_get f "atmp") (dict_get f "rhum")
            (dict_get f "noxIndex") (dict_get f "tvocIndex"))
  | _ => Raise AttributeError
  end.

(** [AirGradientAdapter.fetch_data] *)
Definition fetch_data (env : environment) (a : adapter) : M (option reading) :=
  emit (CallFetch (a_device_id a)) ;;;
  try_except
    (data <- lift (round_trip (requests_get env a)) ;;
     emit (LogInfo ("Fetched data from " ++ a_name a)) ;;;
     r <- lift (standardize a data) ;;
     ret (Some r))
    is_RequestException
    (fun _ =>
       emit (LogError ("Error fetching data from " ++ a_name a)) ;;;
       ret None).


(* ================================================================== *)
(** * Time-series store: append *)

(** [s.replace("Z", "+00:00")] *)
Fixpoint replace_Z (s : string) : string :=
  match s with
  | EmptyString => EmptyString
  | String c r =>
      if Ascii.eqb c "Z" then "+00:00" ++ replace_Z r
      else String c (replace_Z r)
  end.

(** The first statements of the [try] block of [store_measurement]: the text
    stored in the [timestamp] column.  A truthy value that is not a string
    has no [replace] method taking two arguments. *)
Definition timestamp_str (env : environment) (data : reading) : result string :=
  let api_timestamp := timestamp data in
  if truthy api_timestamp then
    match api_timestamp with
    | JStr s =>
        match fromisoformat (replace_Z s) with
        | Some utc_dt => Ok (strftime_ymd_hms (replace_tzinfo_None utc_dt))
        | None => Raise (ValueError "Invalid isoformat string")
        end
    | _ => Raise AttributeError
    end
  else Ok (strftime_ymd_hms (utcnow env (device_id data))).

Notation "'let?' x ':=' r 'in' k" :=
  (match r with Ok x => k | Raise e => Raise e end)
  (at level 10, x name, r at level 100, k at level 200).

(** The parameters of the [INSERT], bound from left to right. *)
Definition bind_reading (ts : string) (data : reading) (rowid : Z)
  : result measurement_row :=
  let? v1 := bind_param (pm1 data) in
  let? v2 := bind_param (pm2 data) in
  let? v10 := bind_param (pm10 data) in
  let? vco2 := bind_param (co2 data) in
  let? vt := bind_param (temperature data) in
  let? vh := bind_param (humidity data) in
  let? vnox := bind_param (nox data) in
  let? vtvoc := bind_param (tvoc data) in
  Ok (mkMeasurement rowid (device_id data) ts v1 v2 v10 vco2 vt vh vnox vtvoc).

(** The row id that [AUTOINCREMENT] gives to the next row. *)
Definition next_measurement_id (d : database) : Z :=
  Z.max (measurements_seq d) (fold_right Z.max 0 (map m_id (measurements d))) + 1.

(** [cursor.execute("INSERT INTO measurements ...", (...))] and
    [conn.commit()].  The foreign key of the table is declared only: the
    program never turns [PRAGMA foreign_keys] on. *)
Definition insert_measurement (env : environment) (ts : string) (data : reading)
  : M unit :=
  d <- get_db ;;
  let rowid := next_measurement_id d in
  row <- lift (bind_reading ts data rowid) ;;
  match sqlite_fault env (device_id data) with
  | Some msg => raise (SqliteError msg)
  | None => put_db (mkDatabase (devices d) (measurements d ++ [row])%list rowid)
  end.

(** [store_measurement] from its [try] on.  The connection and the cursor
    are opened before the [try] (so a [sqlite3.Error] raised there would
    leave the function); they are taken to open, as everywhere in this
    model, and [sqlite_fault] is a failure of the [INSERT] or the commit. *)
Definition store_measurement (env : environment) (data : option reading) : M unit :=
  match data with
  | None => ret tt                         (* if not data: return *)
  | Some data =>
      emit (CallStore (device_id data)) ;;;
      try_except
        (ts <- lift (timestamp_str env data) ;;
         insert_measurement env ts data ;;;
         emit (LogInfo ("Measurement stored successfully at " ++ ts ++ " UTC")))
        is_sqlite3_Error
        (fun _ => emit (LogError "Database error"))
  end.

(* ================================================================== *)
(** * Poller *)

(** The body of the [for] loop of [data_fetcher]. *)
Definition process_device (env : environment) (device_config : device_config)
  : M unit :=
  try_except
    (adapter <- lift (create_device_adapter device_config) ;;
     data <- fetch_data env adapter ;;
     match data with
     | Some _ => store_measurement env data
     | None => emit (LogWarning ("No data received from " ++ cfg_name device_config))
     end)
    is_Exception
    (fun _ => emit (LogError ("Error fetching data from " ++ cfg_name device_config))).

(** One iteration of the [while True] loop of [data_fetcher], up to the
    [time.sleep]. *)
Definition data_fetcher_tick (env : environment) : M unit :=
  try_except
    (devices <- get_configured_devices ;;
     match devices with
     | [] => emit (LogWarning "No devices configured.")
     | _ => for_each devices (process_device env)
     end)
    is_Exception
    (fun _ => emit (LogError "Error in data fetcher")).

(* ================================================================== *)
(** * Time-series store: queries *)

Definition joined_row : Type := (measurement_row * device_row)%type.

(** [measurements m JOIN devices d ON m.device_id = d.id] *)
Definition joined (d : database) : list joined_row :=
  flat_map
    (fun m => map (pair m) (filter (fun dv => d_id dv =? m_device_id m) (devices d)))
    (measurements d).

Definition row_timestamp (r : joined_row) : string := m_timestamp (fst r).

(** SQLite compares two texts byte by byte. *)
Definition text_le (a b : string) : Prop := String.leb a b = true.
Definition text_lt (a b : string) : Prop := String.ltb a b = true.

(** What [ORDER BY] promises: the same rows, each before those that follow
    it; rows with equal keys in any order. *)
Definition ordered_by {A} (le : A -> A -> Prop) (input output : list A) : Prop :=
  Permutation input output /\ StronglySorted le output.

Definition timestamp_asc (a b : joined_row) : Prop :=
  text_le (row_timestamp a) (row_timestamp b).

(** [ORDER BY m.timestamp DESC] as the engine answers it: [init_database]
    creates the indexes [idx_timestamp] and [idx_device_timestamp], whose
    entries end with the row id, and the engine reads them backwards.  [a]
    comes before [b] when its timestamp is greater, or equal with a row id
    that is not smaller. *)
Definition later_first (a b : joined_row) : bool :=
  match String.compare (row_timestamp b) (row_timestamp a) with
  | Lt => true
  | Eq => m_id (fst b) <=? m_id (fst a)
  | Gt => false
  end.

Definition timestamp_desc (a b : joined_row) : Prop := later_first a b = true.

(** [if device_id:] keeps a present id other than 0. *)
Definition device_filter (device_id : option Z) (r : joined_row) : bool :=
  match device_id with
  | Some i => if i =? 0 then true else m_device_id (fst r) =? i
  | None => true
  end.

(** The id that [if device_id:] keeps is bound to the [?] of the query: it
    must fit 64 bits (0, which is not bound, does). *)
Definition bindable (device_id : option Z) : bool :=
  match device_id with
  | Some i => fits_int64 i
  | None => true
  end.

(** The rows that the query of [get_latest_measurement] orders. *)
Definition latest_rows (d : database) (device_id : option Z) : list joined_row :=
  filter (device_filter device_id) (joined d).

(** The dict built from [SELECT m.*, d.name as device_name]. *)
Definition latest_dict (r : joined_row) : pydict :=
  let m := fst r in
  [ ("id", SqlInt (m_id m));
    ("device_id", SqlInt (m_device_id m));
    ("timestamp", SqlText (m_timestamp m));
    ("pm1", m_pm1 m);
    ("pm2", m_pm2 m);
    ("pm10", m_pm10 m);
    ("co2", m_co2 m);
    ("temperature", m_temperature m);
    ("humidity", m_humidity m);
    ("nox", m_nox m);
    ("tvoc", m_tvoc m);
    ("device_name", SqlText (d_name (snd r))) ].

(** [get_latest_measurement(device_id)] returns (or raises) [res]:
    [... ORDER BY m.timestamp DESC LIMIT 1], [fetchone()]. *)
Definition get_latest_measurement (d : database) (device_id : option Z)
           (res : result (option pydict)) : Prop :=
  if bindable device_id then
    exists rows,
      ordered_by timestamp_desc (latest_rows d device_id) rows
      /\ res = Ok (option_map latest_dict (hd_error rows))
  else res = Raise OverflowError.

(** One run of it. *)
Definition get_latest_measurement_run (d : database) (device_id : option Z)
  : result (option pydict) :=
  if bindable device_id then
    Ok (option_map latest_dict
          (hd_error (sort_by later_first (latest_rows d device_id))))
  else Raise OverflowError.

(** The rows that the query of [get_historical_data] orders; [since] is the
    text bound for the [datetime] parameter. *)
Definition history_rows (d : database) (since : string) (device_id : option Z)
  : list joined_row :=
  filter (fun r => String.ltb since (row_timestamp r) && device_filter device_id r)
         (joined d).

Definition history_dict (r : joined_row) : pydict :=
  let m := fst r in
  [ ("timestamp", SqlText (m_timestamp m));
    ("pm2", m_pm2 m);
    ("co2", m_co2 m);
    ("temperature", m_temperature m);
    ("humidity", m_humidity m);
    ("tvoc", m_tvoc m);
    ("nox", m_nox m);
    ("device_name", SqlText (d_name (snd r))) ].

(** [get_historical_data(hours, device_id)], called when the clock reads
    [now], returns (or raises) [res].  The subtraction and the binding of
    the device id raise the same [OverflowError]. *)
Definition get_historical_data (d : database) (now : datetime) (hours : Z)
           (device_id : option Z) (res : result (list pydict)) : Prop :=
  match sub_hours now hours with
  | None => res = Raise OverflowError
  | Some since =>
      if bindable device_id then
        exists rows,
          ordered_by timestamp_asc
                     (history_rows d (isoformat_space since) device_id) rows
          /\ res = Ok (map history_dict rows)
      else res = Raise OverflowError
  end.

Definition get_historical_data_run (d : database) (now : datetime) (hours : Z)
           (device_id : option Z) : result (list pydict) :=
  match sub_hours now hours with
  | None => Raise OverflowError
  | Some since =>
      if bindable device_id then
        Ok (map history_dict
              (sort_by (fun a b => String.leb (row_timestamp a) (row_timestamp b))
                       (history_rows d (isoformat_space since) device_id)))
      else Raise OverflowError
  end.

(* ================================================================== *)
(** * Query facade *)

Inductive body : Type :=
| ErrorBody (error : string)       (* jsonify({"error": ...}) *)
| DictBody (data : pydict)         (* jsonify(data), a measurement *)
| ListBody (data : list pydict).   (* jsonify(data), a history *)

(** What a view function returns: the body and the HTTP status. *)
Definition response : Type := (body * Z)%type.

(** A view function runs up to its answer, up to an exception that leaves
    it before the store is called, or up to its call of the store; in the
    last case [k] is the rest of the function, given what the store
    returned. *)
Inductive handler : Type :=
| Respond (r : response)
| Raises (e : exn)
| CallLatest (device_id : option Z) (k : option pydict -> response)
| CallHistory (hours : Z) (device_id : option Z) (k : list pydict -> response).

(** [SELECT 1 FROM devices WHERE id = ? AND active = 1], [fetch_one], for an
    id that can be bound. *)
Definition device_exists (d : database) (device_id : Z) : bool :=
  existsb (fun r => (d_id r =? device_id) && d_active r) (devices d).

(** The validation of [device_id] that both view functions run: [Ok None]
    when the request passes it.  An id of 1 or more is bound to the [?] of
    the [SELECT]: beyond 64 bits this raises [OverflowError], which nothing
    in the view function handles. *)
Definition check_device_id (d : database) (device_id : option Z)
  : result (option response) :=
  match device_id with
  | None => Ok None
  | Some i =>
      if i <? 1 then
        Ok (Some (ErrorBody "Device ID must be a positive integer", 400))
      else if negb (fits_int64 i) then Raise OverflowError
      else if negb (device_exists d i) then
        Ok (Some (ErrorBody "Active device not found", 404))
      else Ok None
  end.

Definition api_current (d : database) (device_id : option Z) : handler :=
  match check_device_id d device_id with
  | Raise e => Raises e
  | Ok (Some r) => Respond r
  | Ok None =>
      CallLatest device_id
        (fun data => match data with
                     | Some row => (DictBody row, 200)
                     | None => (ErrorBody "No data available", 404)
                     end)
  end.

Definition api_history (d : database) (hours : Z) (device_id : option Z) : handler :=
  if (hours <? 1) || (168 <? hours) then
    Respond (ErrorBody "Hours must be between 1 and 168", 400)
  else
    match check_device_id d device_id with
    | Raise e => Raises e
    | Ok (Some r) => Respond r
    | Ok None => CallHistory hours device_id (fun data => (ListBody data, 200))
    end.

(** The handler calls the store. *)
Definition calls_store (h : handler) : bool :=
  match h with Respond _ | Raises _ => false | _ => true end.

(** Flask's answer to an exception that leaves a view function. *)
Definition internal_server_error : response :=
  (ErrorBody "Internal Server Error", 500).

(** The answer to a request: the store is the one of this file. *)
Definition serve (d : database) (now : datetime) (h : handler) (r : response) : Prop :=
  match h with
  | Respond r0 => r = r0
  | Raises _ => r = internal_server_error
  | CallLatest device_id k =>
      exists res, get_latest_measurement d device_id res
                  /\ r = match res with
                         | Ok row => k row
                         | Raise _ => internal_server_error
                         end
  | CallHistory hours device_id k =>
      exists res, get_historical_data d now hours device_id res
                  /\ r = match res with
                         | Ok rows => k rows
                         | Raise _ => internal_server_error
                         end
  end.

(* ================================================================== *)
(** * Device management commands *)

(** [not s] for an option of the command line: absent or empty. *)
Definition not_given (o : option string) : bool :=
  match o with
  | None => true
  | Some s => String.eqb s ""
  end.

(** [SELECT MAX(id) FROM devices]: [None] on an empty table. *)
Definition max_device_id (d : database) : option Z :=
  fold_right
    (fun r acc => match acc with
                  | None => Some (d_id r)
                  | Some a => Some (Z.max (d_id r) a)
                  end)
    None (devices d).

(** [max_id or 0] *)
Definition or_zero (max_id : option Z) : Z :=
  match max_id with
  | Some m => if m =? 0 then 0 else m
  | None => 0
  end.

(** The [if validate:] block of [add_device]: [true] when the command goes
    on to the insertion. *)
Definition validate_connection (env : environment) (test_config : device_config)
           (force : bool) : M bool :=
  emit (Printed "Validating device connection..." None) ;;;
  try_except
    (adapter <- lift (create_device_adapter test_config) ;;
     data <- fetch_data env adapter ;;
     match data with
     | Some _ =>
         emit (Printed "Connection validation successful!" None) ;;; ret true
     | None =>
         emit (Printed "Connection validation failed - no data received" None) ;;;
         if force then ret true
         else emit (Printed "Use --force to add device anyway" None) ;;; ret false
     end)
    is_Exception
    (fun _ =>
       emit (Printed "Connection validation failed" None) ;;;
       if force then ret true
       else emit (Printed "Use --force to add device anyway" None) ;;; ret false).

(** [INSERT INTO devices (id, name, provider, config, active) VALUES ...]:
    [id] is the primary key. *)
Definition insert_device (env : environment) (row : device_row) : M unit :=
  if negb ((int64_min <=? d_id row) && (d_id row <=? int64_max)) then
    raise OverflowError
  else
    d <- get_db ;;
    match sqlite_fault env (d_id row) with
    | Some msg => raise (SqliteError msg)
    | None =>
        if existsb (fun r => d_id r =? d_id row) (devices d)
        then raise (SqliteError "UNIQUE constraint failed: devices.id")
        else put_db (mkDatabase (devices d ++ [row])%list (measurements d)
                                (measurements_seq d))
    end.

(** [flask device add PROVIDER NAME --token --location --validate --force] *)
Definition add_device (env : environment) (provider name : string)
           (token location : option string) (validate force : bool) : M unit :=
  if negb (String.eqb provider "airgradient") then
    emit (LogError "Unknown provider. Supported: airgradient")
  else if not_given token || not_given location then
    emit (LogError "AirGradient devices require --token and --location")
  else
    let config :=
      JObj [ ("api_token", match token with Some t => JStr t | None => JNull end);
             ("location_id", match location with Some l => JStr l | None => JNull end) ] in
    d <- get_db ;;
    let max_id := max_device_id d in
    let device_id := or_zero max_id + 1 in
    proceed <- (if validate
                then validate_connection env (mkConfig device_id name provider config) force
                else ret true) ;;
    if proceed then
      try_except
        (insert_device env (mkDevice device_id name provider (ConfigJson config) true) ;;;
         emit (Printed "Device added successfully" (Some device_id)))
        is_sqlite3_Error
        (fun _ => emit (Printed "Error adding device" None))
    else ret tt.

(** [response.lower() == "y"] on the line read by [input]. *)
Definition is_yes (response : string) : bool :=
  String.eqb response "y" || String.eqb response "Y".

(** [flask device remove DEVICE_ID --force]; [answer] is the line typed at
    the prompt.  The three commands below are modelled for ids that fit 64
    bits: for another id the [SELECT] that looks the device up raises
    [OverflowError] before anything is written, where the model reports that
    the device is not found when no row has the id; the database is as it
    was either way, and only the database after the command is stated. *)
Definition remove_device (env : environment) (device_id : Z) (force : bool)
           (answer : string) : M unit :=
  d <- get_db ;;
  match find (fun r => d_id r =? device_id) (devices d) with
  | None => emit (Printed "Error: Device not found" (Some device_id))
  | Some _ =>
      if negb force && negb (is_yes answer) then emit (Printed "Cancelled." None)
      else
        try_except
          (match sqlite_fault env device_id with
           | Some msg => raise (SqliteError msg)
           | None =>
               put_db (mkDatabase
                         (filter (fun r => negb (d_id r =? device_id)) (devices d))
                         (measurements d) (measurements_seq d)) ;;;
               emit (Printed "Device removed successfully" (Some device_id))
           end)
          is_sqlite3_Error
          (fun _ => emit (Printed "Error removing device" None))
  end.

(** [UPDATE devices SET active = ? WHERE id = ?] *)
Definition set_active (device_id : Z) (a : bool) (d : database) : database :=
  mkDatabase
    (map (fun r => if d_id r =? device_id
                   then mkDevice (d_id r) (d_name r) (d_provider r) (d_config r) a
                   else r)
         (devices d))
    (measurements d) (measurements_seq d).

(** [flask device deactivate DEVICE_ID --force] *)
Definition deactivate_device (env : environment) (device_id : Z) (force : bool)
           (answer : string) : M unit :=
  d <- get_db ;;
  match find (fun r => d_id r =? device_id) (devices d) with
  | None => emit (Printed "Error: Device not found" (Some device_id))
  | Some dev =>
      if negb (d_active dev) then emit (Printed "Device is already inactive" (Some device_id))
      else if negb force && negb (is_yes answer) then emit (Printed "Cancelled." None)
      else
        try_except
          (match sqlite_fault env device_id with
           | Some msg => raise (SqliteError msg)
           | None =>
               put_db (set_active device_id false d) ;;;
               emit (Printed "Device deactivated successfully" (Some device_id))
           end)
          is_sqlite3_Error
          (fun _ => emit (Printed "Error deactivating device" None))
  end.

(** Running a command or a tick from a database, with an empty trace. *)
Definition run {A} (c : M A) (d : database) : result A * state :=
  c (mkState d []).

Definition db_after {A} (c : M A) (d : database) : database :=
  db (snd (run c d)).

Definition trace_of {A} (c : M A) (d : database) : list event :=
  trace (snd (run c d)).

(** The calls counted in a trace. *)
Definition is_CallStore (ev : event) : bool :=
  match ev with CallStore _ => true | _ => false end.

Definition is_CallFetch (ev : event) : bool :=
  match ev with CallFetch _ => true | _ => false end.

Definition count_events (p : event -> bool) (t : list event) : nat :=
  List.length (filter p t).

(* ================================================================== *)
(** * Observations and sample data used by the statements below *)

(** The reading that one pass of the loop body obtains for a device: [None]
    when the adapter cannot be built, when [fetch_data] returns [None] and
    when it raises. *)
Definition fetched_reading (env : environment) (dc : device_config) : option reading :=
  match create_device_adapter dc with
  | Raise _ => None
  | Ok a =>
      match round_trip (requests_get env a) with
      | Raise _ => None
      | Ok data =>
          match standardize a data with
          | Raise _ => None
          | Ok r => Some r
          end
      end
  end.

Definition fetch_succeeds (env : environment) (dc : device_config) : bool :=
  match fetched_reading env dc with Some _ => true | None => false end.

(** The adapter of a device can be built: its provider is known and its
    configuration holds the two items that [__init__] reads. *)
Definition constructible (dc : device_config) : bool :=
  match create_device_adapter dc with Ok _ => true | Raise _ => false end.

(** The conditions called "transport error, timeout, or non-success status":
    [requests.get] raised, or the status is one for which
    [raise_for_status] raises. *)
Definition transport_failure (h : http_result) : Prop :=
  match h with
  | ConnectionFailed _ => True
  | TimedOut => True
  | Response status _ => 400 <= status < 600
  end.

(** A piece of trace that holds no call of the adapter or of the store. *)
Definition logs_only (t : list event) : Prop :=
  filter is_CallStore t = [] /\ filter is_CallFetch t = [].

(** What a run from [s] to [s'] may do in the poller: add [t] to the trace
    and the rows [new] to [measurements]; the [devices] table stays. *)
Definition extends (s s' : state) (t : list event) (new : list measurement_row)
  : Prop :=
  trace s' = (trace s ++ t)%list
  /\ devices (db s') = devices (db s)
  /\ measurements (db s') = (measurements (db s) ++ new)%list.

(** What [set_active] does to one device row, and to a joined row that
    holds it. *)
Definition flagged (device_id : Z) (a : bool) (dv : device_row) : device_row :=
  if d_id dv =? device_id
  then mkDevice (d_id dv) (d_name dv) (d_provider dv) (d_config dv) a
  else dv.

Definition flagged_row (device_id : Z) (a : bool) (r : joined_row) : joined_row :=
  (fst r, flagged device_id a (snd r)).

(** The keys of the two kinds of rows that the store returns. *)
Definition history_keys : list string :=
  ["timestamp"; "pm2"; "co2"; "temperature"; "humidity"; "tvoc"; "nox";
   "device_name"].

Definition latest_keys : list string :=
  ["id"; "device_id"; "timestamp"; "pm1"; "pm2"; "pm10"; "co2"; "temperature";
   "humidity"; "nox"; "tvoc"; "device_name"].

(** A body as the provider sends it. *)
Definition sample_body (ts : json) : json :=
  JObj [ ("locationId", JInt 1234); ("timestamp", ts);
         ("pm01", JInt 3); ("pm02", JInt 5); ("pm10", JInt 7);
         ("rco2", JInt 420); ("atmp", JFloat 215 (-1)); ("rhum", JInt 40);
         ("noxIndex", JInt 1); ("tvocIndex", JInt 100) ].

Definition noon : datetime := mkDatetime 2024 1 1 12 0 0 0 None.

(** A world in which the clock reads [noon], storage never fails and the
    round trip made for device [i] ends as [h i]. *)
Definition sample_env (h : Z -> http_result) : environment :=
  mkEnv (fun a => h (a_device_id a)) (fun _ => noon) (fun _ => None).

Definition answers (ts : json) : Z -> http_result :=
  fun _ => Response 200 (JsonBody (sample_body ts)).

Definition airgradient_config : json :=
  JObj [("api_token", JStr "tok"); ("location_id", JStr "1234")].

Definition sample_device (i : Z) (name : string) (active : bool) : device_row :=
  mkDevice i name "airgradient" (ConfigJson airgradient_config) active.

Definition sample_measurement (i device : Z) (ts : string) : measurement_row :=
  mkMeasurement i device ts (SqlInt 3) (SqlInt 5) (SqlInt 7) (SqlInt 420)
                (SqlReal 215 (-1)) (SqlInt 40) (SqlInt 1) (SqlInt 100).

(** One device, registered with [add_device]. *)
Definition db_one_device : database :=
  db_after (add_device (sample_env (answers JNull)) "airgradient" "kitchen"
                       (Some "tok") (Some "1234") false false)
           empty_database.

(** Its reading stored by one tick, and the device then removed with
    [remove_device]: the measurement stays, its device row is gone. *)
Definition db_orphan : database :=
  db_after (remove_device (sample_env (answers JNull)) 1 true "")
    (db_after (data_fetcher_tick
                 (sample_env (answers (JStr "2024-01-01T11:30:00Z"))))
              db_one_device).

(** Two devices that reported at the same second. *)
Definition db_tie : database :=
  mkDatabase
    [sample_device 1 "kitchen" true; sample_device 2 "attic" true]
    [sample_measurement 1 1 "2024-01-01 11:30:00";
     sample_measurement 2 2 "2024-01-01 11:30:00"]
    2.

(** A device that is polled, then deactivated with [deactivate_device]. *)
Definition db_inactive : database :=
  db_after (deactivate_device (sample_env (answers JNull)) 1 true "")
    (db_after (data_fetcher_tick
                 (sample_env (answers (JStr "2024-01-01T11:30:00Z"))))
              db_one_device).

(** A second device, registered after the first. *)
Definition db_two_devices : database :=
  db_after (add_device (sample_env (answers JNull)) "airgradient" "attic"
                       (Some "tok2") (Some "5678") false false)
           db_one_device.

(** The round trip for device 1 times out; every other device answers. *)
Definition first_times_out : Z -> http_result :=
  fun i => if i =? 1 then TimedOut
           else Response 200 (JsonBody (sample_body (JStr "2024-01-01T11:30:00Z"))).

(* ================================================================== *)
(** * Further views and commands *)

(** The dict that [get_devices] builds from a row of
    [SELECT id, name, provider]. *)
Definition device_dict (r : device_row) : pydict :=
  [ ("id", SqlInt (d_id r));
    ("name", SqlText (d_name r));
    ("provider", SqlText (d_provider r)) ].

Definition name_asc (a b : device_row) : Prop := text_le (d_name a) (d_name b).

(** [get_devices()] returns [res]:
    [SELECT id, name, provider FROM devices WHERE active = 1 ORDER BY name]. *)
Definition get_devices (d : database) (res : list pydict) : Prop :=
  exists rows,
    ordered_by name_asc (filter d_active (devices d)) rows
    /\ res = map device_dict rows.

Definition get_devices_run (d : database) : list pydict :=
  map device_dict
      (sort_by (fun a b => String.leb (d_name a) (d_name b))
               (filter d_active (devices d))).

(** A record of the list that [debug_timestamps] returns. *)
Definition debug_record (r : joined_row) : pydict :=
  let m := fst r in
  [ ("timestamp", SqlText (m_timestamp m));
    ("pm2", m_pm2 m);
    ("co2", m_co2 m);
    ("device_name", SqlText (d_name (snd r))) ].

(** [debug_timestamps()], called when the clock reads [now], returns the
    pair of [current_utc_time] and [recent_records]:
    [... ORDER BY m.timestamp DESC LIMIT 5]. *)
Definition debug_timestamps (d : database) (now : datetime)
           (res : string * list pydict) : Prop :=
  exists rows,
    ordered_by timestamp_desc (joined d) rows
    /\ res = (strftime_ymd_hms now, map debug_record (firstn 5 rows)).

Definition debug_timestamps_run (d : database) (now : datetime)
  : string * list pydict :=
  (strftime_ymd_hms now,
   map debug_record (firstn 5 (sort_by later_first (joined d)))).

(** [flask device test DEVICE_ID].  The [SELECT] that binds the id and
    [json.loads] run before the [try]. *)
Definition test_device (env : environment) (device_id : Z) : M unit :=
  if negb (fits_int64 device_id) then raise OverflowError else
  d <- get_db ;;
  match find (fun r => (d_id r =? device_id) && d_active r) (devices d) with
  | None => emit (Printed "Error: Active device not found" (Some device_id))
  | Some dev =>
      config <- lift (json_loads (d_config dev)) ;;
      emit (Printed "Testing device..." None) ;;;
      try_except
        (adapter <- lift (create_device_adapter
                            (mkConfig device_id (d_name dev) (d_provider dev) config)) ;;
         data <- fetch_data env adapter ;;
         match data with
         | Some _ =>
             emit (Printed "Connection successful!" None) ;;;
             emit (Printed "Sample data" None)
         | None => emit (Printed "Connection failed - no data received" None)
         end)
        is_Exception
        (fun _ => emit (Printed "Connection failed" None))
  end.

(** What [test_device] gives back to the command line: the exceptions of
    the statements before the [try] leave it, those of the [try] block do
    not.  (The engine is taken to answer the [SELECT].) *)
Definition test_device_result (d : database) (device_id : Z) : result unit :=
  if fits_int64 device_id then
    match find (fun r => (d_id r =? device_id) && d_active r) (devices d) with
    | None => Ok tt
    | Some dev =>
        match json_loads (d_config dev) with
        | Ok _ => Ok tt
        | Raise e => Raise e
        end
    end
  else Raise OverflowError.

(** [flask device activate DEVICE_ID] *)
Definition activate_device (env : environment) (device_id : Z) : M unit :=
  d <- get_db ;;
  match find (fun r => d_id r =? device_id) (devices d) with
  | None => emit (Printed "Error: Device not found" (Some device_id))
  | Some dev =>
      if d_active dev then emit (Printed "Device is already active" (Some device_id))
      else
        try_except
          (match sqlite_fault env device_id with
           | Some msg => raise (SqliteError msg)
           | None =>
               put_db (set_active device_id true d) ;;;
               emit (Printed "Device activated successfully" (Some device_id)) ;;;
               emit (Printed "  Data collection will resume." None)
           end)
          is_sqlite3_Error
          (fun _ => emit (Printed "Error activating device" None))
  end.

(** The device ids of the calls of [fetch_data] and of [store_measurement]
    in a trace, in the order of the calls. *)
Definition fetch_calls (t : list event) : list Z :=
  flat_map (fun ev => match ev with CallFetch i => [i] | _ => [] end) t.

Definition store_calls (t : list event) : list Z :=
  flat_map (fun ev => match ev with CallStore i => [i] | _ => [] end) t.

(** The ids of [measurements] are pairwise different, and so are those of
    [devices]: what [PRIMARY KEY] declares. *)
Definition unique_ids (d : database) : Prop :=
  NoDup (map d_id (devices d)) /\ NoDup (map m_id (measurements d)).

(** The instant of a value to the second, in seconds. *)
Definition wall_seconds (t : datetime) : Z :=
  ymd2ord (year t) (month t) (day t) * 86400
  + hour t * 3600 + minute t * 60 + second t.

(** The order of two values by their fields from the year to the second,
    the first difference deciding. *)
Definition then_compare (c k : comparison) : comparison :=
  match c with Eq => k | _ => c end.

Definition fields_compare (a b : datetime) : comparison :=
  then_compare (year a ?= year b)
    (then_compare (month a ?= month b)
       (then_compare (day a ?= day b)
          (then_compare (hour a ?= hour b)
             (then_compare (minute a ?= minute b) (second a ?= second b))))).

(** A text that [strftime('%Y-%m-%d %H:%M:%S')] writes for a valid value. *)
Definition whole_second_text (s : string) : Prop :=
  exists b, valid b = true /\ s = strftime_ymd_hms b.

(** [p] holds of the [n] numbers from [start] on: a check that runs. *)
Definition all_from (start : Z) (n : positive) (p : Z -> bool) : bool :=
  snd (Pos.iter (fun st => (fst st + 1, snd st && p (fst st))) (start, true) n).

(** [ord2ymd] gives a date of the first 400 years whose ordinal is the
    number it was given. *)
Definition ordinal_round_trips (n : Z) : bool :=
  let '(y, m, d) := ord2ymd n in
  (ymd2ord y m d =? n) && (1 <=? y) && (y <=? 400)
  && (1 <=? m) && (m <=? 12) && (1 <=? d) && (d <=? days_in_month y m).

(** The provider's text for the fields of [t] followed by [suffix]:
    [YYYY-MM-DDTHH:MM:SS<suffix>]. *)
Definition provider_text (t : datetime) (suffix : string) : string :=
  pad4 (year t) ++ "-" ++ pad2 (month t) ++ "-" ++ pad2 (day t) ++ "T"
  ++ pad2 (hour t) ++ ":" ++ pad2 (minute t) ++ ":" ++ pad2 (second t) ++ suffix.

(** An offset as [isoformat] writes it: a sign, then [HH:MM]. *)
Definition offset_text (negative : bool) (hh mm : Z) : string :=
  (if negative then "-" else "+") ++ pad2 hh ++ ":" ++ pad2 mm.

(* ================================================================== *)
(** * Facts about the text order and about sorting *)

Section TextOrder.

Lemma ascii_compare_refl (c : ascii) : Ascii.compare c c = Eq.
Proof. unfold Ascii.compare. apply N.compare_refl. Qed.

Lemma ascii_compare_lt_trans (a b c : ascii) :
  Ascii.compare a b = Lt -> Ascii.compare b c = Lt -> Ascii.compare a c = Lt.
Proof.
  unfold Ascii.compare. rewrite !N.compare_lt_iff. apply N.lt_trans.
Qed.

Lemma string_compare_refl (s : string) : String.compare s s = Eq.
Proof.
  induction s as [| c s IH]; simpl; [reflexivity |].
  now rewrite ascii_compare_refl.
Qed.

Lemma string_compare_lt_trans (a b c : string) :
  String.compare a b = Lt -> String.compare b c = Lt -> String.compare a c = Lt.
Proof.
  revert b c. induction a as [| x a IH]; intros [| y b] [| z c]; simpl;
    try discriminate; try reflexivity.
  destruct (Ascii.compare x y) eqn:Exy; try discriminate;
    destruct (Ascii.compare y z) eqn:Eyz; try discriminate; intros H1 H2.
  - apply Ascii.compare_eq_iff in Exy, Eyz. subst.
    rewrite ascii_compare_refl. eauto.
  - apply Ascii.compare_eq_iff in Exy. subst. now rewrite Eyz.
  - apply Ascii.compare_eq_iff in Eyz. subst. now rewrite Exy.
  - now rewrite (ascii_compare_lt_trans _ _ _ Exy Eyz).
Qed.

Lemma text_le_refl (a : string) : text_le a a.
Proof. unfold text_le, String.leb. now rewrite string_compare_refl. Qed.

Lemma text_le_cases (a b : string) : text_le a b <-> a = b \/ text_lt a b.
Proof.
  unfold text_le, text_lt, String.leb, String.ltb.
  destruct (String.compare a b) eqn:E; split; intros H; auto; try discriminate.
  - left. now apply String.compare_eq_iff.
  - destruct H as [-> | H]; [| discriminate].
    now rewrite string_compare_refl in E.
Qed.

Lemma text_lt_trans (a b c : string) : text_lt a b -> text_lt b c -> text_lt a c.
Proof.
  unfold text_lt, String.ltb. intros H1 H2.
  destruct (String.compare a b) eqn:E1; try discriminate.
  destruct (String.compare b c) eqn:E2; try discriminate.
  now rewrite (string_compare_lt_trans _ _ _ E1 E2).
Qed.

Lemma text_le_trans (a b c : string) : text_le a b -> text_le b c -> text_le a c.
Proof.
  rewrite !text_le_cases. intros [-> | H1] [-> | H2]; auto.
  right. eapply text_lt_trans; eauto.
Qed.

Lemma text_le_total (a b : string) : text_le a b \/ text_le b a.
Proof. apply String.leb_total. Qed.

Lemma text_lt_irrefl (a : string) : ~ text_lt a a.
Proof.
  unfold text_lt, String.ltb. now rewrite string_compare_refl.
Qed.

Lemma text_lt_le_trans (a b c : string) : text_lt a b -> text_le b c -> text_lt a c.
Proof.
  rewrite text_le_cases. intros H [-> | H2]; auto. eapply text_lt_trans; eauto.
Qed.

End TextOrder.

Section Sorting.

Context {A : Type} (leb : A -> A -> bool).
Hypothesis leb_total : forall a b, leb a b = true \/ leb b a = true.
Hypothesis leb_trans : forall a b c, leb a b = true -> leb b c = true -> leb a c = true.

Let le (a b : A) : Prop := leb a b = true.

Lemma insert_by_perm (x : A) (l : list A) : Permutation (x :: l) (insert_by leb x l).
Proof.
  induction l as [| y l IH]; simpl; [apply Permutation_refl |].
  destruct (leb x y); [apply Permutation_refl |].
  eapply perm_trans; [apply perm_swap |]. now apply perm_skip.
Qed.

Lemma sort_by_perm (l : list A) : Permutation l (sort_by leb l).
Proof.
  induction l as [| x l IH]; simpl; [apply perm_nil |].
  eapply perm_trans; [apply perm_skip, IH |]. apply insert_by_perm.
Qed.

Lemma insert_by_sorted (x : A) (l : list A) :
  StronglySorted le l -> StronglySorted le (insert_by leb x l).
Proof.
  induction 1 as [| y l Hs IH Hy]; simpl.
  - constructor; constructor.
  - destruct (leb x y) eqn:E.
    + constructor; [now constructor |].
      constructor; [exact E |].
      eapply Forall_impl; [| exact Hy]. intros z Hz. eapply leb_trans; eauto.
    + constructor; [exact IH |].
      assert (Hyx : le y x) by (destruct (leb_total x y); congruence).
      eapply Permutation_Forall; [apply insert_by_perm |].
      now constructor.
Qed.

Lemma sort_by_sorted (l : list A) : StronglySorted le (sort_by leb l).
Proof.
  induction l as [| x l IH]; simpl; [constructor | now apply insert_by_sorted].
Qed.

Lemma sort_by_ordered (l : list A) : ordered_by le l (sort_by leb l).
Proof. split; [apply sort_by_perm | apply sort_by_sorted]. Qed.

End Sorting.

Section OrderedBy.

Context {A : Type} (le : A -> A -> Prop).

Lemma ordered_by_nil (out : list A) : ordered_by le [] out -> out = [].
Proof. intros [H _]. now apply Permutation_nil. Qed.

Lemma ordered_by_nonempty (l out : list A) :
  ordered_by le l out -> l <> [] -> out <> [].
Proof.
  intros [H _] Hl ->. apply Hl. apply Permutation_nil. now apply Permutation_sym.
Qed.

(** The first row of an ordered output comes from the input and is before
    every input row. *)
Lemma ordered_by_head (l : list A) (x : A) (r : list A) :
  (forall a, le a a) ->
  ordered_by le l (x :: r) -> In x l /\ forall y, In y l -> le x y.
Proof.
  intros Hrefl [Hp Hs]. split.
  - eapply Permutation_in; [apply Permutation_sym, Hp | now left].
  - intros y Hy. apply (Permutation_in _ Hp) in Hy.
    apply StronglySorted_inv in Hs as [_ Hall].
    destruct Hy as [<- | Hy]; [apply Hrefl |].
    rewrite Forall_forall in Hall. now apply Hall.
Qed.

End OrderedBy.

(* ================================================================== *)
(** * Facts about the queries *)

Section Queries.

(** A joined row is a measurement together with a device row that carries
    its [device_id]; the [active] column plays no part. *)
Lemma in_joined (d : database) (r : joined_row) :
  In r (joined d) <->
  In (fst r) (measurements d) /\ In (snd r) (devices d)
  /\ d_id (snd r) = m_device_id (fst r).
Proof.
  unfold joined. rewrite in_flat_map. split.
  - intros (m & Hm & Hr). apply in_map_iff in Hr as (dv & <- & Hdv).
    apply filter_In in Hdv as [Hdv E]. apply Z.eqb_eq in E. simpl. auto.
  - intros (Hm & Hdv & E). exists (fst r). split; [exact Hm |].
    apply in_map_iff. exists (snd r). split; [now destruct r |].
    apply filter_In. split; [exact Hdv | now apply Z.eqb_eq].
Qed.

Lemma latest_rows_None (d : database) : latest_rows d None = joined d.
Proof.
  unfold latest_rows. simpl. induction (joined d) as [| r l IH]; simpl; congruence.
Qed.

(** The order of [later_first], spelled out. *)
Lemma later_first_spec (a b : joined_row) :
  timestamp_desc a b <->
  text_lt (row_timestamp b) (row_timestamp a)
  \/ (row_timestamp b = row_timestamp a /\ m_id (fst b) <= m_id (fst a)).
Proof.
  unfold timestamp_desc, later_first, text_lt, String.ltb.
  destruct (String.compare (row_timestamp b) (row_timestamp a)) eqn:E.
  - apply String.compare_eq_iff in E. rewrite Z.leb_le. split; [auto |].
    intros [H | [_ H]]; [discriminate | exact H].
  - tauto.
  - split; [discriminate |]. intros [H | [H _]]; [discriminate |].
    rewrite H, string_compare_refl in E. discriminate.
Qed.

Lemma timestamp_desc_le (a b : joined_row) :
  timestamp_desc a b -> text_le (row_timestamp b) (row_timestamp a).
Proof.
  intros H. apply later_first_spec in H. apply text_le_cases.
  destruct H as [H | [H _]]; auto.
Qed.

Lemma timestamp_desc_tie (a b : joined_row) :
  timestamp_desc a b -> row_timestamp b = row_timestamp a ->
  m_id (fst b) <= m_id (fst a).
Proof.
  intros H E. apply later_first_spec in H. destruct H as [H | [_ H]]; [| exact H].
  rewrite E in H. now apply text_lt_irrefl in H.
Qed.

Lemma timestamp_desc_refl (a : joined_row) : timestamp_desc a a.
Proof. apply later_first_spec. right. split; [reflexivity | lia]. Qed.

Lemma later_first_total (a b : joined_row) :
  later_first a b = true \/ later_first b a = true.
Proof.
  fold (timestamp_desc a b). fold (timestamp_desc b a). rewrite !later_first_spec.
  destruct (text_le_total (row_timestamp a) (row_timestamp b)) as [H | H];
    apply text_le_cases in H as [E | H]; auto.
  - destruct (Z.le_ge_cases (m_id (fst a)) (m_id (fst b))); [right | left]; auto.
  - destruct (Z.le_ge_cases (m_id (fst a)) (m_id (fst b))); [right | left]; auto.
Qed.

Lemma later_first_trans (a b c : joined_row) :
  later_first a b = true -> later_first b c = true -> later_first a c = true.
Proof.
  fold (timestamp_desc a b). fold (timestamp_desc b c). fold (timestamp_desc a c).
  rewrite !later_first_spec.
  intros [H1 | [E1 H1]] [H2 | [E2 H2]].
  - left. eapply text_lt_trans; eauto.
  - left. now rewrite E2.
  - left. now rewrite <- E1.
  - right. split; [congruence | lia].
Qed.

Lemma sort_later_first (l : list joined_row) :
  ordered_by timestamp_desc l (sort_by later_first l).
Proof.
  apply (sort_by_ordered later_first later_first_total later_first_trans).
Qed.

(** The executable run of [get_latest_measurement] is one of its answers. *)
Lemma get_latest_measurement_run_ok (d : database) (device_id : option Z) :
  get_latest_measurement d device_id (get_latest_measurement_run d device_id).
Proof.
  unfold get_latest_measurement, get_latest_measurement_run.
  destruct (bindable device_id); [| reflexivity].
  eexists. split; [apply sort_later_first | reflexivity].
Qed.

(** Every answer of [get_latest_measurement] is a row of the query that no
    other row of the query follows in the order of the engine: none has a
    greater timestamp, and none of those with the same timestamp a greater
    row id.  There is no row only when the query has none, and an exception
    only when the device id cannot be bound. *)
Lemma get_latest_measurement_spec (d : database) (device_id : option Z)
      (res : result (option pydict)) :
  get_latest_measurement d device_id res ->
  match res with
  | Raise e => bindable device_id = false /\ e = OverflowError
  | Ok None => bindable device_id = true /\ latest_rows d device_id = []
  | Ok (Some row) =>
      exists r, In r (latest_rows d device_id) /\ row = latest_dict r
                /\ (forall r', In r' (latest_rows d device_id) ->
                                text_le (row_timestamp r') (row_timestamp r))
                /\ (forall r', In r' (latest_rows d device_id) ->
                                row_timestamp r' = row_timestamp r ->
                                m_id (fst r') <= m_id (fst r))
  end.
Proof.
  unfold get_latest_measurement. destruct (bindable device_id).
  - intros (rows & Ho & ->). destruct rows as [| x rows]; simpl.
    + split; [reflexivity |].
      destruct Ho as [Hp _]. apply Permutation_sym in Hp. now apply Permutation_nil.
    + exists x. apply ordered_by_head in Ho as [Hin Hmax]; [| apply timestamp_desc_refl].
      split; [exact Hin |]. split; [reflexivity |]. split.
      * intros r' Hr'. apply timestamp_desc_le. now apply Hmax.
      * intros r' Hr' E. apply timestamp_desc_tie; [now apply Hmax | exact E].
  - intros ->. auto.
Qed.

(** A row of the query that is first in the order of the engine is an
    answer. *)
Lemma get_latest_measurement_any_max (d : database) (device_id : option Z)
      (r : joined_row) :
  bindable device_id = true ->
  In r (latest_rows d device_id) ->
  (forall r', In r' (latest_rows d device_id) -> timestamp_desc r r') ->
  get_latest_measurement d device_id (Ok (Some (latest_dict r))).
Proof.
  intros Hb Hin Hmax. unfold get_latest_measurement. rewrite Hb.
  apply in_split in Hin as (l1 & l2 & E).
  set (rest := sort_by later_first (l1 ++ l2)%list).
  exists (r :: rest). split; [| reflexivity]. split.
  - rewrite E. eapply perm_trans; [apply Permutation_sym, Permutation_middle |].
    apply perm_skip. apply sort_by_perm.
  - constructor.
    + apply (sort_by_sorted later_first later_first_total later_first_trans).
    + apply Forall_forall. intros y Hy. apply Hmax.
      apply (Permutation_in _ (Permutation_sym (sort_by_perm _ _))) in Hy.
      rewrite E. apply in_or_app. apply in_app_or in Hy as [Hy | Hy]; [now left |].
      right. now right.
Qed.

Lemma get_historical_data_run_ok (d : database) (now : datetime) (hours : Z)
      (device_id : option Z) :
  get_historical_data d now hours device_id
                      (get_historical_data_run d now hours device_id).
Proof.
  unfold get_historical_data, get_historical_data_run.
  destruct (sub_hours now hours) as [since |]; [| reflexivity].
  destruct (bindable device_id); [| reflexivity].
  eexists. split; [| reflexivity].
  apply (sort_by_ordered (fun a b => String.leb (row_timestamp a) (row_timestamp b))).
  - intros a b. apply String.leb_total.
  - intros a b c. apply text_le_trans.
Qed.

(** What a result of [get_historical_data] tells. *)
Lemma get_historical_data_inv (d : database) (now : datetime) (hours : Z)
      (device_id : option Z) (res : result (list pydict)) :
  get_historical_data d now hours device_id res ->
  match res with
  | Ok out =>
      exists since rows,
        sub_hours now hours = Some since /\ bindable device_id = true
        /\ ordered_by timestamp_asc
                      (history_rows d (isoformat_space since) device_id) rows
        /\ out = map history_dict rows
  | Raise e =>
      e = OverflowError
      /\ (sub_hours now hours = None \/ bindable device_id = false)
  end.
Proof.
  unfold get_historical_data.
  destruct (sub_hours now hours) as [since |]; [| intros ->; auto].
  destruct (bindable device_id); [| intros ->; auto].
  intros (rows & Ho & ->). exists since, rows. auto.
Qed.

Lemma in_history_rows (d : database) (since : string) (device_id : option Z)
      (r : joined_row) :
  In r (history_rows d since device_id) <->
  In r (joined d) /\ text_lt since (row_timestamp r)
  /\ device_filter device_id r = true.
Proof.
  unfold history_rows. rewrite filter_In, andb_true_iff. unfold text_lt. tauto.
Qed.

End Queries.


(* ================================================================== *)
(** * Store: the timestamp of an appended row *)

Section Timestamps.

Variable env : environment.

(** A reading whose timestamp is absent ([None], or an empty string) is
    stored with the clock's UTC reading at the moment of storage. *)
Lemma timestamp_absent_uses_clock (data : reading) :
  truthy (timestamp data) = false ->
  timestamp_str env data = Ok (strftime_ymd_hms (utcnow env (device_id data))).
Proof. unfold timestamp_str. now intros ->. Qed.

(** A provider timestamp is stored with the fields it is written with: the
    offset it carries is dropped, whatever it is. *)
Lemma timestamp_keeps_written_fields (data : reading) (s : string) (t : datetime) :
  timestamp data = JStr s -> s <> "" ->
  fromisoformat (replace_Z s) = Some t ->
  timestamp_str env data = Ok (strftime_ymd_hms t).
Proof.
  intros E Hs Hp. unfold timestamp_str. rewrite E. simpl.
  destruct (String.eqb_spec s ""); [contradiction |]. simpl.
  now rewrite Hp.
Qed.

(** The wall clock that is stored is ahead of the instant that was sent by
    exactly the offset: it is the UTC reading only for an offset of zero. *)
Lemma stored_wall_clock_vs_instant (t : datetime) :
  wall_usec (replace_tzinfo_None t) - utc_usec t
  = match tzinfo t with Some off => off | None => 0 end.
Proof. unfold utc_usec, wall_usec. simpl. lia. Qed.

Example timestamp_Z_example (dev : Z) (v : json) :
  timestamp_str env (mkReading dev (JStr "2024-01-01T00:00:00Z") v v v v v v v v)
  = Ok "2024-01-01 00:00:00".
Proof. reflexivity. Qed.

End Timestamps.

(** C1 (code at the failing input).  Storing a reading whose provider
    timestamp is "2024-01-01T02:00:00+02:00" writes the text
    "2024-01-01 02:00:00" in the [timestamp] column: the offset is dropped,
    not applied.  The instant that was sent is 2024-01-01 00:00:00 UTC, whose
    text would be "2024-01-01 00:00:00". *)
Theorem store_measurement_drops_offset :
  let sent := "2024-01-01T02:00:00+02:00" in
  let env := sample_env (answers (JStr sent)) in
  map m_timestamp
      (measurements (db_after (data_fetcher_tick env) db_one_device))
  = ["2024-01-01 02:00:00"]
  /\ (forall e dev v,
        timestamp_str e (mkReading dev (JStr sent) v v v v v v v v)
        = Ok "2024-01-01 02:00:00")
  /\ option_map utc_usec (fromisoformat (replace_Z sent))
     = Some (wall_usec (mkDatetime 2024 1 1 0 0 0 0 None))
  /\ strftime_ymd_hms (mkDatetime 2024 1 1 0 0 0 0 None) = "2024-01-01 00:00:00".
Proof. repeat split. Qed.

(* ================================================================== *)
(** * Adapter *)

(** C8 (as the claim reads).  A response of status 200 whose body is the
    JSON list [[]] makes [fetch_data] raise [AttributeError]: it is no
    [RequestException], and it leaves the function.  And a status that is no
    success, 300, with a JSON object as its body, gives a reading, not
    [None]: [raise_for_status] raises from 400 on only. *)
Lemma fetch_data_counterexample :
  let a := mkAdapter (mkConfig 1 "kitchen" "airgradient" airgradient_config)
                     "kitchen" 1 (JStr "tok") (JStr "1234") in
  let s := mkState db_one_device [] in
  fst (fetch_data (sample_env (fun _ => Response 200 (JsonBody (JArr [])))) a s)
  = Raise AttributeError
  /\ fst (fetch_data (sample_env (fun _ => Response 200 (NotJson false))) a s)
     = Raise (ValueError "JSONDecodeError")
  /\ exists r,
       fst (fetch_data
              (sample_env (fun _ => Response 300 (JsonBody (JObj [("rco2", JInt 400)]))))
              a s)
       = Ok (Some r).
Proof. split; [reflexivity |]. split; [reflexivity |]. eexists. reflexivity. Qed.

(** C8 (amended).  Whenever the round trip ends in a transport error, a
    timeout or a status for which [raise_for_status] raises (400 to 599),
    [fetch_data] returns [None]: it does not raise, and it leaves the
    database as it was.  It raises exactly on a response of another status
    whose body is JSON but no object ([AttributeError]), or is no JSON while
    the decoding error is the one of [json] ([ValueError]).  On a response
    of another status whose body is a JSON object it returns a reading, be
    the status a success or not; and when the body is no JSON and the
    decoding error is the one of [requests], it returns [None]. *)
Theorem fetch_data_absent_on_failure (env : environment) (a : adapter) (s : state) :
  (transport_failure (requests_get env a) ->
   fst (fetch_data env a s) = Ok None
   /\ db (snd (fetch_data env a s)) = db s)
  /\ (forall e,
         fst (fetch_data env a s) = Raise e ->
         exists status body,
           requests_get env a = Response status body
           /\ ~ (400 <= status < 600)
           /\ ((exists v, body = JsonBody v /\ (forall f, v <> JObj f)
                          /\ e = AttributeError)
               \/ (body = NotJson false /\ e = ValueError "JSONDecodeError")))
  /\ (forall status body,
         requests_get env a = Response status body ->
         ~ (400 <= status < 600) ->
         match body with
         | JsonBody (JObj f) => exists r, fst (fetch_data env a s) = Ok (Some r)
         | JsonBody _ => fst (fetch_data env a s) = Raise AttributeError
         | NotJson true => fst (fetch_data env a s) = Ok None
         | NotJson false => fst (fetch_data env a s) = Raise (ValueError "JSONDecodeError")
         end).
Proof.
  unfold fetch_data, bind, try_except, emit, lift, round_trip, ret, raise.
  simpl. destruct (requests_get env a) as [kind | | status body]; simpl.
  - split; [auto |]. split; [discriminate | discriminate].
  - split; [auto |]. split; [discriminate | discriminate].
  - destruct ((400 <=? status) && (status <? 600)) eqn:E; simpl.
    + apply andb_true_iff in E as [E1 E2]. apply Z.leb_le in E1. apply Z.ltb_lt in E2.
      split; [auto |]. split; [discriminate |].
      intros status' body' [= <- _] N. lia.
    + assert (N : ~ (400 <= status < 600)).
      { intros [N1 N2]. apply Z.leb_le in N1. apply Z.ltb_lt in N2.
        rewrite N1, N2 in E. discriminate. }
      split; [intros H; contradiction |]. split.
      * intros e He. exists status, body. split; [reflexivity |]. split; [exact N |].
        destruct body as [v | []]; simpl in He.
        -- left. exists v. split; [reflexivity |].
           destruct v; simpl in He; try discriminate;
             (split; [discriminate | congruence]).
        -- discriminate.
        -- right. split; [reflexivity | congruence].
      * intros status' body' [= <- <-] _.
        destruct body as [v | []]; simpl; try reflexivity.
        destruct v; simpl; try reflexivity. eauto.
Qed.

Lemma fetch_data_absent_on_failure_witness :
  let env := sample_env (fun _ => Response 503 (NotJson false)) in
  let a := mkAdapter (mkConfig 1 "kitchen" "airgradient" airgradient_config)
                     "kitchen" 1 (JStr "tok") (JStr "1234") in
  transport_failure (requests_get env a)
  /\ fst (fetch_data env a (mkState db_one_device [])) = Ok None.
Proof.
  intros env a.
  assert (H : transport_failure (requests_get env a)) by (simpl; lia).
  split; [exact H |].
  exact (proj1 (proj1 (fetch_data_absent_on_failure env a (mkState db_one_device [])) H)).
Defined.

(* ================================================================== *)
(** * Query facade *)





(** A request that passes the check names no device, or an active one whose
    id can be bound. *)
Lemma check_device_id_passes (d : database) (device_id : option Z) :
  check_device_id d device_id = Ok None ->
  bindable device_id = true
  /\ forall i, device_id = Some i -> 1 <= i /\ device_exists d i = true.
Proof.
  unfold check_device_id, bindable. destruct device_id as [i |].
  - destruct (Z.ltb_spec i 1); [discriminate |].
    destruct (fits_int64 i); cbn [negb]; [| discriminate].
    destruct (device_exists d i) eqn:E; cbn [negb]; [| discriminate].
    intros _. split; [reflexivity |]. intros j [= <-]. auto.
  - intros _. split; [reflexivity | discriminate].
Qed.




(** A request that is rejected does not reach the store. *)
Lemma rejected_without_store_call (h : handler) (r : response) :
  h = Respond r -> calls_store h = false.
Proof. now intros ->. Qed.

(** A request that passes the checks is answered with what the store
    returned. *)
Lemma api_history_passes (d : database) (hours : Z) (device_id : option Z) :
  1 <= hours <= 168 -> check_device_id d device_id = Ok None ->
  exists k, api_history d hours device_id = CallHistory hours device_id k
            /\ forall rows, k rows = (ListBody rows, 200).
Proof.
  intros [H1 H2] E. unfold api_history.
  destruct (Z.ltb_spec hours 1); [lia |].
  destruct (Z.ltb_spec 168 hours); [lia |]. cbn [orb]. rewrite E. eauto.
Qed.

(* ================================================================== *)
(** * Store: the rows that the window query returns *)

Section Projections.

Lemma history_dict_keys (r : joined_row) : keys (history_dict r) = history_keys.
Proof. reflexivity. Qed.

Lemma latest_dict_keys (r : joined_row) : keys (latest_dict r) = latest_keys.
Proof. reflexivity. Qed.

(** Every row that [get_historical_data] returns is the projection of a row
    of its query. *)
Lemma get_historical_data_rows (d : database) (now : datetime) (hours : Z)
      (device_id : option Z) (rows : list pydict) (row : pydict) :
  get_historical_data d now hours device_id (Ok rows) -> In row rows ->
  exists since r,
    sub_hours now hours = Some since
    /\ In r (history_rows d (isoformat_space since) device_id)
    /\ row = history_dict r.
Proof.
  intros H Hin.
  apply get_historical_data_inv in H as (since & out & Hs & _ & [Hp _] & ->).
  apply in_map_iff in Hin as (r & <- & Hr).
  exists since, r. split; [exact Hs |]. split; [| reflexivity].
  eapply Permutation_in; [apply Permutation_sym, Hp | exact Hr].
Qed.

End Projections.

(** C10.  Every row in a result of the window query has exactly the keys
    timestamp, pm2, co2, temperature, humidity, tvoc, nox and device_name, in
    that order, with the values of one joined row; pm1, pm10, id and
    device_id are not among them.  A row returned by the latest query has
    the twelve keys of [SELECT m.*, d.name], which contain these four. *)
Theorem window_rows_are_projections (d : database) (now : datetime) (hours : Z)
        (device_id : option Z) :
  (forall rows row,
      get_historical_data d now hours device_id (Ok rows) -> In row rows ->
      keys row = history_keys
      /\ (exists r, In r (joined d) /\ row = history_dict r)
      /\ forall k, In k ["pm1"; "pm10"; "id"; "device_id"] -> ~ In k (keys row))
  /\ (forall row,
         get_latest_measurement d device_id (Ok (Some row)) ->
         keys row = latest_keys
         /\ forall k, In k ["pm1"; "pm10"; "id"; "device_id"] -> In k (keys row)).
Proof.
  split.
  - intros rows row H Hin.
    destruct (get_historical_data_rows _ _ _ _ _ _ H Hin) as (since & r & _ & Hr & ->).
    rewrite history_dict_keys. repeat split.
    + exists r. split; [| reflexivity]. now apply in_history_rows in Hr.
    + intros k Hk Hin'. simpl in Hk, Hin'.
      repeat (destruct Hk as [<- | Hk];
              [repeat (destruct Hin' as [Hin' | Hin']; [discriminate |]); contradiction |]).
      contradiction.
  - intros row H. apply get_latest_measurement_spec in H as (r & _ & -> & _).
    rewrite latest_dict_keys. split; [reflexivity |].
    intros k Hk. simpl in Hk. simpl.
    repeat (destruct Hk as [<- | Hk]; [tauto |]). contradiction.
Qed.

Lemma window_rows_are_projections_witness :
  (exists row,
      get_historical_data_run db_inactive noon 1 None = Ok [row]
      /\ keys row = history_keys
      /\ ~ In "pm1" (keys row))
  /\ (exists row,
         get_latest_measurement_run db_inactive None = Ok (Some row)
         /\ keys row = latest_keys
         /\ In "pm1" (keys row)).
Proof.
  pose proof (window_rows_are_projections db_inactive noon 1 None) as [Hw Hl].
  split.
  - eexists. split; [reflexivity |].
    edestruct Hw as (Hk & _ & Hno).
    + rewrite <- (eq_refl : get_historical_data_run db_inactive noon 1 None = Ok _).
      apply get_historical_data_run_ok.
    + left. reflexivity.
    + split; [exact Hk |]. apply Hno. simpl. tauto.
  - eexists. split; [reflexivity |].
    edestruct Hl as (Hk & Hyes).
    + rewrite <- (eq_refl : get_latest_measurement_run db_inactive None = Ok (Some _)).
      apply get_latest_measurement_run_ok.
    + split; [exact Hk |]. apply Hyes. simpl. tauto.
Defined.

(* ================================================================== *)
(** * Adapter and store: what one call leaves behind *)

Section Calls.

Variable env : environment.

Lemma create_device_adapter_fields (dc : device_config) (a : adapter) :
  create_device_adapter dc = Ok a ->
  a_device_id a = cfg_id dc /\ a_name a = cfg_name dc.
Proof.
  unfold create_device_adapter, AirGradientAdapter.
  destruct (String.eqb (cfg_provider dc) "airgradient"); [| discriminate].
  destruct (config_item (cfg_config dc) "api_token"); [| discriminate].
  destruct (config_item (cfg_config dc) "location_id"); [| discriminate].
  now intros [= <-].
Qed.

Lemma standardize_device_id (a : adapter) (data : json) (r : reading) :
  standardize a data = Ok r -> device_id r = a_device_id a.
Proof. destruct data; simpl; try discriminate. now intros [= <-]. Qed.

(** [fetch_data] leaves the database alone, records its call, and returns
    the standardized body, [None] on a [RequestException]; any other
    exception leaves it. *)
Lemma fetch_data_spec (a : adapter) (s : state) :
  exists t,
    snd (fetch_data env a s)
    = mkState (db s) (trace s ++ CallFetch (a_device_id a) :: t)
    /\ logs_only t
    /\ fst (fetch_data env a s)
       = match round_trip (requests_get env a) with
         | Ok data => match standardize a data with
                      | Ok r => Ok (Some r)
                      | Raise e => Raise e
                      end
         | Raise e => if is_RequestException e then Ok None else Raise e
         end.
Proof.
  unfold fetch_data, bind, try_except, emit, lift, ret, raise, logs_only. simpl.
  destruct (round_trip (requests_get env a)) as [data | e]; simpl.
  - destruct (standardize a data) as [r | e] eqn:E; simpl.
    + eexists. rewrite <- app_assoc. simpl. repeat split.
    + destruct data; simpl in E; try discriminate;
        injection E as <-; simpl;
        eexists; rewrite <- app_assoc; simpl; repeat split.
  - destruct (is_RequestException e); simpl.
    + eexists. rewrite <- app_assoc. simpl. repeat split.
    + exists []. repeat split.
Qed.

End Calls.

Section Extends.

Lemma extends_refl (s : state) : extends s s [] [].
Proof. unfold extends. now rewrite !app_nil_r. Qed.

Lemma extends_trans (s s1 s2 : state) (t1 t2 : list event)
      (n1 n2 : list measurement_row) :
  extends s s1 t1 n1 -> extends s1 s2 t2 n2 ->
  extends s s2 (t1 ++ t2) (n1 ++ n2).
Proof.
  intros (Ht1 & Hd1 & Hm1) (Ht2 & Hd2 & Hm2). unfold extends.
  rewrite Ht2, Ht1, Hd2, Hd1, Hm2, Hm1, !app_assoc. auto.
Qed.

Lemma extends_log (s : state) (t : list event) :
  extends s (mkState (db s) (trace s ++ t)) t [].
Proof. unfold extends. simpl. now rewrite app_nil_r. Qed.

Lemma extends_emit (s s' : state) (t : list event) (new : list measurement_row)
      (ev : event) :
  extends s s' t new ->
  extends s (mkState (db s') (trace s' ++ [ev])) (t ++ [ev]) new.
Proof.
  intros (Ht & Hd & Hm). unfold extends. simpl. rewrite Ht, app_assoc. auto.
Qed.

Lemma count_events_app (p : event -> bool) (t1 t2 : list event) :
  count_events p (t1 ++ t2) = (count_events p t1 + count_events p t2)%nat.
Proof. unfold count_events. now rewrite filter_app, length_app. Qed.

Lemma logs_only_count (t : list event) :
  logs_only t ->
  count_events is_CallStore t = 0%nat /\ count_events is_CallFetch t = 0%nat.
Proof. unfold count_events. now intros [-> ->]. Qed.

Lemma logs_only_not_in (t : list event) :
  logs_only t ->
  forall i, ~ In (CallStore i) t /\ ~ In (CallFetch i) t.
Proof.
  intros [Hs Hf] i. split; intros Hin.
  - assert (H : In (CallStore i) (filter is_CallStore t))
      by (apply filter_In; auto).
    now rewrite Hs in H.
  - assert (H : In (CallFetch i) (filter is_CallFetch t))
      by (apply filter_In; auto).
    now rewrite Hf in H.
Qed.

End Extends.

Section Store.

Variable env : environment.

(** [store_measurement] on a reading records its call, never touches
    [devices], and adds the row bound from the reading when the timestamp
    parses, the values bind and the engine does not fail; otherwise it adds
    nothing. *)
Lemma store_measurement_spec (r : reading) (s : state) :
  exists t new,
    extends s (snd (store_measurement env (Some r) s))
            (CallStore (device_id r) :: t) new
    /\ logs_only t
    /\ (new = [] \/ exists ts row,
           timestamp_str env r = Ok ts
           /\ bind_reading ts r (next_measurement_id (db s)) = Ok row
           /\ new = [row])
    /\ (forall ts row,
           timestamp_str env r = Ok ts ->
           bind_reading ts r (next_measurement_id (db s)) = Ok row ->
           sqlite_fault env (device_id r) = None ->
           new = [row] /\ fst (store_measurement env (Some r) s) = Ok tt).
Proof.
  unfold store_measurement, insert_measurement, bind, try_except, emit, lift,
    get_db, put_db, ret, raise, extends, logs_only.
  simpl.
  destruct (timestamp_str env r) as [ts | e] eqn:Et; simpl.
  - destruct (bind_reading ts r (next_measurement_id (db s))) as [row | e] eqn:Eb;
      simpl.
    + destruct (sqlite_fault env (device_id r)) as [msg |] eqn:Ef; simpl.
      * eexists _, []. rewrite <- !app_assoc, app_nil_r. simpl.
        split; [repeat split |]. split; [repeat split |].
        split; [now left | intros; discriminate].
      * eexists _, [row]. rewrite <- !app_assoc. simpl.
        split; [repeat split |]. split; [repeat split |]. split.
        -- right. exists ts, row. auto.
        -- intros ts0 row0 [= <-] Hb _. rewrite Eb in Hb. injection Hb as <-. auto.
    + destruct (is_sqlite3_Error e); simpl.
      * eexists _, []. rewrite <- !app_assoc, app_nil_r. simpl.
        split; [repeat split |]. split; [repeat split |].
        split; [now left |].
        intros ts0 row0 [= <-] Hb _. rewrite Eb in Hb. discriminate.
      * exists [], []. rewrite app_nil_r.
        split; [repeat split |]. split; [repeat split |].
        split; [now left |].
        intros ts0 row0 [= <-] Hb _. rewrite Eb in Hb. discriminate.
  - destruct (is_sqlite3_Error e); simpl.
    + eexists _, []. rewrite <- !app_assoc, app_nil_r. simpl.
      split; [repeat split |]. split; [repeat split |].
      split; [now left | intros; discriminate].
    + exists [], []. rewrite app_nil_r.
      split; [repeat split |]. split; [repeat split |].
      split; [now left | intros; discriminate].
Qed.

End Store.

Section Poller.

Variable env : environment.

Local Ltac filters := repeat (progress (simpl; rewrite ?filter_app)).

Lemma bind_reading_fields (ts : string) (r : reading) (i : Z) (row : measurement_row) :
  bind_reading ts r i = Ok row ->
  m_id row = i /\ m_device_id row = device_id r /\ m_timestamp row = ts.
Proof.
  unfold bind_reading.
  destruct (bind_param (pm1 r)); [| discriminate].
  destruct (bind_param (pm2 r)); [| discriminate].
  destruct (bind_param (pm10 r)); [| discriminate].
  destruct (bind_param (co2 r)); [| discriminate].
  destruct (bind_param (temperature r)); [| discriminate].
  destruct (bind_param (humidity r)); [| discriminate].
  destruct (bind_param (nox r)); [| discriminate].
  destruct (bind_param (tvoc r)); [| discriminate].
  now intros [= <-].
Qed.

(** Whether the values of a reading bind does not depend on the row id. *)
Lemma bind_reading_any_id (ts : string) (r : reading) (i j : Z) (row : measurement_row) :
  bind_reading ts r i = Ok row -> exists row', bind_reading ts r j = Ok row'.
Proof.
  unfold bind_reading.
  destruct (bind_param (pm1 r)); [| discriminate].
  destruct (bind_param (pm2 r)); [| discriminate].
  destruct (bind_param (pm10 r)); [| discriminate].
  destruct (bind_param (co2 r)); [| discriminate].
  destruct (bind_param (temperature r)); [| discriminate].
  destruct (bind_param (humidity r)); [| discriminate].
  destruct (bind_param (nox r)); [| discriminate].
  destruct (bind_param (tvoc r)); [| discriminate].
  eauto.
Qed.

Lemma fetched_reading_device_id (dc : device_config) (r : reading) :
  fetched_reading env dc = Some r -> device_id r = cfg_id dc.
Proof.
  unfold fetched_reading.
  destruct (create_device_adapter dc) as [a |] eqn:Ha; [| discriminate].
  destruct (round_trip (requests_get env a)) as [data |]; [| discriminate].
  destruct (standardize a data) as [r' |] eqn:Es; [| discriminate].
  intros [= <-]. rewrite (standardize_device_id _ _ _ Es).
  now apply create_device_adapter_fields.
Qed.

(** What one pass of the loop body does, whatever happens in it: it returns
    normally; it calls [fetch_data] when the adapter can be built and
    [store_measurement] when a reading came back; it adds at most the row of
    that reading. *)
Lemma process_device_spec (dc : device_config) (s : state) :
  exists s' t new,
    process_device env dc s = (Ok tt, s')
    /\ extends s s' t new
    /\ filter is_CallFetch t
       = (if constructible dc then [CallFetch (cfg_id dc)] else [])
    /\ filter is_CallStore t
       = (if fetch_succeeds env dc then [CallStore (cfg_id dc)] else [])
    /\ (new = [] \/ exists r ts row,
           fetched_reading env dc = Some r
           /\ timestamp_str env r = Ok ts
           /\ bind_reading ts r (next_measurement_id (db s)) = Ok row
           /\ new = [row])
    /\ (forall r ts row,
           fetched_reading env dc = Some r ->
           timestamp_str env r = Ok ts ->
           bind_reading ts r (next_measurement_id (db s)) = Ok row ->
           sqlite_fault env (cfg_id dc) = None ->
           new = [row]).
Proof.
  unfold process_device, constructible, fetch_succeeds, fetched_reading,
    try_except, bind, lift.
  destruct (create_device_adapter dc) as [a | e] eqn:Ha; simpl.
  - destruct (create_device_adapter_fields _ _ Ha) as [Hid Hname].
    destruct (fetch_data_spec env a s) as (t1 & Hs1 & [Hl1 Hl1'] & Hr1).
    destruct (fetch_data env a s) as [res s1]. simpl in Hs1, Hr1. subst s1 res.
    rewrite Hid.
    destruct (round_trip (requests_get env a)) as [data | e]; cbv beta iota.
    + destruct (standardize a data) as [r | e] eqn:Es; cbv beta iota.
      * pose proof (standardize_device_id _ _ _ Es) as Hr. rewrite Hid in Hr.
        match goal with |- context [store_measurement env (Some r) ?s1] =>
          destruct (store_measurement_spec env r s1)
            as (t2 & new & Hext & [Hl2 Hl2'] & Hor & Hok);
          destruct (store_measurement env (Some r) s1) as [res2 s2]
        end.
        simpl in Hext, Hor, Hok. rewrite Hr in Hext, Hok.
        assert (Hext0 : extends s s2 ((CallFetch (cfg_id dc) :: t1)
                                      ++ CallStore (cfg_id dc) :: t2) ([] ++ new)).
        { eapply extends_trans; [apply extends_log | exact Hext]. }
        simpl app in Hext0.
        assert (Hnew : new = [] \/ exists r0 ts row,
                   Some r = Some r0 /\ timestamp_str env r0 = Ok ts
                   /\ bind_reading ts r0 (next_measurement_id (db s)) = Ok row
                   /\ new = [row]).
        { destruct Hor as [-> | (ts & row & H1 & H2 & ->)]; [now left |].
          right. exists r, ts, row. auto. }
        assert (Hnew' : forall r0 ts row,
                   Some r = Some r0 -> timestamp_str env r0 = Ok ts ->
                   bind_reading ts r0 (next_measurement_id (db s)) = Ok row ->
                   sqlite_fault env (cfg_id dc) = None -> new = [row]).
        { intros r0 ts row [= <-] H1 H2 H3. now apply (Hok ts row). }
        destruct res2 as [[] | e]; simpl.
        -- eexists _, _, new. split; [reflexivity |]. split; [exact Hext0 |].
           filters. rewrite Hl1, Hl1', Hl2, Hl2'.
           auto.
        -- eexists _, _, new. split; [reflexivity |].
           split; [apply extends_emit; exact Hext0 |].
           filters. rewrite Hl1, Hl1', Hl2, Hl2'. auto.
      * eexists _, _, []. split; [reflexivity |].
        split; [apply (extends_emit _ _ _ _ _ (extends_log s _)) |].
        filters. rewrite Hl1, Hl1'.
        repeat split; auto; discriminate.
    + destruct (is_RequestException e); simpl.
      * unfold emit. simpl. eexists _, _, []. split; [reflexivity |].
        split; [apply (extends_emit _ _ _ _ _ (extends_log s _)) |].
        filters. rewrite Hl1, Hl1'.
        repeat split; auto; discriminate.
      * eexists _, _, []. split; [reflexivity |].
        split; [apply (extends_emit _ _ _ _ _ (extends_log s _)) |].
        filters. rewrite Hl1, Hl1'.
        repeat split; auto; discriminate.
  - unfold raise, emit. simpl. eexists _, _, []. split; [reflexivity |].
    split; [apply extends_log |].
    simpl. repeat split; auto; discriminate.
Qed.

(** The whole loop: every device of the list is processed in turn, and the
    calls and rows of the tick are those of the devices taken one by one. *)
Lemma for_each_process_device_spec (cfgs : list device_config) (s : state) :
  exists s' t new,
    for_each cfgs (process_device env) s = (Ok tt, s')
    /\ extends s s' t new
    /\ filter is_CallFetch t
       = map (fun dc => CallFetch (cfg_id dc)) (filter constructible cfgs)
    /\ filter is_CallStore t
       = map (fun dc => CallStore (cfg_id dc)) (filter (fetch_succeeds env) cfgs)
    /\ (forall row, In row new ->
          exists dc r ts,
            In dc cfgs /\ fetched_reading env dc = Some r
            /\ timestamp_str env r = Ok ts
            /\ bind_reading ts r (m_id row) = Ok row)
    /\ (forall dc r ts,
          In dc cfgs ->
          fetched_reading env dc = Some r ->
          timestamp_str env r = Ok ts ->
          (exists i row0, bind_reading ts r i = Ok row0) ->
          sqlite_fault env (cfg_id dc) = None ->
          exists row, In row new /\ bind_reading ts r (m_id row) = Ok row).
Proof.
  revert s. induction cfgs as [| dc cfgs IH]; intros s.
  - exists s, [], []. split; [reflexivity |]. split; [apply extends_refl |].
    simpl. repeat split; try tauto.
  - destruct (process_device_spec dc s)
      as (s1 & t1 & n1 & Hrun1 & Hext1 & Hf1 & Hs1 & Hor1 & Hok1).
    destruct (IH s1) as (s2 & t2 & n2 & Hrun2 & Hext2 & Hf2 & Hs2 & Hin2 & Hok2).
    exists s2, (t1 ++ t2)%list, (n1 ++ n2)%list.
    split; [simpl; unfold bind; now rewrite Hrun1 |].
    split; [eapply extends_trans; eauto |].
    rewrite !filter_app, Hf1, Hs1, Hf2, Hs2.
    split; [simpl; now destruct (constructible dc) |].
    split; [simpl; now destruct (fetch_succeeds env dc) |].
    split.
    + intros row Hrow. apply in_app_or in Hrow as [Hrow | Hrow].
      * destruct Hor1 as [-> | (r & ts & row1 & H1 & H2 & H3 & ->)]; [destruct Hrow |].
        destruct Hrow as [<- | []]. exists dc, r, ts.
        destruct (bind_reading_fields _ _ _ _ H3) as (-> & _).
        repeat split; auto. now left.
      * destruct (Hin2 row Hrow) as (dc' & r & ts & H0 & H1 & H2 & H3).
        exists dc', r, ts. repeat split; auto. now right.
    + intros dc' r ts [<- | Hdc] Hr Hts (i & row0 & Hb) Hf.
      * destruct (bind_reading_any_id _ _ _ (next_measurement_id (db s)) _ Hb)
          as (row & Hrow).
        exists row. rewrite (Hok1 r ts row Hr Hts Hrow Hf).
        split; [now left |].
        destruct (bind_reading_fields _ _ _ _ Hrow) as (-> & _). exact Hrow.
      * destruct (Hok2 dc' r ts Hdc Hr Hts (ex_intro _ i (ex_intro _ row0 Hb)) Hf)
          as (row & Hrow & Hb').
        exists row. split; [apply in_or_app; now right | exact Hb'].
Qed.

(** A tick whose device list was read. *)
Lemma data_fetcher_tick_spec (cfgs : list device_config) (s : state) :
  load_configs (select_active_devices (db s)) = Ok cfgs ->
  exists s' t new,
    data_fetcher_tick env s = (Ok tt, s')
    /\ extends s s' t new
    /\ filter is_CallFetch t
       = map (fun dc => CallFetch (cfg_id dc)) (filter constructible cfgs)
    /\ filter is_CallStore t
       = map (fun dc => CallStore (cfg_id dc)) (filter (fetch_succeeds env) cfgs)
    /\ (forall row, In row new ->
          exists dc r ts,
            In dc cfgs /\ fetched_reading env dc = Some r
            /\ timestamp_str env r = Ok ts
            /\ bind_reading ts r (m_id row) = Ok row)
    /\ (forall dc r ts,
          In dc cfgs ->
          fetched_reading env dc = Some r ->
          timestamp_str env r = Ok ts ->
          (exists i row0, bind_reading ts r i = Ok row0) ->
          sqlite_fault env (cfg_id dc) = None ->
          exists row, In row new /\ bind_reading ts r (m_id row) = Ok row).
Proof.
  intros Hl.
  unfold data_fetcher_tick, get_configured_devices, try_except, bind, get_db, lift.
  rewrite Hl. cbv beta iota. unfold ret at 1. cbv beta iota.
  destruct cfgs as [| dc cfgs].
  - unfold emit. eexists _, _, []. split; [reflexivity |].
    split; [apply extends_log |]. simpl. repeat split; try tauto.
  - destruct (for_each_process_device_spec (dc :: cfgs) s)
      as (s' & t & new & Hrun & H).
    exists s', t, new. rewrite Hrun. split; [reflexivity | exact H].
Qed.

(** A tick returns normally, whatever it met. *)
Lemma data_fetcher_tick_returns (s : state) :
  fst (data_fetcher_tick env s) = Ok tt.
Proof.
  destruct (load_configs (select_active_devices (db s))) as [cfgs | e] eqn:Hl.
  - destruct (data_fetcher_tick_spec cfgs s Hl) as (s' & t & new & -> & _).
    reflexivity.
  - unfold data_fetcher_tick, get_configured_devices, try_except, bind, get_db, lift.
    rewrite Hl. reflexivity.
Qed.

Lemma load_configs_length (rows : list device_row) (cfgs : list device_config) :
  load_configs rows = Ok cfgs -> List.length cfgs = List.length rows.
Proof.
  revert cfgs. induction rows as [| r rows IH]; simpl; intros cfgs.
  - now intros [= <-].
  - destruct (json_loads (d_config r)); [| discriminate].
    destruct (load_configs rows) as [l |]; [| discriminate].
    intros [= <-]. simpl. f_equal. now apply IH.
Qed.

Lemma filter_all_length {A} (p : A -> bool) (l : list A) :
  List.length (filter p l) = List.length l <-> forallb p l = true.
Proof.
  induction l as [| x l IH]; simpl; [tauto |].
  pose proof (filter_length_le p l) as Hle.
  destruct (p x); simpl.
  - rewrite <- IH. split; [now intros [= ->] | now intros ->].
  - split; [intros E; rewrite E in Hle; exfalso; revert Hle; apply Nat.nle_succ_diag_l
           | discriminate].
Qed.

End Poller.

(* ================================================================== *)
(** * Poller: calls and rows of one tick *)

(** C3 (as the claim reads).  One active device whose round trip times out:
    the tick makes no call of [store_measurement], while the tick's device
    list holds one device. *)
Lemma append_attempts_counterexample :
  let env := sample_env (fun _ => TimedOut) in
  List.length (select_active_devices db_one_device) = 1%nat
  /\ count_events is_CallFetch (trace_of (data_fetcher_tick env) db_one_device) = 1%nat
  /\ count_events is_CallStore (trace_of (data_fetcher_tick env) db_one_device) = 0%nat
  /\ count_events is_CallStore (trace_of (data_fetcher_tick env) db_one_device)
     <> List.length (select_active_devices db_one_device).
Proof. repeat split. discriminate. Qed.

(** C3 (amended).  In a tick whose device list [cfgs] was read, the calls of
    [store_measurement] are, in order, those for the devices of the list
    whose fetch returned a reading; their number is the number of these
    devices, and it is the number of active devices exactly when no fetch
    fails.  The calls of [fetch_data] are those for the devices whose
    adapter could be built. *)
Theorem append_attempts_follow_fetches (env : environment) (d : database)
        (cfgs : list device_config) :
  load_configs (select_active_devices d) = Ok cfgs ->
  let t := trace_of (data_fetcher_tick env) d in
  List.length cfgs = List.length (select_active_devices d)
  /\ filter is_CallStore t
     = map (fun dc => CallStore (cfg_id dc)) (filter (fetch_succeeds env) cfgs)
  /\ count_events is_CallStore t = List.length (filter (fetch_succeeds env) cfgs)
  /\ (count_events is_CallStore t = List.length (select_active_devices d)
      <-> forallb (fetch_succeeds env) cfgs = true)
  /\ count_events is_CallFetch t = List.length (filter constructible cfgs).
Proof.
  intros Hl t.
  destruct (data_fetcher_tick_spec env cfgs (mkState d []) Hl)
    as (s' & t' & new & Hrun & (Ht & _ & _) & Hf & Hs & _).
  assert (Et : t = t').
  { unfold t, trace_of, run. rewrite Hrun. simpl. rewrite Ht. reflexivity. }
  rewrite Et. unfold count_events. rewrite Hf, Hs, !length_map.
  pose proof (load_configs_length _ _ Hl) as Hlen.
  split; [exact Hlen |]. split; [reflexivity |]. split; [reflexivity |].
  split; [| reflexivity].
  rewrite <- Hlen. apply filter_all_length.
Qed.

Lemma append_attempts_follow_fetches_witness :
  let env := sample_env first_times_out in
  let t := trace_of (data_fetcher_tick env) db_two_devices in
  List.length (select_active_devices db_two_devices) = 2%nat
  /\ filter is_CallStore t = [CallStore 2]
  /\ count_events is_CallStore t = 1%nat.
Proof.
  intros env t.
  assert (Hl : load_configs (select_active_devices db_two_devices)
               = Ok [mkConfig 1 "kitchen" "airgradient"
                       (JObj [("api_token", JStr "tok"); ("location_id", JStr "1234")]);
                     mkConfig 2 "attic" "airgradient"
                       (JObj [("api_token", JStr "tok2"); ("location_id", JStr "5678")])])
    by reflexivity.
  destruct (append_attempts_follow_fetches env db_two_devices _ Hl)
    as (H1 & H2 & H3 & _).
  split; [reflexivity |]. split; [exact H2 | exact H3].
Defined.

(** C4.  A tick whose device list [cfgs] was read returns normally, and so
    does every pass of its loop body.  Whatever happens to the other devices
    of the list, for each device [dc] of it: [fetch_data] is called for [dc]
    when its adapter can be built; [store_measurement] is called for [dc]
    when its fetch returned a reading; and when moreover the timestamp of
    the reading parses, its values bind and the engine does not fail for
    [dc], the row of the reading is among the rows that the tick added. *)
Theorem tick_isolates_device_failures (env : environment) (d : database)
        (cfgs : list device_config) :
  load_configs (select_active_devices d) = Ok cfgs ->
  fst (run (data_fetcher_tick env) d) = Ok tt
  /\ (forall dc s, fst (process_device env dc s) = Ok tt)
  /\ exists new,
      measurements (db_after (data_fetcher_tick env) d) = (measurements d ++ new)%list
      /\ forall dc, In dc cfgs ->
           (constructible dc = true ->
            In (CallFetch (cfg_id dc)) (trace_of (data_fetcher_tick env) d))
           /\ (forall r, fetched_reading env dc = Some r ->
                 In (CallStore (cfg_id dc)) (trace_of (data_fetcher_tick env) d))
           /\ (forall r ts,
                 fetched_reading env dc = Some r ->
                 timestamp_str env r = Ok ts ->
                 (exists i row0, bind_reading ts r i = Ok row0) ->
                 sqlite_fault env (cfg_id dc) = None ->
                 exists row,
                   In row new
                   /\ bind_reading ts r (m_id row) = Ok row
                   /\ m_device_id row = cfg_id dc).
Proof.
  intros Hl.
  split; [apply data_fetcher_tick_returns |].
  split.
  { intros dc s. destruct (process_device_spec env dc s) as (s' & t & n & -> & _).
    reflexivity. }
  destruct (data_fetcher_tick_spec env cfgs (mkState d []) Hl)
    as (s' & t & new & Hrun & (Ht & _ & Hm) & Hf & Hs & _ & Hok).
  exists new. unfold db_after, trace_of, run. rewrite Hrun. simpl.
  split; [exact Hm |]. simpl in Ht. rewrite Ht.
  intros dc Hdc. split; [| split].
  - intros Hc.
    assert (H : In (CallFetch (cfg_id dc)) (filter is_CallFetch t)).
    { rewrite Hf. apply (in_map (fun dc => CallFetch (cfg_id dc))).
      apply filter_In. auto. }
    now apply filter_In in H.
  - intros r Hr.
    assert (H : In (CallStore (cfg_id dc)) (filter is_CallStore t)).
    { rewrite Hs. apply (in_map (fun dc => CallStore (cfg_id dc))).
      apply filter_In. split; [exact Hdc |]. unfold fetch_succeeds. now rewrite Hr. }
    now apply filter_In in H.
  - intros r ts Hr Hts Hb Hfault.
    destruct (Hok dc r ts Hdc Hr Hts Hb Hfault) as (row & Hin & Hrow).
    exists row. split; [exact Hin |]. split; [exact Hrow |].
    destruct (bind_reading_fields _ _ _ _ Hrow) as (_ & -> & _).
    now apply (fetched_reading_device_id env).
Qed.

Lemma tick_isolates_device_failures_witness :
  let env := sample_env first_times_out in
  fetched_reading env (mkConfig 1 "kitchen" "airgradient"
                         (JObj [("api_token", JStr "tok"); ("location_id", JStr "1234")]))
  = None
  /\ In (CallFetch 2) (trace_of (data_fetcher_tick env) db_two_devices)
  /\ In (CallStore 2) (trace_of (data_fetcher_tick env) db_two_devices)
  /\ exists new row,
      measurements (db_after (data_fetcher_tick env) db_two_devices)
      = (measurements db_two_devices ++ new)%list
      /\ In row new /\ m_device_id row = 2 /\ m_timestamp row = "2024-01-01 11:30:00".
Proof.
  intros env.
  pose (dc1 := mkConfig 1 "kitchen" "airgradient"
                 (JObj [("api_token", JStr "tok"); ("location_id", JStr "1234")])).
  pose (dc2 := mkConfig 2 "attic" "airgradient"
                 (JObj [("api_token", JStr "tok2"); ("location_id", JStr "5678")])).
  assert (Hl : load_configs (select_active_devices db_two_devices) = Ok [dc1; dc2])
    by reflexivity.
  destruct (tick_isolates_device_failures env db_two_devices _ Hl)
    as (_ & _ & new & Hm & H).
  destruct (H dc2 (or_intror (or_introl eq_refl))) as (H1 & H2 & H3).
  split; [reflexivity |].
  split; [apply H1; reflexivity |].
  split; [eapply H2; reflexivity |].
  edestruct H3 as (row & Hin & Hrow & Hdev).
  - reflexivity.
  - reflexivity.
  - exists 0, (sample_measurement 0 2 "2024-01-01 11:30:00"). reflexivity.
  - reflexivity.
  - exists new, row. split; [exact Hm |]. split; [exact Hin |].
    split; [exact Hdev |].
    now destruct (bind_reading_fields _ _ _ _ Hrow) as (_ & _ & ->).
Defined.

(* ================================================================== *)
(** * Device management: the id of an added device *)

Section AddDevice.

Lemma or_zero_Some (m : Z) : or_zero (Some m) = m.
Proof. simpl. destruct (Z.eqb_spec m 0); congruence. Qed.

(** [SELECT MAX(id)] is [NULL] on an empty table, and otherwise an id of the
    table that no id of the table exceeds. *)
Lemma max_device_id_spec (d : database) :
  match max_device_id d with
  | None => devices d = []
  | Some m => In m (map d_id (devices d))
              /\ forall r, In r (devices d) -> d_id r <= m
  end.
Proof.
  unfold max_device_id. induction (devices d) as [| x l IH]; simpl; [reflexivity |].
  destruct (fold_right _ None l) as [a |].
  - destruct IH as [Hin Hmax]. split.
    + destruct (Z.max_spec (d_id x) a) as [[_ ->] | [_ ->]]; auto.
    + intros r [<- | Hr]; [lia |]. specialize (Hmax r Hr). lia.
  - subst l. split; [now left |]. intros r [<- | []]. lia.
Qed.

(** The id that [add_device] computes. *)
Lemma next_id_spec (d : database) :
  or_zero (max_device_id d) + 1
  = match max_device_id d with Some m => m + 1 | None => 1 end.
Proof. destruct (max_device_id d) as [m |]; [now rewrite or_zero_Some | reflexivity]. Qed.

Lemma next_id_above (d : database) (r : device_row) :
  In r (devices d) -> d_id r < or_zero (max_device_id d) + 1.
Proof.
  intros Hr. rewrite next_id_spec. pose proof (max_device_id_spec d) as H.
  destruct (max_device_id d) as [m |].
  - destruct H as [_ H]. specialize (H r Hr). lia.
  - rewrite H in Hr. destruct Hr.
Qed.

(** After a row with the computed id was added, that id is the maximum. *)
Lemma max_device_id_after (d d1 : database) (row : device_row) :
  devices d1 = (devices d ++ [row])%list ->
  d_id row = or_zero (max_device_id d) + 1 ->
  max_device_id d1 = Some (d_id row).
Proof.
  intros Hd Hid. pose proof (max_device_id_spec d1) as H.
  destruct (max_device_id d1) as [m |].
  - destruct H as [Hin Hmax]. f_equal.
    assert (Hge : d_id row <= m).
    { apply Hmax. rewrite Hd. apply in_or_app. right. now left. }
    rewrite Hd, map_app in Hin. apply in_app_or in Hin as [Hin | [<- | []]];
      [| reflexivity].
    apply in_map_iff in Hin as (r & <- & Hr).
    pose proof (next_id_above d r Hr). lia.
  - rewrite Hd in H. now destruct (devices d).
Qed.

Lemma validate_connection_db (env : environment) (tc : device_config) (force : bool)
      (s : state) :
  db (snd (validate_connection env tc force s)) = db s.
Proof.
  unfold validate_connection, bind, try_except, lift.
  unfold emit at 1. cbv beta iota.
  destruct (create_device_adapter tc) as [a | e]; cbv beta iota.
  - unfold ret at 1. cbv beta iota.
    match goal with |- context [fetch_data env a ?s0] =>
      destruct (fetch_data_spec env a s0) as (t & Hs & _ & _);
      destruct (fetch_data env a s0) as [res s1]
    end.
    simpl in Hs. subst s1.
    destruct res as [[r |] | e]; destruct force; reflexivity.
  - destruct force; reflexivity.
Qed.

(** [add_device] either leaves the database as it was or adds one active
    row, whose id is the computed one, to [devices]. *)
Lemma add_device_db (env : environment) (provider name : string)
      (token location : option string) (validate force : bool) (s : state)
      (P : database -> Prop) :
  P (db s) ->
  (forall cfg,
      P (mkDatabase
           (devices (db s)
            ++ [mkDevice (or_zero (max_device_id (db s)) + 1) name provider cfg true])
           (measurements (db s)) (measurements_seq (db s)))) ->
  P (db (snd (add_device env provider name token location validate force s))).
Proof.
  intros P0 P1. unfold add_device.
  destruct (negb (String.eqb provider "airgradient")); [exact P0 |].
  destruct (not_given token || not_given location); [exact P0 |].
  unfold bind at 1. unfold get_db at 1. cbv beta iota zeta.
  unfold bind at 1.
  set (v := if validate then _ else _).
  assert (Hv : db (snd (v s)) = db s).
  { unfold v. destruct validate; [apply validate_connection_db | reflexivity]. }
  clearbody v. destruct (v s) as [p s1]. simpl in Hv.
  destruct p as [[|] | e]; cbv beta iota; [| simpl; rewrite Hv; exact P0 ..].
  unfold try_except, bind, insert_device.
  destruct (negb _); [simpl; rewrite Hv; exact P0 |].
  unfold bind, get_db. cbv beta iota.
  destruct (sqlite_fault env _); [simpl; rewrite Hv; exact P0 |].
  destruct (existsb _ _); [simpl; rewrite Hv; exact P0 |].
  simpl. rewrite Hv. apply P1.
Qed.

Lemma add_device_devices (env : environment) (provider name : string)
      (token location : option string) (validate force : bool) (s : state) :
  let s' := snd (add_device env provider name token location validate force s) in
  measurements (db s') = measurements (db s)
  /\ (devices (db s') = devices (db s)
      \/ exists cfg,
          devices (db s')
          = (devices (db s)
             ++ [mkDevice (or_zero (max_device_id (db s)) + 1) name provider cfg true])%list).
Proof.
  apply (add_device_db env provider name token location validate force s
           (fun d' => measurements d' = measurements (db s)
                      /\ (devices d' = devices (db s)
                          \/ exists cfg,
                              devices d'
                              = (devices (db s)
                                 ++ [mkDevice (or_zero (max_device_id (db s)) + 1)
                                              name provider cfg true])%list))).
  - auto.
  - intros cfg. simpl. split; [reflexivity |]. right. now exists cfg.
Qed.

End AddDevice.

(** C7.  An [add_device] command either adds no row or adds one row, whose
    id is the maximum of the ids of the table plus 1, and 1 when the table is
    empty; this id differs from every id of the table.  When two commands
    run in sequence and each adds a row, the second id is the first plus 1:
    the two differ. *)
Theorem add_device_assigns_next_id (env : environment) (provider name : string)
        (token location : option string) (validate force : bool) (s : state) :
  let s1 := snd (add_device env provider name token location validate force s) in
  let next := match max_device_id (db s) with Some m => m + 1 | None => 1 end in
  (devices (db s1) = devices (db s)
   \/ exists row,
       devices (db s1) = (devices (db s) ++ [row])%list
       /\ d_id row = next /\ d_name row = name /\ d_active row = true)
  /\ match max_device_id (db s) with
     | None => devices (db s) = []
     | Some m => In m (map d_id (devices (db s)))
                 /\ forall r, In r (devices (db s)) -> d_id r <= m
     end
  /\ (forall r, In r (devices (db s)) -> d_id r < next)
  /\ (forall env' provider' name' token' location' validate' force' row1 row2,
         devices (db s1) = (devices (db s) ++ [row1])%list ->
         devices (db (snd (add_device env' provider' name' token' location'
                                      validate' force' s1)))
         = (devices (db s1) ++ [row2])%list ->
         d_id row2 = d_id row1 + 1 /\ d_id row1 <> d_id row2).
Proof.
  intros s1 next.
  assert (Hrow : forall env0 provider0 name0 token0 location0 validate0 force0 s0 row,
             devices (db (snd (add_device env0 provider0 name0 token0 location0
                                          validate0 force0 s0)))
             = (devices (db s0) ++ [row])%list ->
             d_id row = or_zero (max_device_id (db s0)) + 1).
  { intros env0 provider0 name0 token0 location0 validate0 force0 s0 row E.
    destruct (add_device_devices env0 provider0 name0 token0 location0
                                 validate0 force0 s0) as [_ [H | (cfg & H)]];
      rewrite H in E.
    - apply (f_equal (@List.length _)) in E. rewrite length_app in E. simpl in E. lia.
    - apply app_inj_tail in E as [_ <-]. reflexivity. }
  split; [| split; [apply max_device_id_spec | split]].
  - destruct (add_device_devices env provider name token location validate force s)
      as [_ [H | (cfg & H)]]; [now left |].
    right. eexists. split; [exact H |]. simpl. split; [apply next_id_spec | auto].
  - intros r Hr. unfold next. rewrite <- next_id_spec. now apply next_id_above.
  - intros env' provider' name' token' location' validate' force' row1 row2 E1 E2.
    pose proof (Hrow _ _ _ _ _ _ _ _ _ E1) as H1.
    pose proof (Hrow _ _ _ _ _ _ _ _ _ E2) as H2.
    rewrite (max_device_id_after (db s) (db s1) row1 E1 H1), or_zero_Some in H2.
    lia.
Qed.

Lemma add_device_assigns_next_id_witness :
  exists row1 row2,
    devices db_two_devices = [row1; row2]
    /\ d_id row1 = 1 /\ d_id row2 = 2 /\ d_id row1 <> d_id row2.
Proof.
  pose (env := sample_env (answers JNull)).
  destruct (add_device_assigns_next_id env "airgradient" "kitchen" (Some "tok")
              (Some "1234") false false (mkState empty_database []))
    as (_ & _ & _ & H).
  eexists _, _. split; [reflexivity |]. split; [reflexivity |].
  split; [reflexivity |].
  eapply (H env "airgradient" "attic" (Some "tok2") (Some "5678") false false);
    reflexivity.
Defined.

(* ================================================================== *)
(** * Store: the latest row *)

Section Latest.

Lemma joined_pair (d : database) (m : measurement_row) (dv : device_row) :
  In m (measurements d) -> In dv (devices d) -> d_id dv = m_device_id m ->
  In (m, dv) (joined d).
Proof. intros Hm Hd E. apply in_joined. simpl. auto. Qed.

End Latest.

(** C2 (as the claim reads).  A store that holds one measurement, whose
    device was removed, is not empty and has no latest row. *)
Lemma latest_counterexample :
  measurements db_orphan <> []
  /\ get_latest_measurement_run db_orphan None = Ok None
  /\ forall res, get_latest_measurement db_orphan None res -> res = Ok None.
Proof.
  split; [discriminate |]. split; [reflexivity |].
  intros res H. apply get_latest_measurement_spec in H.
  destruct res as [[row |] | e]; [| reflexivity |].
  - destruct H as (r & [] & _).
  - destruct H as [H _]. discriminate.
Qed.

(** C2 (amended).  The latest query without a device id has an answer.
    When some measurement of the store has a device row, every answer is a
    measurement joined with its device row whose timestamp no joined row
    exceeds, and whose id no joined row with the same timestamp exceeds.
    When no measurement has a device row, the answer is [None], whatever
    [measurements] holds. *)
Theorem latest_returns_a_maximum (d : database) :
  (exists res, get_latest_measurement d None res)
  /\ ((exists m dv, In m (measurements d) /\ In dv (devices d)
                    /\ d_id dv = m_device_id m) ->
      forall res,
        get_latest_measurement d None res ->
        exists r,
          res = Ok (Some (latest_dict r))
          /\ In (fst r) (measurements d) /\ In (snd r) (devices d)
          /\ d_id (snd r) = m_device_id (fst r)
          /\ (forall r', In r' (joined d) ->
                          text_le (row_timestamp r') (row_timestamp r))
          /\ (forall r', In r' (joined d) ->
                          row_timestamp r' = row_timestamp r ->
                          m_id (fst r') <= m_id (fst r)))
  /\ (joined d = [] ->
      forall res, get_latest_measurement d None res -> res = Ok None).
Proof.
  split; [eexists; apply get_latest_measurement_run_ok |].
  split.
  - intros (m & dv & Hm & Hdv & E) res H.
    pose proof (joined_pair d m dv Hm Hdv E) as Hin.
    apply get_latest_measurement_spec in H.
    rewrite latest_rows_None in H. destruct res as [[row |] | e].
    + destruct H as (r & Hr & -> & Hmax & Htie). exists r.
      apply in_joined in Hr as (H1 & H2 & H3). auto 7.
    + destruct H as [_ H]. rewrite H in Hin. destruct Hin.
    + destruct H as [H _]. discriminate.
  - intros Ej res H. apply get_latest_measurement_spec in H.
    rewrite latest_rows_None, Ej in H. destruct res as [[row |] | e].
    + destruct H as (r & [] & _).
    + reflexivity.
    + destruct H as [H _]. discriminate.
Qed.

Lemma latest_returns_a_maximum_witness :
  get_latest_measurement_run db_tie None
  = Ok (Some (latest_dict (sample_measurement 2 2 "2024-01-01 11:30:00",
                           sample_device 2 "attic" true)))
  /\ forall res,
      get_latest_measurement db_tie None res ->
      exists r, res = Ok (Some (latest_dict r)) /\ m_id (fst r) = 2.
Proof.
  split; [reflexivity |].
  intros res H.
  destruct (proj1 (proj2 (latest_returns_a_maximum db_tie))) with (res := res)
    as (r & -> & Hm & _ & _ & _ & Htie).
  - exists (sample_measurement 1 1 "2024-01-01 11:30:00"),
           (sample_device 1 "kitchen" true).
    split; [now left |]. split; [now left | reflexivity].
  - exact H.
  - exists r. split; [reflexivity |].
    pose proof (Htie (sample_measurement 2 2 "2024-01-01 11:30:00",
                      sample_device 2 "attic" true)
                     (or_intror (or_introl eq_refl))) as T.
    unfold row_timestamp in T.
    destruct Hm as [E | [E | []]]; rewrite <- E in T |- *; [| reflexivity].
    specialize (T eq_refl). simpl in T. lia.
Defined.

(* ================================================================== *)
(** * Store: the window *)

Section Window.

Lemma get_historical_data_Ok (d : database) (now since : datetime) (hours : Z)
      (device_id : option Z) (res : result (list pydict)) :
  sub_hours now hours = Some since -> bindable device_id = true ->
  get_historical_data d now hours device_id res ->
  exists rows,
    ordered_by timestamp_asc (history_rows d (isoformat_space since) device_id) rows
    /\ res = Ok (map history_dict rows).
Proof. unfold get_historical_data. now intros -> ->. Qed.

Lemma get_historical_data_overflow (d : database) (now : datetime) (hours : Z)
      (device_id : option Z) (res : result (list pydict)) :
  sub_hours now hours = None \/ bindable device_id = false ->
  get_historical_data d now hours device_id res -> res = Raise OverflowError.
Proof.
  unfold get_historical_data. intros [E | E]; rewrite E; [easy |].
  now destruct (sub_hours now hours).
Qed.

(** The condition that [device_filter] tests. *)
Lemma device_filter_spec (device_id : option Z) (r : joined_row) :
  device_filter device_id r = true <->
  match device_id with
  | Some i => i = 0 \/ m_device_id (fst r) = i
  | None => True
  end.
Proof.
  destruct device_id as [i |]; simpl; [| tauto].
  destruct (Z.eqb_spec i 0).
  - tauto.
  - rewrite Z.eqb_eq. tauto.
Qed.

End Window.

(** C6 (as the claim reads).  A measurement whose device was removed is
    later than the start of the window and is not returned.  A device id of
    0 restricts nothing: rows of the devices 1 and 2 are returned.  A number
    of hours that leads before year 1, and a device id that does not fit 64
    bits, make the query raise [OverflowError]. *)
Lemma window_counterexample :
  (exists m since,
      In m (measurements db_orphan)
      /\ sub_hours noon 1 = Some since
      /\ text_lt (isoformat_space since) (m_timestamp m)
      /\ forall res, get_historical_data db_orphan noon 1 None res -> res = Ok [])
  /\ (exists rows,
         get_historical_data db_tie noon 1 (Some 0) (Ok rows)
         /\ List.length rows = 2%nat
         /\ forall m, In m (measurements db_tie) -> m_device_id m <> 0)
  /\ (forall res,
         get_historical_data db_tie noon 100000000 None res ->
         res = Raise OverflowError)
  /\ (forall res,
         get_historical_data db_tie noon 1 (Some 9223372036854775808) res ->
         res = Raise OverflowError).
Proof.
  split; [| split; [| split]].
  - exists (sample_measurement 1 1 "2024-01-01 11:30:00"),
           (mkDatetime 2024 1 1 11 0 0 0 None).
    split; [now left |]. split; [reflexivity |]. split; [reflexivity |].
    intros res H.
    apply (get_historical_data_Ok _ _ (mkDatetime 2024 1 1 11 0 0 0 None)) in H;
      [| reflexivity | reflexivity].
    destruct H as (rows & Ho & ->).
    now rewrite (ordered_by_nil _ _ Ho).
  - eexists. split; [| split].
    + rewrite <- (eq_refl : get_historical_data_run db_tie noon 1 (Some 0) = Ok _).
      apply get_historical_data_run_ok.
    + reflexivity.
    + intros m [<- | [<- | []]]; discriminate.
  - intros res H. apply get_historical_data_overflow in H; [exact H | now left].
  - intros res H. apply get_historical_data_overflow in H; [exact H | now right].
Qed.

(** C6 (amended).  When [now - hours] is a [datetime], the window query has
    a result.  When moreover the device id is absent or fits 64 bits, every
    result lists, once each, the measurements joined with their device row
    whose timestamp text is strictly greater, in the byte order of SQLite,
    than the text of [now - hours], restricted to the given device when a
    device id other than 0 is given; the list is in non-decreasing byte
    order of the timestamp texts.  A device id that does not fit 64 bits
    makes the query raise [OverflowError]. *)
Theorem window_rows_after_since (d : database) (now : datetime) (hours : Z)
        (device_id : option Z) (since : datetime) :
  sub_hours now hours = Some since ->
  (exists res, get_historical_data d now hours device_id res)
  /\ (bindable device_id = false ->
      forall res,
        get_historical_data d now hours device_id res -> res = Raise OverflowError)
  /\ (bindable device_id = true ->
      forall res,
        get_historical_data d now hours device_id res ->
        exists rows,
          res = Ok (map history_dict rows)
          /\ Permutation (history_rows d (isoformat_space since) device_id) rows
          /\ (forall r,
                 In r rows <->
                 In (fst r) (measurements d) /\ In (snd r) (devices d)
                 /\ d_id (snd r) = m_device_id (fst r)
                 /\ text_lt (isoformat_space since) (m_timestamp (fst r))
                 /\ match device_id with
                    | Some i => i = 0 \/ m_device_id (fst r) = i
                    | None => True
                    end)
          /\ StronglySorted timestamp_asc rows).
Proof.
  intros Hs. split; [eexists; apply get_historical_data_run_ok |].
  split.
  { intros Hb res H. apply get_historical_data_overflow in H; [exact H | now right]. }
  intros Hb res H.
  destruct (get_historical_data_Ok _ _ _ _ _ _ Hs Hb H) as (rows & [Hp Hsorted] & ->).
  exists rows. split; [reflexivity |]. split; [exact Hp |]. split; [| exact Hsorted].
  intros r. split.
  - intros Hr. apply (Permutation_in _ (Permutation_sym Hp)) in Hr.
    apply in_history_rows in Hr as (Hj & Hlt & Hf).
    apply in_joined in Hj as (H1 & H2 & H3).
    apply device_filter_spec in Hf. auto 6.
  - intros (H1 & H2 & H3 & Hlt & Hf).
    apply (Permutation_in _ Hp). apply in_history_rows.
    split; [apply in_joined; auto |]. split; [exact Hlt |].
    now apply device_filter_spec.
Qed.

Lemma window_rows_after_since_witness :
  sub_hours noon 1 = Some (mkDatetime 2024 1 1 11 0 0 0 None)
  /\ exists rows,
      get_historical_data_run db_inactive noon 1 None = Ok (map history_dict rows)
      /\ Permutation (history_rows db_inactive "2024-01-01 11:00:00" None) rows
      /\ StronglySorted timestamp_asc rows.
Proof.
  assert (H : sub_hours noon 1 = Some (mkDatetime 2024 1 1 11 0 0 0 None))
    by reflexivity.
  split; [exact H |].
  destruct (proj2 (proj2 (window_rows_after_since db_inactive noon 1 None _ H))
                  eq_refl _ (get_historical_data_run_ok db_inactive noon 1 None))
    as (rows & E & Hp & _ & Hs).
  exists rows. split; [exact E |]. split; [exact Hp | exact Hs].
Defined.

(* ================================================================== *)
(** * Store: the queries and the [active] column *)

Section ActiveFlag.

Variables (device_id : Z) (a : bool).

#[local] Abbreviation flag := (flagged device_id a).
#[local] Abbreviation flag_row := (flagged_row device_id a).

Lemma flag_id (dv : device_row) : d_id (flag dv) = d_id dv.
Proof. unfold flagged. now destruct (d_id dv =? device_id). Qed.

Lemma flag_name (dv : device_row) : d_name (flag dv) = d_name dv.
Proof. unfold flagged. now destruct (d_id dv =? device_id). Qed.

Lemma filter_map_commute {A B} (g : A -> B) (p : B -> bool) (q : A -> bool)
      (l : list A) :
  (forall x, p (g x) = q x) -> filter p (map g l) = map g (filter q l).
Proof.
  intros H. induction l as [| x l IH]; simpl; [reflexivity |].
  rewrite H. destruct (q x); simpl; now rewrite IH.
Qed.

Lemma joined_set_active (d : database) :
  joined (set_active device_id a d) = map flag_row (joined d).
Proof.
  unfold joined, set_active. simpl. fold (flagged device_id a).
  induction (measurements d) as [| m ms IH]; simpl; [reflexivity |].
  rewrite map_app, IH. f_equal.
  rewrite (filter_map_commute flag _ (fun dv => d_id dv =? m_device_id m)).
  - now rewrite !map_map.
  - intros dv. now rewrite flag_id.
Qed.

Lemma latest_rows_set_active (d : database) (dev : option Z) :
  latest_rows (set_active device_id a d) dev = map flag_row (latest_rows d dev).
Proof.
  unfold latest_rows. rewrite joined_set_active.
  now apply filter_map_commute.
Qed.

Lemma history_rows_set_active (d : database) (since : string) (dev : option Z) :
  history_rows (set_active device_id a d) since dev
  = map flag_row (history_rows d since dev).
Proof.
  unfold history_rows. rewrite joined_set_active.
  now apply filter_map_commute.
Qed.

Lemma latest_dict_flag (r : joined_row) : latest_dict (flag_row r) = latest_dict r.
Proof. unfold latest_dict, flagged_row. simpl. now rewrite flag_name. Qed.

Lemma history_dict_flag (r : joined_row) : history_dict (flag_row r) = history_dict r.
Proof. unfold history_dict, flagged_row. simpl. now rewrite flag_name. Qed.

Lemma sorted_map_flag (le : joined_row -> joined_row -> Prop) (l : list joined_row) :
  (forall x y, le (flag_row x) (flag_row y) <-> le x y) ->
  StronglySorted le (map flag_row l) <-> StronglySorted le l.
Proof.
  intros Hle. induction l as [| x l IH]; simpl.
  - split; constructor.
  - split; intros H; apply StronglySorted_inv in H as [Hs Hall]; constructor.
    + now apply IH.
    + rewrite Forall_forall in *. intros y Hy. apply Hle. apply Hall.
      now apply in_map.
    + now apply IH.
    + rewrite Forall_forall in *. intros y Hy.
      apply in_map_iff in Hy as (y0 & <- & Hy0). apply Hle. now apply Hall.
Qed.

(** Ordering the flagged rows is ordering the rows. *)
Lemma ordered_by_map_flag (le : joined_row -> joined_row -> Prop)
      (l : list joined_row) (out' : list joined_row) :
  (forall x y, le (flag_row x) (flag_row y) <-> le x y) ->
  ordered_by le (map flag_row l) out' <->
  exists out, out' = map flag_row out /\ ordered_by le l out.
Proof.
  intros Hle. split.
  - intros [Hp Hs]. apply Permutation_sym, Permutation_map_inv in Hp as (out & -> & Hp).
    exists out. split; [reflexivity |]. split; [now apply Permutation_sym |].
    now apply (sorted_map_flag le out Hle).
  - intros (out & -> & Hp & Hs). split; [now apply Permutation_map |].
    now apply (sorted_map_flag le out Hle).
Qed.

(** Neither query reads the [active] column: setting it for a device, to
    either value, changes no answer. *)
Lemma get_latest_measurement_set_active (d : database) (dev : option Z)
      (res : result (option pydict)) :
  get_latest_measurement (set_active device_id a d) dev res
  <-> get_latest_measurement d dev res.
Proof.
  unfold get_latest_measurement. destruct (bindable dev); [| tauto].
  rewrite latest_rows_set_active. split.
  - intros (rows' & Ho & ->).
    apply ordered_by_map_flag in Ho as (rows & -> & Ho); [| tauto].
    exists rows. split; [exact Ho |].
    destruct rows as [| r rows]; simpl; [reflexivity | now rewrite latest_dict_flag].
  - intros (rows & Ho & ->). exists (map flag_row rows). split.
    + apply ordered_by_map_flag; [tauto | eauto].
    + destruct rows as [| r rows]; simpl; [reflexivity | now rewrite latest_dict_flag].
Qed.

Lemma get_historical_data_set_active (d : database) (now : datetime) (hours : Z)
      (dev : option Z) (res : result (list pydict)) :
  get_historical_data (set_active device_id a d) now hours dev res
  <-> get_historical_data d now hours dev res.
Proof.
  unfold get_historical_data. destruct (sub_hours now hours) as [since |]; [| tauto].
  destruct (bindable dev); [| tauto].
  rewrite history_rows_set_active.
  assert (Hmap : forall rows, map history_dict (map flag_row rows) = map history_dict rows).
  { intros rows. rewrite map_map. apply map_ext. apply history_dict_flag. }
  split.
  - intros (rows' & Ho & ->).
    apply ordered_by_map_flag in Ho as (rows & -> & Ho); [| tauto].
    exists rows. split; [exact Ho | now rewrite Hmap].
  - intros (rows & Ho & ->). exists (map flag_row rows). split.
    + apply ordered_by_map_flag; [tauto | eauto].
    + now rewrite Hmap.
Qed.

End ActiveFlag.

(** C9.  Both queries read the rows of the join of [measurements] with
    [devices] on the device id, and nothing of the [active] column: setting
    that column for any device changes no answer of either query.  Without a
    device id, every returned row is that of a measurement which has a
    device row; such a measurement is in every window that its timestamp
    falls in, and is the latest row when no joined row is later (nor as late
    with a greater id), whether its device is active or not.  When no
    measurement has a device row, the latest query returns nothing and the
    window is empty, whatever [measurements] holds. *)
Theorem queries_join_on_existence (d : database) (now : datetime) (hours : Z) :
  (forall r,
      In r (joined d) <->
      In (fst r) (measurements d) /\ In (snd r) (devices d)
      /\ d_id (snd r) = m_device_id (fst r))
  /\ (forall i a res,
         get_latest_measurement (set_active i a d) None res
         <-> get_latest_measurement d None res)
  /\ (forall i a res,
         get_historical_data (set_active i a d) now hours None res
         <-> get_historical_data d now hours None res)
  /\ (forall row,
         get_latest_measurement d None (Ok (Some row)) ->
         exists r, In r (joined d) /\ row = latest_dict r)
  /\ (forall rows row,
         get_historical_data d now hours None (Ok rows) -> In row rows ->
         exists r, In r (joined d) /\ row = history_dict r)
  /\ (forall since r rows,
         sub_hours now hours = Some since ->
         In r (joined d) ->
         text_lt (isoformat_space since) (row_timestamp r) ->
         get_historical_data d now hours None (Ok rows) ->
         In (history_dict r) rows)
  /\ (forall r,
         In r (joined d) ->
         (forall r', In r' (joined d) ->
                     text_lt (row_timestamp r') (row_timestamp r)
                     \/ (row_timestamp r' = row_timestamp r
                         /\ m_id (fst r') <= m_id (fst r))) ->
         get_latest_measurement d None (Ok (Some (latest_dict r))))
  /\ (joined d = [] ->
      (forall res, get_latest_measurement d None res -> res = Ok None)
      /\ (forall rows, get_historical_data d now hours None (Ok rows) -> rows = [])).
Proof.
  assert (Hrow : forall rows row,
             get_historical_data d now hours None (Ok rows) -> In row rows ->
             exists r, In r (joined d) /\ row = history_dict r).
  { intros rows row H Hin.
    destruct (get_historical_data_rows _ _ _ _ _ _ H Hin) as (since & r & _ & Hr & ->).
    exists r. split; [| reflexivity]. now apply in_history_rows in Hr. }
  assert (Hlatest : forall row,
             get_latest_measurement d None (Ok (Some row)) ->
             exists r, In r (joined d) /\ row = latest_dict r).
  { intros row H. apply get_latest_measurement_spec in H as (r & Hr & -> & _).
    rewrite latest_rows_None in Hr. eauto. }
  split; [apply in_joined |].
  split; [intros i a res; apply get_latest_measurement_set_active |].
  split; [intros i a res; apply get_historical_data_set_active |].
  split; [exact Hlatest |]. split; [exact Hrow |]. split; [| split].
  - intros since r rows Hs Hr Hlt H.
    destruct (get_historical_data_Ok d now since hours None _ Hs eq_refl H)
      as (out & [Hp _] & E).
    injection E as ->. apply in_map. apply (Permutation_in _ Hp).
    apply in_history_rows. auto.
  - intros r Hr Hmax. apply get_latest_measurement_any_max; [reflexivity | |];
      rewrite latest_rows_None; [assumption |].
    intros r' Hr'. apply later_first_spec. now apply Hmax.
  - intros E. split.
    + intros res H. apply get_latest_measurement_spec in H.
      destruct res as [[row |] | e]; [| reflexivity |].
      * destruct H as (r & Hr & _). rewrite latest_rows_None, E in Hr. destruct Hr.
      * destruct H as [H _]. discriminate.
    + intros [| row rows] H; [reflexivity |].
      destruct (Hrow _ row H (or_introl eq_refl)) as (r & Hr & _).
      rewrite E in Hr. destruct Hr.
Qed.

Lemma queries_join_on_existence_witness :
  let r := (sample_measurement 1 1 "2024-01-01 11:30:00",
            sample_device 1 "kitchen" false) in
  (In r (joined db_inactive) /\ d_active (snd r) = false)
  /\ (forall rows,
         get_historical_data db_inactive noon 1 None (Ok rows) ->
         In (history_dict r) rows)
  /\ get_latest_measurement db_inactive None (Ok (Some (latest_dict r)))
  /\ measurements db_orphan <> []
  /\ (forall res, get_latest_measurement db_orphan None res -> res = Ok None)
  /\ (forall rows, get_historical_data db_orphan noon 1 None (Ok rows) -> rows = []).
Proof.
  intros r.
  destruct (queries_join_on_existence db_inactive noon 1)
    as (_ & _ & _ & _ & _ & Hwin & Hlat & _).
  destruct (queries_join_on_existence db_orphan noon 1)
    as (_ & _ & _ & _ & _ & _ & _ & Horphan).
  destruct (Horphan eq_refl) as [Ho1 Ho2].
  assert (Hr : In r (joined db_inactive)) by (now left).
  split; [split; [exact Hr | reflexivity] |].
  split.
  { intros rows. apply (Hwin (mkDatetime 2024 1 1 11 0 0 0 None) r rows);
      [reflexivity | exact Hr | reflexivity]. }
  split.
  { apply Hlat; [exact Hr |]. intros r' [<- | []]. right. split; [reflexivity |].
    apply Z.leb_le. reflexivity. }
  split; [discriminate |]. split; [exact Ho1 | exact Ho2].
Defined.

(* ================================================================== *)
(** * Further properties of the poller, the commands and the views *)

Section TickDb.

Variable env : environment.

(** The database after [store_measurement]: as it was, or with the row of
    the reading added under the next row id. *)
Lemma store_measurement_db (r : reading) (s : state) (P : database -> Prop) :
  P (db s) ->
  (forall ts row,
      timestamp_str env r = Ok ts ->
      bind_reading ts r (next_measurement_id (db s)) = Ok row ->
      sqlite_fault env (device_id r) = None ->
      P (mkDatabase (devices (db s)) (measurements (db s) ++ [row])
                    (next_measurement_id (db s)))) ->
  P (db (snd (store_measurement env (Some r) s))).
Proof.
  intros P0 P1.
  unfold store_measurement, insert_measurement, bind, try_except, emit, lift,
    get_db, put_db, ret, raise.
  simpl.
  destruct (timestamp_str env r) as [ts | e] eqn:Et; simpl.
  - destruct (bind_reading ts r (next_measurement_id (db s))) as [row | e] eqn:Eb;
      simpl.
    + destruct (sqlite_fault env (device_id r)) as [msg |] eqn:Ef; simpl.
      * exact P0.
      * now apply (P1 ts row).
    + destruct (is_sqlite3_Error e); exact P0.
  - destruct (is_sqlite3_Error e); exact P0.
Qed.

Lemma process_device_db (dc : device_config) (s : state) (P : database -> Prop) :
  P (db s) ->
  (forall r ts row,
      fetched_reading env dc = Some r ->
      timestamp_str env r = Ok ts ->
      bind_reading ts r (next_measurement_id (db s)) = Ok row ->
      sqlite_fault env (cfg_id dc) = None ->
      P (mkDatabase (devices (db s)) (measurements (db s) ++ [row])
                    (next_measurement_id (db s)))) ->
  P (db (snd (process_device env dc s))).
Proof.
  intros P0 P1.
  unfold process_device, fetched_reading in *.
  unfold try_except, bind, lift.
  destruct (create_device_adapter dc) as [a | e] eqn:Ha; [| exact P0].
  unfold ret at 1. cbv beta iota.
  destruct (create_device_adapter_fields _ _ Ha) as [Hid _].
  destruct (fetch_data_spec env a s) as (t1 & Hs1 & _ & Hr1).
  destruct (fetch_data env a s) as [res s1]. simpl in Hs1, Hr1. subst s1 res.
  destruct (round_trip (requests_get env a)) as [data | e]; cbv beta iota.
  - destruct (standardize a data) as [r | e] eqn:Es; cbv beta iota; [| exact P0].
    pose proof (standardize_device_id _ _ _ Es) as Hr. rewrite Hid in Hr.
    match goal with |- context [store_measurement env (Some r) ?s1] =>
      assert (H : P (db (snd (store_measurement env (Some r) s1))))
    end.
    { apply store_measurement_db; [exact P0 |]. simpl.
      intros ts row H1 H2 H3. apply (P1 r ts row); auto. now rewrite <- Hr. }
    destruct (store_measurement env (Some r) _) as [[[] | e] s2]; exact H.
  - destruct (is_RequestException e); exact P0.
Qed.

End TickDb.

Section TickDb2.

Variable env : environment.

Lemma for_each_process_device_db (cfgs : list device_config) (s : state)
      (P : database -> Prop) :
  P (db s) ->
  (forall d dc r ts row,
      P d -> In dc cfgs ->
      fetched_reading env dc = Some r ->
      timestamp_str env r = Ok ts ->
      bind_reading ts r (next_measurement_id d) = Ok row ->
      sqlite_fault env (cfg_id dc) = None ->
      P (mkDatabase (devices d) (measurements d ++ [row]) (next_measurement_id d))) ->
  P (db (snd (for_each cfgs (process_device env) s))).
Proof.
  revert s. induction cfgs as [| dc cfgs IH]; intros s P0 P1; [exact P0 |].
  simpl. unfold bind.
  pose proof (process_device_db env dc s P P0) as H.
  destruct (process_device_spec env dc s) as (s1 & t & n & Hrun & _).
  rewrite Hrun in *. simpl in H. apply IH.
  - apply H. intros r ts row H1 H2 H3 H4. apply (P1 (db s) dc r ts row); auto.
    now left.
  - intros d dc' r ts row Pd Hin. apply P1; auto. now right.
Qed.

(** An invariant rule for a tick: what holds of the database before the tick
    and is kept by the insertion of the row of a fetched reading under the
    next row id holds after the tick. *)
Lemma data_fetcher_tick_db (s : state) (P : database -> Prop) :
  P (db s) ->
  (forall d dc r ts row,
      P d ->
      fetched_reading env dc = Some r ->
      timestamp_str env r = Ok ts ->
      bind_reading ts r (next_measurement_id d) = Ok row ->
      sqlite_fault env (cfg_id dc) = None ->
      P (mkDatabase (devices d) (measurements d ++ [row]) (next_measurement_id d))) ->
  P (db (snd (data_fetcher_tick env s))).
Proof.
  intros P0 P1.
  unfold data_fetcher_tick, get_configured_devices, try_except, bind, get_db, lift.
  destruct (load_configs (select_active_devices (db s))) as [cfgs | e];
    [| exact P0].
  unfold ret at 1. cbv beta iota.
  destruct cfgs as [| dc cfgs]; [exact P0 |].
  pose proof (for_each_process_device_db (dc :: cfgs) s P P0) as H.
  destruct (for_each_process_device_spec env (dc :: cfgs) s)
    as (s' & t & new & Hrun & _).
  rewrite Hrun in *. simpl in H. apply H.
  intros d dc' r ts row Pd _. now apply P1.
Qed.

End TickDb2.

Section RowIds.

Lemma fold_max_ge (l : list Z) (b : Z) :
  0 <= b -> fold_right Z.max b l = Z.max b (fold_right Z.max 0 l).
Proof.
  intros Hb. induction l as [| x l IH]; simpl; [lia |]. rewrite IH. lia.
Qed.

Lemma fold_max_bound (l : list Z) (x : Z) :
  In x l -> x <= fold_right Z.max 0 l.
Proof.
  induction l as [| y l IH]; simpl; [tauto |]. intros [-> | H]; [lia |].
  specialize (IH H). lia.
Qed.

Lemma fold_max_nonneg (l : list Z) : 0 <= fold_right Z.max 0 l.
Proof. induction l as [| y l IH]; simpl; lia. Qed.

(** Every row id of the table is below the next row id. *)
Lemma next_measurement_id_above (d : database) (m : measurement_row) :
  In m (measurements d) -> m_id m < next_measurement_id d.
Proof.
  intros H. unfold next_measurement_id.
  pose proof (fold_max_bound (map m_id (measurements d)) (m_id m) (in_map m_id _ _ H)).
  lia.
Qed.

Lemma next_measurement_id_after (d : database) (row : measurement_row) :
  m_id row = next_measurement_id d ->
  next_measurement_id
    (mkDatabase (devices d) (measurements d ++ [row]) (next_measurement_id d))
  = next_measurement_id d + 1.
Proof.
  intros E. unfold next_measurement_id at 1. simpl.
  rewrite map_app, fold_right_app. simpl. rewrite E.
  pose proof (fold_max_nonneg (map m_id (measurements d))) as H0.
  assert (H1 : 1 <= next_measurement_id d) by (unfold next_measurement_id; lia).
  rewrite fold_max_ge by lia.
  assert (H2 : fold_right Z.max 0 (map m_id (measurements d)) < next_measurement_id d)
    by (unfold next_measurement_id; lia).
  lia.
Qed.

End RowIds.

Lemma NoDup_map_injective {A B} (f : A -> B) (l : list A) :
  (forall x y, f x = f y -> x = y) -> NoDup l -> NoDup (map f l).
Proof.
  intros Hf. induction 1 as [| x l Hx Hl IH]; simpl; constructor; [| exact IH].
  intros Hin. apply in_map_iff in Hin as (y & E & Hy). apply Hf in E. now subst.
Qed.

(** The rows that a tick adds carry the next row ids, in sequence. *)
Lemma data_fetcher_tick_rows (env : environment) (d : database) :
  let d' := db_after (data_fetcher_tick env) d in
  devices d' = devices d
  /\ exists new,
      measurements d' = (measurements d ++ new)%list
      /\ map m_id new
         = map (fun k => next_measurement_id d + Z.of_nat k) (seq 0 (List.length new))
      /\ next_measurement_id d' = next_measurement_id d + Z.of_nat (List.length new).
Proof.
  intros d'. unfold d', db_after, run.
  apply (data_fetcher_tick_db env (mkState d [])
           (fun d' => devices d' = devices d
                      /\ exists new,
                          measurements d' = (measurements d ++ new)%list
                          /\ map m_id new
                             = map (fun k => next_measurement_id d + Z.of_nat k)
                                   (seq 0 (List.length new))
                          /\ next_measurement_id d'
                             = next_measurement_id d + Z.of_nat (List.length new))).
  - split; [reflexivity |]. exists []. simpl. rewrite app_nil_r.
    repeat split. lia.
  - intros d1 dc r ts row (Hd & new & Hm & Hids & Hnext) _ _ Hb _.
    destruct (bind_reading_fields _ _ _ _ Hb) as (Hid & _).
    split; [exact Hd |]. exists (new ++ [row])%list. simpl.
    split; [rewrite Hm; now rewrite app_assoc |].
    split.
    + rewrite map_app, length_app. simpl.
      rewrite Nat.add_1_r, seq_S, map_app. simpl.
      rewrite Hids, Hid, Hnext. reflexivity.
    + rewrite (next_measurement_id_after d1 row Hid), Hnext, length_app. simpl.
      lia.
Qed.

(** Ids that are pairwise different stay so when rows with the next ids are
    added. *)
Lemma next_ids_NoDup (d : database) (new : list measurement_row) :
  map m_id new
  = map (fun k => next_measurement_id d + Z.of_nat k) (seq 0 (List.length new)) ->
  NoDup (map m_id (measurements d)) ->
  NoDup (map m_id (measurements d ++ new)).
Proof.
  intros Hids Hnd. rewrite map_app. apply NoDup_app.
  - exact Hnd.
  - rewrite Hids. apply NoDup_map_injective; [| apply seq_NoDup].
    intros x y E. lia.
  - intros i Hi Hi'. apply in_map_iff in Hi as (m & <- & Hin).
    rewrite Hids in Hi'. apply in_map_iff in Hi' as (k & E & _).
    pose proof (next_measurement_id_above d m Hin). lia.
Qed.

(** X1.  A tick only appends to [measurements]: it leaves [devices] and the
    rows already stored as they are, and the rows it adds carry the next row
    ids in sequence, each above every id stored before; ids that were
    pairwise different stay so. *)
Theorem tick_appends_rows_with_next_ids (env : environment) (d : database) :
  let d' := db_after (data_fetcher_tick env) d in
  devices d' = devices d
  /\ exists new,
      measurements d' = (measurements d ++ new)%list
      /\ map m_id new
         = map (fun k => next_measurement_id d + Z.of_nat k) (seq 0 (List.length new))
      /\ next_measurement_id d' = next_measurement_id d + Z.of_nat (List.length new)
      /\ (forall m n, In m (measurements d) -> In n new -> m_id m < m_id n)
      /\ (NoDup (map m_id (measurements d)) -> NoDup (map m_id (measurements d'))).
Proof.
  intros d'.
  destruct (data_fetcher_tick_rows env d) as (Hd & new & Hm & Hids & Hnext).
  fold d' in Hd, Hm, Hnext.
  split; [exact Hd |]. exists new.
  split; [exact Hm |]. split; [exact Hids |]. split; [exact Hnext |]. split.
  - intros m n Hin Hn. pose proof (next_measurement_id_above d m Hin).
    apply (in_map m_id) in Hn. rewrite Hids in Hn.
    apply in_map_iff in Hn as (k & <- & _). lia.
  - intros Hnd. rewrite Hm. now apply next_ids_NoDup.
Qed.

Section PollOrder.

Variable env : environment.

Lemma fetch_calls_app (t1 t2 : list event) :
  fetch_calls (t1 ++ t2) = (fetch_calls t1 ++ fetch_calls t2)%list.
Proof. unfold fetch_calls. now rewrite flat_map_app. Qed.

Lemma fetch_calls_filter (t : list event) :
  fetch_calls t = fetch_calls (filter is_CallFetch t).
Proof.
  induction t as [| ev t IH]; simpl; [reflexivity |].
  destruct ev; simpl; rewrite ?IH; reflexivity.
Qed.

Lemma store_calls_filter (t : list event) :
  store_calls t = store_calls (filter is_CallStore t).
Proof.
  induction t as [| ev t IH]; simpl; [reflexivity |].
  destruct ev; simpl; rewrite ?IH; reflexivity.
Qed.

Lemma fetch_calls_map (l : list device_config) :
  fetch_calls (map (fun dc => CallFetch (cfg_id dc)) l) = map cfg_id l.
Proof. induction l as [| dc l IH]; simpl; congruence. Qed.

Lemma store_calls_map (l : list device_config) :
  store_calls (map (fun dc => CallStore (cfg_id dc)) l) = map cfg_id l.
Proof. induction l as [| dc l IH]; simpl; congruence. Qed.

Lemma load_configs_ids (rows : list device_row) (cfgs : list device_config) :
  load_configs rows = Ok cfgs -> map cfg_id cfgs = map d_id rows.
Proof.
  revert cfgs. induction rows as [| r rows IH]; simpl; intros cfgs.
  - now intros [= <-].
  - destruct (json_loads (d_config r)); [| discriminate].
    destruct (load_configs rows) as [l |]; [| discriminate].
    intros [= <-]. simpl. f_equal. now apply IH.
Qed.

Lemma fetch_succeeds_constructible (dc : device_config) :
  fetch_succeeds env dc = true -> constructible dc = true.
Proof.
  unfold fetch_succeeds, fetched_reading, constructible.
  now destruct (create_device_adapter dc).
Qed.

Lemma sorted_map_filter {A} (f : A -> Z) (p : A -> bool) (l : list A) :
  StronglySorted Z.le (map f l) -> StronglySorted Z.le (map f (filter p l)).
Proof.
  induction l as [| x l IH]; simpl; [auto |]. intros H.
  apply StronglySorted_inv in H as [Hs Hall]. destruct (p x); simpl; [| auto].
  constructor; [auto |]. rewrite Forall_forall in *. intros y Hy.
  apply Hall. apply in_map_iff in Hy as (z & <- & Hz). apply in_map.
  now apply filter_In in Hz.
Qed.

(** Keys that are pairwise different stay so when rows are left out. *)
Lemma NoDup_map_filter {Row Key} (key : Row -> Key) (keep : Row -> bool)
      (rows : list Row) :
  NoDup (map key rows) -> NoDup (map key (filter keep rows)).
Proof.
  intros Hnd. induction rows as [| row rows IH]; [exact Hnd |].
  apply NoDup_cons_iff in Hnd as [Hrow Hrows]. simpl.
  destruct (keep row); [| now apply IH].
  simpl. constructor; [| now apply IH].
  intros Hin. apply Hrow.
  apply in_map_iff in Hin as (other & <- & Hother).
  apply in_map. now apply filter_In in Hother.
Qed.

(** The device list of a tick: the active rows, by ascending id. *)
Lemma select_active_devices_spec (d : database) :
  Permutation (filter d_active (devices d)) (select_active_devices d)
  /\ StronglySorted Z.le (map d_id (select_active_devices d)).
Proof.
  unfold select_active_devices. split; [apply sort_by_perm |].
  assert (H : StronglySorted (fun a b => (d_id a <=? d_id b) = true)
                (sort_by (fun a b => d_id a <=? d_id b) (filter d_active (devices d)))).
  { apply sort_by_sorted.
    - intros a b. rewrite !Z.leb_le. lia.
    - intros a b c. rewrite !Z.leb_le. lia. }
  induction H as [| x l Hs IH Hall]; simpl; constructor; [exact IH |].
  rewrite Forall_forall in *. intros i Hi.
  apply in_map_iff in Hi as (y & <- & Hy). apply Z.leb_le. now apply Hall.
Qed.

Lemma select_active_devices_exists (d : database) (i : Z) :
  In i (map d_id (select_active_devices d)) -> device_exists d i = true.
Proof.
  intros Hi. apply in_map_iff in Hi as (r & <- & Hr).
  destruct (select_active_devices_spec d) as [Hp _].
  apply (Permutation_in _ (Permutation_sym Hp)) in Hr.
  apply filter_In in Hr as [Hr Ha].
  unfold device_exists. apply existsb_exists. exists r.
  split; [exact Hr |]. now rewrite Z.eqb_refl, Ha.
Qed.

Lemma select_active_devices_NoDup (d : database) :
  NoDup (map d_id (devices d)) -> NoDup (map d_id (select_active_devices d)).
Proof.
  intros H. destruct (select_active_devices_spec d) as [Hp _].
  eapply Permutation_NoDup; [apply Permutation_map, Hp |].
  now apply NoDup_map_filter.
Qed.

(** The calls of a tick, from its device list. *)
Lemma data_fetcher_tick_calls (d : database) :
  let t := trace_of (data_fetcher_tick env) d in
  match load_configs (select_active_devices d) with
  | Ok cfgs =>
      fetch_calls t = map cfg_id (filter constructible cfgs)
      /\ store_calls t = map cfg_id (filter (fetch_succeeds env) cfgs)
  | Raise _ => fetch_calls t = [] /\ store_calls t = []
  end.
Proof.
  intros t. destruct (load_configs (select_active_devices d)) as [cfgs | e] eqn:Hl.
  - destruct (data_fetcher_tick_spec env cfgs (mkState d []) Hl)
      as (s' & t' & new & Hrun & (Ht & _ & _) & Hf & Hs & _).
    assert (Et : t = t').
    { unfold t, trace_of, run. rewrite Hrun. simpl. rewrite Ht. reflexivity. }
    rewrite Et, fetch_calls_filter, store_calls_filter, Hf, Hs.
    now rewrite fetch_calls_map, store_calls_map.
  - unfold t, trace_of, run, data_fetcher_tick, get_configured_devices,
      try_except, bind, get_db, lift.
    simpl. rewrite Hl. split; reflexivity.
Qed.

(** A tick calls [fetch_data] for active devices only. *)
Lemma tick_fetches_active_only (d : database) (i : Z) :
  In i (fetch_calls (trace_of (data_fetcher_tick env) d)) ->
  device_exists d i = true.
Proof.
  intros Hi. pose proof (data_fetcher_tick_calls d) as H. cbv zeta in H.
  destruct (load_configs (select_active_devices d)) as [cfgs | e] eqn:Hl.
  - destruct H as [Hf _]. rewrite Hf in Hi.
    apply select_active_devices_exists. rewrite <- (load_configs_ids _ _ Hl).
    apply in_map_iff in Hi as (dc & <- & Hdc).
    apply in_map. now apply filter_In in Hdc.
  - destruct H as [Hf _]. rewrite Hf in Hi. destruct Hi.
Qed.

End PollOrder.

(** X2.  A tick calls [fetch_data] only for devices that are active when it
    starts, in ascending order of their ids, and at most once for each when
    the device ids are pairwise different; it calls [store_measurement]
    only for devices it fetched.  When the device list was read, the calls
    are exactly those for the listed devices whose adapter can be built. *)
Theorem tick_polls_active_devices_in_id_order (env : environment) (d : database) :
  let t := trace_of (data_fetcher_tick env) d in
  (forall i, In i (fetch_calls t) -> device_exists d i = true)
  /\ (forall i, In i (store_calls t) -> In i (fetch_calls t))
  /\ StronglySorted Z.le (fetch_calls t)
  /\ (NoDup (map d_id (devices d)) -> NoDup (fetch_calls t))
  /\ (forall cfgs,
         load_configs (select_active_devices d) = Ok cfgs ->
         map cfg_id cfgs = map d_id (select_active_devices d)
         /\ fetch_calls t = map cfg_id (filter constructible cfgs)).
Proof.
  intros t. pose proof (data_fetcher_tick_calls env d) as H. fold t in H.
  destruct (load_configs (select_active_devices d)) as [cfgs | e] eqn:Hl.
  - destruct H as [Hf Hs]. pose proof (load_configs_ids _ _ Hl) as Hids.
    destruct (select_active_devices_spec d) as [_ Hsorted].
    rewrite <- Hids in Hsorted.
    split; [| split; [| split; [| split]]].
    + apply tick_fetches_active_only.
    + intros i Hi. rewrite Hs in Hi. rewrite Hf.
      apply in_map_iff in Hi as (dc & <- & Hdc). apply in_map.
      apply filter_In in Hdc as [Hdc Hok]. apply filter_In.
      split; [exact Hdc | now apply (fetch_succeeds_constructible env)].
    + rewrite Hf. now apply sorted_map_filter.
    + intros Hnd. rewrite Hf. apply NoDup_map_filter. rewrite Hids.
      now apply select_active_devices_NoDup.
    + intros cfgs' [= <-]. auto.
  - destruct H as [-> ->].
    split; [intros i [] |]. split; [intros i [] |].
    split; [constructor |]. split; [constructor |]. discriminate.
Qed.

Section Commands.

Variable env : environment.

(** The database after [deactivate_device]: as it was, or with the device
    flagged inactive, which happens when the device is found active, the
    command is confirmed and the engine does not fail. *)
Lemma deactivate_device_db (i : Z) (force : bool) (answer : string) (s : state)
      (P : database -> Prop) :
  P (db s) ->
  (forall dev,
      find (fun r => d_id r =? i) (devices (db s)) = Some dev ->
      d_active dev = true ->
      force = true \/ is_yes answer = true ->
      sqlite_fault env i = None ->
      P (set_active i false (db s))) ->
  P (db (snd (deactivate_device env i force answer s))).
Proof.
  intros P0 P1. unfold deactivate_device, bind, get_db. cbv beta iota.
  destruct (find _ (devices (db s))) as [dev |] eqn:Ef; [| exact P0].
  destruct (d_active dev) eqn:Ea; [| exact P0]. cbv beta iota. simpl negb.
  cbv beta iota.
  destruct (negb force && negb (is_yes answer)) eqn:Ec; [exact P0 |].
  unfold try_except.
  destruct (sqlite_fault env i) as [msg |] eqn:Es; [exact P0 |].
  simpl. apply (P1 dev); auto.
  apply andb_false_iff in Ec. rewrite !negb_false_iff in Ec. exact Ec.
Qed.

(** When these conditions hold the device is flagged. *)
Lemma deactivate_device_done (i : Z) (force : bool) (answer : string) (s : state)
      (dev : device_row) :
  find (fun r => d_id r =? i) (devices (db s)) = Some dev ->
  d_active dev = true ->
  force = true \/ is_yes answer = true ->
  sqlite_fault env i = None ->
  db (snd (deactivate_device env i force answer s)) = set_active i false (db s).
Proof.
  intros Ef Ea Hc Es. unfold deactivate_device, bind, get_db. cbv beta iota.
  rewrite Ef, Ea. simpl negb. cbv beta iota.
  assert (Ec : negb force && negb (is_yes answer) = false).
  { apply andb_false_iff. rewrite !negb_false_iff. exact Hc. }
  rewrite Ec. unfold try_except. rewrite Es. reflexivity.
Qed.

Lemma activate_device_db (i : Z) (s : state) (P : database -> Prop) :
  P (db s) ->
  (forall dev,
      find (fun r => d_id r =? i) (devices (db s)) = Some dev ->
      d_active dev = false ->
      sqlite_fault env i = None ->
      P (set_active i true (db s))) ->
  P (db (snd (activate_device env i s))).
Proof.
  intros P0 P1. unfold activate_device, bind, get_db. cbv beta iota.
  destruct (find _ (devices (db s))) as [dev |] eqn:Ef; [| exact P0].
  destruct (d_active dev) eqn:Ea; [exact P0 |].
  unfold try_except.
  destruct (sqlite_fault env i) as [msg |] eqn:Es; [exact P0 |].
  simpl. now apply (P1 dev).
Qed.

Lemma activate_device_done (i : Z) (s : state) (dev : device_row) :
  find (fun r => d_id r =? i) (devices (db s)) = Some dev ->
  d_active dev = false ->
  sqlite_fault env i = None ->
  db (snd (activate_device env i s)) = set_active i true (db s).
Proof.
  intros Ef Ea Es. unfold activate_device, bind, get_db. cbv beta iota.
  rewrite Ef, Ea. unfold try_except. rewrite Es. reflexivity.
Qed.

Lemma remove_device_db (i : Z) (force : bool) (answer : string) (s : state)
      (P : database -> Prop) :
  P (db s) ->
  (forall dev,
      find (fun r => d_id r =? i) (devices (db s)) = Some dev ->
      force = true \/ is_yes answer = true ->
      sqlite_fault env i = None ->
      P (mkDatabase (filter (fun r => negb (d_id r =? i)) (devices (db s)))
                    (measurements (db s)) (measurements_seq (db s)))) ->
  P (db (snd (remove_device env i force answer s))).
Proof.
  intros P0 P1. unfold remove_device, bind, get_db. cbv beta iota.
  destruct (find _ (devices (db s))) as [dev |] eqn:Ef; [| exact P0].
  destruct (negb force && negb (is_yes answer)) eqn:Ec; [exact P0 |].
  unfold try_except.
  destruct (sqlite_fault env i) as [msg |] eqn:Es; [exact P0 |].
  simpl. apply (P1 dev); auto.
  apply andb_false_iff in Ec. rewrite !negb_false_iff in Ec. exact Ec.
Qed.

Lemma remove_device_done (i : Z) (force : bool) (answer : string) (s : state)
      (dev : device_row) :
  find (fun r => d_id r =? i) (devices (db s)) = Some dev ->
  force = true \/ is_yes answer = true ->
  sqlite_fault env i = None ->
  db (snd (remove_device env i force answer s))
  = mkDatabase (filter (fun r => negb (d_id r =? i)) (devices (db s)))
               (measurements (db s)) (measurements_seq (db s)).
Proof.
  intros Ef Hc Es. unfold remove_device, bind, get_db. cbv beta iota.
  rewrite Ef.
  assert (Ec : negb force && negb (is_yes answer) = false).
  { apply andb_false_iff. rewrite !negb_false_iff. exact Hc. }
  rewrite Ec. unfold try_except. rewrite Es. reflexivity.
Qed.

End Commands.

Section SetActive.

Lemma set_active_devices (i : Z) (a : bool) (d : database) :
  devices (set_active i a d) = map (flagged i a) (devices d).
Proof. reflexivity. Qed.

Lemma flagged_id (i : Z) (a : bool) (r : device_row) : d_id (flagged i a r) = d_id r.
Proof. unfold flagged. now destruct (d_id r =? i). Qed.

Lemma set_active_ids (i : Z) (a : bool) (d : database) :
  map d_id (devices (set_active i a d)) = map d_id (devices d).
Proof.
  rewrite set_active_devices, map_map. apply map_ext. apply flagged_id.
Qed.

(** After the flag of device [i] was cleared, no active row has id [i]. *)
Lemma device_exists_set_inactive (i : Z) (d : database) :
  device_exists (set_active i false d) i = false.
Proof.
  unfold device_exists. rewrite set_active_devices.
  induction (devices d) as [| r l IH]; simpl; [reflexivity |].
  rewrite IH, orb_false_r. unfold flagged.
  destruct (d_id r =? i) eqn:E; simpl; [now rewrite E | now rewrite E].
Qed.

(** The flag of another device is not touched. *)
Lemma device_exists_set_active_other (i j : Z) (a : bool) (d : database) :
  i <> j -> device_exists (set_active i a d) j = device_exists d j.
Proof.
  intros Hij. unfold device_exists. rewrite set_active_devices.
  induction (devices d) as [| r l IH]; simpl; [reflexivity |].
  rewrite IH. f_equal. unfold flagged.
  destruct (Z.eqb_spec (d_id r) i) as [E |]; [| reflexivity].
  simpl. destruct (Z.eqb_spec (d_id r) j); [lia | reflexivity].
Qed.

Lemma NoDup_map_eq {A B} (f : A -> B) (l : list A) (x y : A) :
  NoDup (map f l) -> In x l -> In y l -> f x = f y -> x = y.
Proof.
  induction l as [| z l IH]; simpl; [tauto |]. intros H Hx Hy E.
  apply NoDup_cons_iff in H as [Hz Hl].
  destruct Hx as [-> | Hx], Hy as [-> | Hy]; auto.
  - exfalso. apply Hz. rewrite E. now apply in_map.
  - exfalso. apply Hz. rewrite <- E. now apply in_map.
Qed.

Lemma find_id_In (i : Z) (l : list device_row) (dev : device_row) :
  find (fun r => d_id r =? i) l = Some dev -> In dev l /\ d_id dev = i.
Proof. intros H. apply find_some in H as [H E]. now apply Z.eqb_eq in E. Qed.

End SetActive.

(** X3.  [deactivate_device] never touches [measurements], and no answer of
    the latest query or of the window query changes by it.  When the device
    is found active, the command is confirmed and the engine does not fail,
    the device is no longer an active device: the facade's check fails for
    it and no later tick calls [fetch_data] for it. *)
Theorem deactivate_stops_polling_keeps_history (env : environment) (i : Z)
        (force : bool) (answer : string) (d : database) :
  let d1 := db_after (deactivate_device env i force answer) d in
  (d1 = d \/ d1 = set_active i false d)
  /\ measurements d1 = measurements d
  /\ (forall dev res,
         get_latest_measurement d1 dev res <-> get_latest_measurement d dev res)
  /\ (forall now hours dev res,
         get_historical_data d1 now hours dev res
         <-> get_historical_data d now hours dev res)
  /\ (forall dev,
         find (fun r => d_id r =? i) (devices d) = Some dev ->
         d_active dev = true ->
         force = true \/ is_yes answer = true ->
         sqlite_fault env i = None ->
         d1 = set_active i false d
         /\ device_exists d1 i = false
         /\ forall env2,
             ~ In i (fetch_calls (trace_of (data_fetcher_tick env2) d1))).
Proof.
  intros d1.
  assert (H : d1 = d \/ d1 = set_active i false d).
  { unfold d1, db_after, run.
    apply (deactivate_device_db env i force answer (mkState d [])
             (fun d1 => d1 = d \/ d1 = set_active i false d)); auto. }
  split; [exact H |].
  split; [destruct H as [-> | ->]; reflexivity |].
  split.
  { intros dev res. destruct H as [-> | ->]; [tauto |].
    apply get_latest_measurement_set_active. }
  split.
  { intros now hours dev res. destruct H as [-> | ->]; [tauto |].
    apply get_historical_data_set_active. }
  intros dev Ef Ea Hc Es.
  assert (E : d1 = set_active i false d).
  { unfold d1, db_after, run.
    now apply (deactivate_device_done env i force answer (mkState d []) dev). }
  split; [exact E |]. rewrite E.
  split; [apply device_exists_set_inactive |].
  intros env2 Hin.
  apply tick_fetches_active_only in Hin.
  now rewrite device_exists_set_inactive in Hin.
Qed.

Lemma deactivate_stops_polling_keeps_history_witness :
  let env := sample_env (answers JNull) in
  let d1 := db_after (deactivate_device env 1 true "") db_one_device in
  device_exists db_one_device 1 = true
  /\ device_exists d1 1 = false
  /\ forall env2, ~ In 1 (fetch_calls (trace_of (data_fetcher_tick env2) d1)).
Proof.
  intros env d1.
  destruct (deactivate_stops_polling_keeps_history env 1 true "" db_one_device)
    as (_ & _ & _ & _ & H).
  destruct (H (sample_device 1 "kitchen" true))
    as (_ & H1 & H2); [reflexivity | reflexivity | now left | reflexivity |].
  split; [reflexivity |]. split; [exact H1 | exact H2].
Defined.

Section RoundTrip.

Lemma device_row_eta (r : device_row) :
  mkDevice (d_id r) (d_name r) (d_provider r) (d_config r) (d_active r) = r.
Proof. now destruct r. Qed.

Lemma database_eta (d : database) :
  mkDatabase (devices d) (measurements d) (measurements_seq d) = d.
Proof. now destruct d. Qed.

(** Setting the flag of a device to the value it has changes nothing. *)
Lemma set_active_same (i : Z) (a : bool) (d : database) :
  (forall r, In r (devices d) -> d_id r = i -> d_active r = a) ->
  set_active i a d = d.
Proof.
  intros H. unfold set_active. rewrite <- (database_eta d) at 4. f_equal.
  rewrite <- (map_id (devices d)) at 2. apply map_ext_in. intros r Hr.
  destruct (Z.eqb_spec (d_id r) i) as [E |]; [| reflexivity].
  rewrite <- (H r Hr E). apply device_row_eta.
Qed.

Lemma set_active_twice (i : Z) (a b : bool) (d : database) :
  set_active i a (set_active i b d) = set_active i a d.
Proof.
  unfold set_active. simpl. f_equal. rewrite map_map. apply map_ext. intros r.
  destruct (Z.eqb_spec (d_id r) i) as [E |]; simpl.
  - destruct (Z.eqb_spec (d_id r) i); [reflexivity | contradiction].
  - destruct (Z.eqb_spec (d_id r) i); [contradiction | reflexivity].
Qed.

Lemma find_flagged (i : Z) (a : bool) (l : list device_row) :
  find (fun r => d_id r =? i) (map (flagged i a) l)
  = option_map (flagged i a) (find (fun r => d_id r =? i) l).
Proof.
  induction l as [| r l IH]; simpl; [reflexivity |].
  rewrite flagged_id. destruct (d_id r =? i); [reflexivity | exact IH].
Qed.

End RoundTrip.

(** X4.  When the device ids are pairwise different, deactivating an active
    device and then activating it (both confirmed, the engine not failing)
    gives back the database as it was. *)
Theorem activate_undoes_deactivate (env : environment) (i : Z) (force : bool)
        (answer : string) (d : database) (dev : device_row) :
  NoDup (map d_id (devices d)) ->
  find (fun r => d_id r =? i) (devices d) = Some dev ->
  d_active dev = true ->
  force = true \/ is_yes answer = true ->
  sqlite_fault env i = None ->
  db_after (activate_device env i)
           (db_after (deactivate_device env i force answer) d) = d.
Proof.
  intros Hnd Ef Ea Hc Es. unfold db_after, run.
  rewrite (deactivate_device_done env i force answer (mkState d []) dev Ef Ea Hc Es).
  simpl db.
  rewrite (activate_device_done env i (mkState (set_active i false d) [])
                                (flagged i false dev)).
  - simpl db. rewrite set_active_twice. apply set_active_same.
    intros r Hr E. destruct (find_id_In _ _ _ Ef) as [Hdev Hi].
    assert (r = dev) by (apply (NoDup_map_eq d_id (devices d)); auto; congruence).
    now subst r.
  - cbn [db]. rewrite set_active_devices, find_flagged, Ef. reflexivity.
  - unfold flagged. destruct (find_id_In _ _ _ Ef) as [_ ->].
    now rewrite Z.eqb_refl.
  - exact Es.
Qed.

Lemma activate_undoes_deactivate_witness :
  let env := sample_env (answers JNull) in
  db_after (deactivate_device env 2 true "") db_two_devices <> db_two_devices
  /\ db_after (activate_device env 2)
              (db_after (deactivate_device env 2 true "") db_two_devices)
     = db_two_devices.
Proof.
  intros env. split; [discriminate |].
  apply (activate_undoes_deactivate env 2 true "" db_two_devices
           (mkDevice 2 "attic" "airgradient"
              (ConfigJson (JObj [("api_token", JStr "tok2"); ("location_id", JStr "5678")]))
              true)).
  - repeat constructor; simpl; intuition discriminate.
  - reflexivity.
  - reflexivity.
  - now left.
  - reflexivity.
Defined.

(** X5.  Every command and every tick keeps the ids of [devices] pairwise
    different, and those of [measurements] too. *)
Theorem commands_keep_ids_unique (env : environment) (d : database) :
  unique_ids d ->
  unique_ids (db_after (data_fetcher_tick env) d)
  /\ (forall provider name token location validate force,
         unique_ids (db_after (add_device env provider name token location
                                          validate force) d))
  /\ (forall i force answer, unique_ids (db_after (remove_device env i force answer) d))
  /\ (forall i force answer,
         unique_ids (db_after (deactivate_device env i force answer) d))
  /\ (forall i, unique_ids (db_after (activate_device env i) d)).
Proof.
  intros [Hd Hm]. split; [| split; [| split; [| split]]].
  - destruct (data_fetcher_tick_rows env d) as (Ed & new & Em & Hids & _).
    split; [now rewrite Ed |]. rewrite Em. now apply next_ids_NoDup.
  - intros provider name token location validate force.
    destruct (add_device_devices env provider name token location validate force
                                 (mkState d [])) as [Em [Ed | (cfg & Ed)]];
      unfold db_after, run; split; rewrite ?Em, ?Ed; auto.
    simpl. rewrite map_app. simpl. apply NoDup_app; [exact Hd | | ].
    + constructor; [intros [] | constructor].
    + intros j Hj [<- | []]. apply in_map_iff in Hj as (r & E & Hr).
      pose proof (next_id_above d r Hr). lia.
  - intros i force answer. unfold db_after, run.
    apply (remove_device_db env i force answer (mkState d []) unique_ids);
      [now split |].
    intros dev _ _ _. split; simpl; [now apply NoDup_map_filter | exact Hm].
  - intros i force answer. unfold db_after, run.
    apply (deactivate_device_db env i force answer (mkState d []) unique_ids);
      [now split |].
    intros dev _ _ _ _. split; [now rewrite set_active_ids | exact Hm].
  - intros i. unfold db_after, run.
    apply (activate_device_db env i (mkState d []) unique_ids); [now split |].
    intros dev _ _ _. split; [now rewrite set_active_ids | exact Hm].
Qed.

Lemma commands_keep_ids_unique_witness :
  let env := sample_env first_times_out in
  unique_ids db_two_devices
  /\ unique_ids (db_after (data_fetcher_tick env) db_two_devices)
  /\ unique_ids (db_after (remove_device env 1 true "") db_two_devices).
Proof.
  intros env.
  assert (H : unique_ids db_two_devices).
  { split; simpl; repeat constructor; simpl; intuition discriminate. }
  destruct (commands_keep_ids_unique env db_two_devices H) as (H1 & _ & H2 & _).
  split; [exact H |]. split; [exact H1 | apply H2].
Defined.

Section Remove.

Lemma joined_other_devices (d d1 : database) (i : Z) (r : joined_row) :
  measurements d1 = measurements d ->
  devices d1 = filter (fun r => negb (d_id r =? i)) (devices d) ->
  In r (joined d1) <-> In r (joined d) /\ m_device_id (fst r) <> i.
Proof.
  intros Em Ed. rewrite !in_joined, Em, Ed, filter_In, negb_true_iff, Z.eqb_neq.
  split.
  - intros (H1 & (H2 & H3) & H4). rewrite <- H4. auto.
  - intros ((H1 & H2 & H3) & H4). rewrite H3. auto.
Qed.

End Remove.

(** X6.  [remove_device] never deletes a measurement, and changes nothing in
    what the queries join for the other devices.  When the device is found,
    the command is confirmed and the engine does not fail, the rows of the
    removed device stay in [measurements] but are joined no more: the latest
    query for the device returns nothing, its window is empty, and the
    facade's check fails for it. *)
Theorem remove_device_hides_history (env : environment) (i : Z) (force : bool)
        (answer : string) (d : database) :
  let d1 := db_after (remove_device env i force answer) d in
  measurements d1 = measurements d
  /\ (forall r, m_device_id (fst r) <> i -> (In r (joined d1) <-> In r (joined d)))
  /\ (forall dev,
         find (fun r => d_id r =? i) (devices d) = Some dev ->
         force = true \/ is_yes answer = true ->
         sqlite_fault env i = None ->
         devices d1 = filter (fun r => negb (d_id r =? i)) (devices d)
         /\ device_exists d1 i = false
         /\ (forall r, In r (joined d1) -> m_device_id (fst r) <> i)
         /\ (i <> 0 ->
             (forall res,
                 get_latest_measurement d1 (Some i) res ->
                 res = if fits_int64 i then Ok None else Raise OverflowError)
             /\ (forall now hours rows,
                    get_historical_data d1 now hours (Some i) (Ok rows) -> rows = []))).
Proof.
  intros d1.
  assert (H : measurements d1 = measurements d
              /\ (devices d1 = devices d
                  \/ devices d1 = filter (fun r => negb (d_id r =? i)) (devices d))).
  { unfold d1, db_after, run.
    apply (remove_device_db env i force answer (mkState d [])
             (fun d1 => measurements d1 = measurements d
                        /\ (devices d1 = devices d
                            \/ devices d1
                               = filter (fun r => negb (d_id r =? i)) (devices d))));
      simpl; auto. }
  destruct H as [Em Hd]. split; [exact Em |]. split.
  { intros r Hr. destruct Hd as [Ed | Ed].
    - rewrite !in_joined, Em, Ed. tauto.
    - rewrite (joined_other_devices d d1 i r Em Ed). tauto. }
  intros dev Ef Hc Es.
  assert (E : d1 = mkDatabase (filter (fun r => negb (d_id r =? i)) (devices d))
                              (measurements d) (measurements_seq d)).
  { unfold d1, db_after, run.
    now apply (remove_device_done env i force answer (mkState d []) dev). }
  assert (Ed : devices d1 = filter (fun r => negb (d_id r =? i)) (devices d))
    by (now rewrite E).
  assert (Hj : forall r, In r (joined d1) -> m_device_id (fst r) <> i).
  { intros r Hr. now apply (joined_other_devices d d1 i r Em Ed) in Hr. }
  split; [exact Ed |]. split.
  { unfold device_exists. rewrite Ed.
    apply not_true_is_false. intros Hex. apply existsb_exists in Hex as (r & Hr & Hi).
    apply filter_In in Hr as [_ Hr]. apply andb_true_iff in Hi as [Hi _].
    now rewrite Hi in Hr. }
  split; [exact Hj |].
  intros Hi0.
  assert (Hnone : forall r, ~ In r (filter (device_filter (Some i)) (joined d1))).
  { intros r Hr. apply filter_In in Hr as [Hr Hf].
    apply device_filter_spec in Hf as [Hf | Hf]; [contradiction |].
    now apply (Hj r Hr). }
  split.
  - intros res H. apply get_latest_measurement_spec in H.
    change (bindable (Some i)) with (fits_int64 i) in H.
    destruct res as [[row |] | e].
    + destruct H as (r & Hr & _). now apply Hnone in Hr.
    + destruct H as [-> _]. reflexivity.
    + destruct H as [-> ->]. reflexivity.
  - intros now hours [| row rows] H; [reflexivity |].
    destruct (get_historical_data_rows _ _ _ _ _ _ H (or_introl eq_refl))
      as (since & r & _ & Hr & _).
    apply in_history_rows in Hr as (Hr & _ & Hf).
    exfalso. apply (Hnone r). apply filter_In. auto.
Qed.

Lemma remove_device_hides_history_witness :
  let env := sample_env (answers JNull) in
  let d := db_after (data_fetcher_tick
                       (sample_env (answers (JStr "2024-01-01T11:30:00Z"))))
                    db_one_device in
  let d1 := db_after (remove_device env 1 true "") d in
  get_latest_measurement_run d (Some 1) <> Ok None
  /\ List.length (measurements d1) = 1%nat
  /\ (forall res, get_latest_measurement d1 (Some 1) res -> res = Ok None).
Proof.
  intros env d d1.
  destruct (remove_device_hides_history env 1 true "" d) as (_ & _ & H).
  destruct (H (sample_device 1 "kitchen" true))
    as (_ & _ & _ & H1); [reflexivity | now left | reflexivity |].
  split; [discriminate |]. split; [reflexivity |].
  intros res Hres. apply (proj1 (H1 ltac:(discriminate))) in Hres. exact Hres.
Defined.

Section FetchOk.

Variable env : environment.

Lemma round_trip_response (status : Z) (body : json_body) :
  ~ (400 <= status < 600) ->
  round_trip (Response status body)
  = match body with
    | JsonBody v => Ok v
    | NotJson true => Raise (RequestException "JSONDecodeError")
    | NotJson false => Raise (ValueError "JSONDecodeError")
    end.
Proof.
  intros H. unfold round_trip.
  destruct ((400 <=? status) && (status <? 600)) eqn:E; [| reflexivity].
  apply andb_true_iff in E as [E1 E2]. apply Z.leb_le in E1. apply Z.ltb_lt in E2.
  lia.
Qed.

Lemma fetch_data_result (a : adapter) (s : state) :
  fst (fetch_data env a s)
  = match round_trip (requests_get env a) with
    | Ok data => match standardize a data with
                 | Ok r => Ok (Some r)
                 | Raise e => Raise e
                 end
    | Raise e => if is_RequestException e then Ok None else Raise e
    end.
Proof. destruct (fetch_data_spec env a s) as (t & _ & _ & H). exact H. Qed.

Lemma fetch_data_db (a : adapter) (s : state) :
  db (snd (fetch_data env a s)) = db s.
Proof. destruct (fetch_data_spec env a s) as (t & -> & _). reflexivity. Qed.

End FetchOk.

(** X9.  What [fetch_data] does with a response whose status is not an
    error status: a body that is a JSON object gives the reading that maps
    pm01, pm02, pm10, rco2, atmp, rhum, noxIndex and tvocIndex to the
    standard names, a missing key giving [None]; a body that is JSON but no
    object makes it raise [AttributeError]; a body that is no JSON gives
    [None] when [requests] raises its own decoding error and a [ValueError]
    when it raises the one of [json].  The database is not touched. *)
Theorem fetch_data_on_response (env : environment) (a : adapter) (s : state)
        (status : Z) (body : json_body) :
  requests_get env a = Response status body ->
  ~ (400 <= status < 600) ->
  db (snd (fetch_data env a s)) = db s
  /\ fst (fetch_data env a s)
     = match body with
       | JsonBody (JObj f) =>
           Ok (Some (mkReading (a_device_id a)
                       (dict_get f "timestamp")
                       (dict_get f "pm01") (dict_get f "pm02") (dict_get f "pm10")
                       (dict_get f "rco2") (dict_get f "atmp") (dict_get f "rhum")
                       (dict_get f "noxIndex") (dict_get f "tvocIndex")))
       | JsonBody _ => Raise AttributeError
       | NotJson true => Ok None
       | NotJson false => Raise (ValueError "JSONDecodeError")
       end
  /\ (forall f k, assoc k f = None -> dict_get f k = JNull).
Proof.
  intros Hg Hs. split; [apply fetch_data_db |]. split.
  - rewrite fetch_data_result, Hg, (round_trip_response status body Hs).
    destruct body as [v | []]; try reflexivity. now destruct v.
  - intros f k H. unfold dict_get. now rewrite H.
Qed.

Lemma fetch_data_on_response_witness :
  let a := mkAdapter (mkConfig 1 "kitchen" "airgradient" airgradient_config)
                     "kitchen" 1 (JStr "tok") (JStr "1234") in
  let s := mkState db_one_device [] in
  fst (fetch_data (sample_env (fun _ => Response 200 (JsonBody (JArr [])))) a s)
  = Raise AttributeError
  /\ option_map pm2
       (match fst (fetch_data
                     (sample_env (fun _ => Response 200 (JsonBody (JObj [("rco2", JInt 400)]))))
                     a s) with
        | Ok o => o
        | Raise _ => None
        end)
     = Some JNull.
Proof.
  intros a s. split.
  - apply (fetch_data_on_response
             (sample_env (fun _ => Response 200 (JsonBody (JArr [])))) a s 200
             (JsonBody (JArr []))); [reflexivity | lia].
  - rewrite (proj1 (proj2 (fetch_data_on_response
             (sample_env (fun _ => Response 200 (JsonBody (JObj [("rco2", JInt 400)]))))
             a s 200 (JsonBody (JObj [("rco2", JInt 400)])) eq_refl ltac:(lia)))).
    reflexivity.
Defined.

Section StoredRow.

Variable env : environment.

Lemma bind_reading_columns (ts : string) (r : reading) (i : Z) (row : measurement_row) :
  bind_reading ts r i = Ok row ->
  bind_param (pm1 r) = Ok (m_pm1 row)
  /\ bind_param (pm2 r) = Ok (m_pm2 row)
  /\ bind_param (pm10 r) = Ok (m_pm10 row)
  /\ bind_param (co2 r) = Ok (m_co2 row)
  /\ bind_param (temperature r) = Ok (m_temperature row)
  /\ bind_param (humidity r) = Ok (m_humidity row)
  /\ bind_param (nox r) = Ok (m_nox row)
  /\ bind_param (tvoc r) = Ok (m_tvoc row).
Proof.
  unfold bind_reading.
  destruct (bind_param (pm1 r)); [| discriminate].
  destruct (bind_param (pm2 r)); [| discriminate].
  destruct (bind_param (pm10 r)); [| discriminate].
  destruct (bind_param (co2 r)); [| discriminate].
  destruct (bind_param (temperature r)); [| discriminate].
  destruct (bind_param (humidity r)); [| discriminate].
  destruct (bind_param (nox r)); [| discriminate].
  destruct (bind_param (tvoc r)); [| discriminate].
  intros [= <-]. simpl. repeat split.
Qed.

(** [None] is bound as NULL. *)
Lemma bind_param_null (v : json) (c : sqlval) :
  bind_param v = Ok c -> v = JNull -> c = SqlNull.
Proof. intros H ->. simpl in H. congruence. Qed.

(** [d.get(k)] is [None] for a key that is absent or given as null. *)
Lemma dict_get_null (f : list (string * json)) (k : string) :
  dict_get f k = JNull <-> assoc k f = None \/ assoc k f = Some JNull.
Proof.
  unfold dict_get. destruct (assoc k f) as [v |].
  - split; [intros ->; now right | intros [H | [= ->]]; [discriminate | reflexivity]].
  - split; [now left | reflexivity].
Qed.

(** The body behind a fetched reading. *)
Lemma fetched_reading_body (dc : device_config) (r : reading) :
  fetched_reading env dc = Some r ->
  exists a f,
    create_device_adapter dc = Ok a
    /\ round_trip (requests_get env a) = Ok (JObj f)
    /\ r = mkReading (cfg_id dc)
             (dict_get f "timestamp")
             (dict_get f "pm01") (dict_get f "pm02") (dict_get f "pm10")
             (dict_get f "rco2") (dict_get f "atmp") (dict_get f "rhum")
             (dict_get f "noxIndex") (dict_get f "tvocIndex").
Proof.
  unfold fetched_reading.
  destruct (create_device_adapter dc) as [a |] eqn:Ha; [| discriminate].
  destruct (round_trip (requests_get env a)) as [data |] eqn:Hrt; [| discriminate].
  destruct data; simpl; try discriminate. intros [= <-].
  exists a, fields. split; [reflexivity |]. split; [exact Hrt |].
  now rewrite (proj1 (create_device_adapter_fields _ _ Ha)).
Qed.

End StoredRow.

(** X8.  Every row that a tick adds comes from the body that the provider
    returned for a device of the tick's list: it carries the id of that
    device, and each of its measured columns is NULL when the body lacks the
    provider's name for it (pm01, pm02, pm10, rco2, atmp, rhum, noxIndex,
    tvocIndex) or gives it as null.  (What a column holds otherwise depends
    on its affinity and is not stated.) *)
Theorem stored_row_null_columns (env : environment) (d : database)
        (cfgs : list device_config) :
  load_configs (select_active_devices d) = Ok cfgs ->
  exists new,
    measurements (db_after (data_fetcher_tick env) d) = (measurements d ++ new)%list
    /\ forall row, In row new ->
         exists dc a f,
           In dc cfgs /\ create_device_adapter dc = Ok a
           /\ round_trip (requests_get env a) = Ok (JObj f)
           /\ m_device_id row = cfg_id dc
           /\ (dict_get f "pm01" = JNull -> m_pm1 row = SqlNull)
           /\ (dict_get f "pm02" = JNull -> m_pm2 row = SqlNull)
           /\ (dict_get f "pm10" = JNull -> m_pm10 row = SqlNull)
           /\ (dict_get f "rco2" = JNull -> m_co2 row = SqlNull)
           /\ (dict_get f "atmp" = JNull -> m_temperature row = SqlNull)
           /\ (dict_get f "rhum" = JNull -> m_humidity row = SqlNull)
           /\ (dict_get f "noxIndex" = JNull -> m_nox row = SqlNull)
           /\ (dict_get f "tvocIndex" = JNull -> m_tvoc row = SqlNull)
           /\ (forall k, dict_get f k = JNull
                         <-> assoc k f = None \/ assoc k f = Some JNull).
Proof.
  intros Hl.
  destruct (data_fetcher_tick_spec env cfgs (mkState d []) Hl)
    as (s' & t & new & Hrun & (_ & _ & Hm) & _ & _ & Hnew & _).
  exists new. unfold db_after, run. rewrite Hrun. split; [exact Hm |].
  intros row Hrow.
  destruct (Hnew row Hrow) as (dc & r & ts & Hdc & Hr & _ & Hb).
  destruct (fetched_reading_body env dc r Hr) as (a & f & Ha & Hf & ->).
  destruct (bind_reading_fields _ _ _ _ Hb) as (_ & Hdev & _).
  destruct (bind_reading_columns _ _ _ _ Hb)
    as (H1 & H2 & H3 & H4 & H5 & H6 & H7 & H8).
  simpl in *. exists dc, a, f.
  do 4 (split; [assumption |]).
  repeat (split; [now apply bind_param_null |]).
  intros k. apply dict_get_null.
Qed.

Lemma stored_row_null_columns_witness :
  let env := sample_env (fun _ => Response 200
                                    (JsonBody (JObj [("rco2", JInt 400);
                                                     ("atmp", JNull)]))) in
  exists row,
    measurements (db_after (data_fetcher_tick env) db_one_device) = [row]
    /\ m_co2 row <> SqlNull /\ m_pm2 row = SqlNull /\ m_temperature row = SqlNull
    /\ m_device_id row = 1.
Proof.
  intros env.
  assert (Hl : load_configs (select_active_devices db_one_device)
               = Ok [mkConfig 1 "kitchen" "airgradient"
                       (JObj [("api_token", JStr "tok"); ("location_id", JStr "1234")])])
    by reflexivity.
  destruct (stored_row_null_columns env db_one_device _ Hl) as (new & Hm & _).
  eexists. split; [reflexivity |]. repeat split. discriminate.
Defined.

Section Validate.

Variable env : environment.

(** [validate_connection] answers whether the command goes on: it does when
    the fetch returned a reading, and otherwise only under [--force]. *)
Lemma validate_connection_result (tc : device_config) (force : bool) (s : state) :
  fst (validate_connection env tc force s) = Ok (fetch_succeeds env tc || force).
Proof.
  unfold validate_connection, fetch_succeeds, fetched_reading, bind, try_except, lift.
  unfold emit at 1. cbv beta iota.
  destruct (create_device_adapter tc) as [a | e]; cbv beta iota.
  - unfold ret at 1. cbv beta iota.
    match goal with |- context [fetch_data env a ?s0] =>
      pose proof (fetch_data_result env a s0) as Hr;
      destruct (fetch_data env a s0) as [res s1]
    end.
    simpl in Hr. subst res.
    destruct (round_trip (requests_get env a)) as [data | e]; cbv beta iota.
    + destruct (standardize a data) as [r | e]; cbv beta iota.
      * reflexivity.
      * destruct force; reflexivity.
    + destruct (is_RequestException e); destruct force; reflexivity.
  - destruct force; reflexivity.
Qed.

End Validate.

Section AddGate.

Variable env : environment.

(** The configuration that [add_device] builds from its options. *)
Lemma add_device_outcome (provider name : string) (token location : option string)
      (validate force : bool) (s : state) (P : database -> Prop) :
  P (db s) ->
  (forall t l,
      provider = "airgradient" ->
      token = Some t -> t <> "" -> location = Some l -> l <> "" ->
      (validate = true -> force = false ->
       fetch_succeeds env
         (mkConfig (or_zero (max_device_id (db s)) + 1) name provider
                   (JObj [("api_token", JStr t); ("location_id", JStr l)])) = true) ->
      sqlite_fault env (or_zero (max_device_id (db s)) + 1) = None ->
      P (mkDatabase
           (devices (db s)
            ++ [mkDevice (or_zero (max_device_id (db s)) + 1) name provider
                         (ConfigJson (JObj [("api_token", JStr t); ("location_id", JStr l)]))
                         true])
           (measurements (db s)) (measurements_seq (db s)))) ->
  P (db (snd (add_device env provider name token location validate force s))).
Proof.
  intros P0 P1. unfold add_device.
  destruct (String.eqb_spec provider "airgradient") as [Hp |]; [| exact P0].
  change (negb true) with false. cbv beta iota.
  destruct token as [t |]; [| exact P0].
  destruct location as [l |]; [| now rewrite orb_true_r].
  unfold not_given.
  destruct (String.eqb_spec t "") as [| Ht]; [exact P0 |].
  destruct (String.eqb_spec l "") as [| Hl]; [exact P0 |].
  change (false || false) with false. cbv beta iota.
  unfold bind at 1. unfold get_db at 1. cbv beta iota zeta.
  unfold bind at 1.
  set (cfg := JObj _).
  set (next := or_zero (max_device_id (db s)) + 1).
  set (v := if validate then _ else _).
  assert (Hv : db (snd (v s)) = db s).
  { unfold v. destruct validate; [apply validate_connection_db | reflexivity]. }
  assert (Hr : fst (v s)
               = Ok (if validate
                     then fetch_succeeds env (mkConfig next name provider cfg) || force
                     else true)).
  { unfold v. destruct validate; [apply validate_connection_result | reflexivity]. }
  clearbody v. destruct (v s) as [p s1]. simpl in Hv, Hr. subst p.
  destruct (if validate then _ else true) eqn:Eg; cbv beta iota;
    [| simpl; rewrite Hv; exact P0].
  unfold try_except, bind, insert_device.
  destruct (negb _); [simpl; rewrite Hv; exact P0 |].
  unfold bind, get_db. cbv beta iota.
  destruct (sqlite_fault env _) eqn:Ef; [simpl; rewrite Hv; exact P0 |].
  destruct (existsb _ _); [simpl; rewrite Hv; exact P0 |].
  simpl. rewrite Hv. apply (P1 t l); auto.
  intros -> ->. now rewrite orb_false_r in Eg.
Qed.

End AddGate.

(** X10.  [add_device] writes a row only for the provider airgradient, with
    a token and a location that are not empty, and, when [--validate] is
    given without [--force], only after a fetch with these options returned
    a reading.  The row it writes is active, and the poller can use it: its
    configuration loads and its adapter can be built. *)
Theorem add_device_writes_pollable_rows (env : environment) (provider name : string)
        (token location : option string) (validate force : bool) (d : database) :
  let d1 := db_after (add_device env provider name token location validate force) d in
  d1 = d
  \/ exists row t l dc,
      devices d1 = (devices d ++ [row])%list
      /\ measurements d1 = measurements d
      /\ provider = "airgradient"
      /\ token = Some t /\ t <> "" /\ location = Some l /\ l <> ""
      /\ d_name row = name /\ d_active row = true
      /\ load_configs [row] = Ok [dc]
      /\ cfg_id dc = d_id row
      /\ constructible dc = true
      /\ (validate = true -> force = false -> fetch_succeeds env dc = true).
Proof.
  intros d1. unfold d1, db_after, run.
  apply (add_device_outcome env provider name token location validate force
           (mkState d [])
           (fun d1 =>
              d1 = d
              \/ exists row t l dc,
                  devices d1 = (devices d ++ [row])%list
                  /\ measurements d1 = measurements d
                  /\ provider = "airgradient"
                  /\ token = Some t /\ t <> "" /\ location = Some l /\ l <> ""
                  /\ d_name row = name /\ d_active row = true
                  /\ load_configs [row] = Ok [dc]
                  /\ cfg_id dc = d_id row
                  /\ constructible dc = true
                  /\ (validate = true -> force = false ->
                      fetch_succeeds env dc = true))).
  - now left.
  - intros t l Hp Ht Ht' Hl Hl' Hv _. right. simpl.
    eexists _, t, l, _. split; [reflexivity |].
    repeat (split; [first [assumption | reflexivity] |]).
    split; [| exact Hv].
    unfold constructible, create_device_adapter. simpl. now rewrite Hp.
Qed.

Lemma add_device_writes_pollable_rows_witness :
  let refused := db_after (add_device (sample_env (fun _ => TimedOut)) "airgradient"
                                      "cellar" (Some "tok3") (Some "9") true false)
                          db_one_device in
  let forced := db_after (add_device (sample_env (fun _ => TimedOut)) "airgradient"
                                     "cellar" (Some "tok3") (Some "9") true true)
                         db_one_device in
  refused = db_one_device
  /\ List.length (devices forced) = 2%nat
  /\ (forced = db_one_device
      \/ exists row, devices forced = (devices db_one_device ++ [row])%list
                     /\ d_active row = true).
Proof.
  intros refused forced.
  split; [reflexivity |]. split; [reflexivity |].
  destruct (add_device_writes_pollable_rows (sample_env (fun _ => TimedOut))
              "airgradient" "cellar" (Some "tok3") (Some "9") true true db_one_device)
    as [H | (row & t & l & dc & H1 & _ & _ & _ & _ & _ & _ & _ & H2 & _)].
  - now left.
  - right. exists row. split; [exact H1 | exact H2].
Defined.

Section Devices.

Lemma get_devices_run_ok (d : database) : get_devices d (get_devices_run d).
Proof.
  unfold get_devices, get_devices_run. eexists. split; [| reflexivity].
  apply (sort_by_ordered (fun a b => String.leb (d_name a) (d_name b))).
  - intros a b. apply String.leb_total.
  - intros a b c. apply text_le_trans.
Qed.

End Devices.

(** X11.  [get_devices] has a result, and every result lists the active
    devices, each once, in non-decreasing order of name, as dicts with the
    keys id, name and provider; an inactive device is never listed.  The
    devices listed are those of the poller's list. *)
Theorem get_devices_lists_active_by_name (d : database) :
  (exists res, get_devices d res)
  /\ forall res,
      get_devices d res ->
      exists rows,
        res = map device_dict rows
        /\ Permutation (filter d_active (devices d)) rows
        /\ StronglySorted name_asc rows
        /\ (forall r, In r rows <-> In r (devices d) /\ d_active r = true)
        /\ (forall row, In row res -> keys row = ["id"; "name"; "provider"])
        /\ Permutation rows (select_active_devices d).
Proof.
  split; [eexists; apply get_devices_run_ok |].
  intros res (rows & [Hp Hs] & ->). exists rows.
  split; [reflexivity |]. split; [exact Hp |]. split; [exact Hs |].
  split; [| split].
  - intros r. rewrite <- filter_In. split; intros H.
    + now apply (Permutation_in _ (Permutation_sym Hp)).
    + now apply (Permutation_in _ Hp).
  - intros row Hrow. apply in_map_iff in Hrow as (r & <- & _). reflexivity.
  - eapply perm_trans; [apply Permutation_sym, Hp |].
    apply (proj1 (select_active_devices_spec d)).
Qed.

Lemma get_devices_lists_active_by_name_witness :
  let d := db_after (deactivate_device (sample_env (answers JNull)) 1 true "")
                    db_two_devices in
  get_devices_run d
  = [[("id", SqlInt 2); ("name", SqlText "attic"); ("provider", SqlText "airgradient")]]
  /\ get_devices_run db_two_devices
     = [[("id", SqlInt 2); ("name", SqlText "attic"); ("provider", SqlText "airgradient")];
        [("id", SqlInt 1); ("name", SqlText "kitchen"); ("provider", SqlText "airgradient")]]
  /\ exists rows, get_devices_run d = map device_dict rows
                  /\ forall r, In r rows -> d_active r = true.
Proof.
  intros d. split; [reflexivity |]. split; [reflexivity |].
  destruct (proj2 (get_devices_lists_active_by_name d) _ (get_devices_run_ok d))
    as (rows & E & _ & _ & H & _).
  exists rows. split; [exact E |]. intros r Hr. now apply H.
Defined.

Section DeviceLatest.

Lemma device_filter_zero (r : joined_row) : device_filter (Some 0) r = true.
Proof. reflexivity. Qed.

Lemma latest_rows_zero (d : database) : latest_rows d (Some 0) = latest_rows d None.
Proof. reflexivity. Qed.

Lemma history_rows_zero (d : database) (since : string) :
  history_rows d since (Some 0) = history_rows d since None.
Proof. reflexivity. Qed.

Lemma in_latest_rows (d : database) (device_id : option Z) (r : joined_row) :
  In r (latest_rows d device_id) <->
  In r (joined d)
  /\ match device_id with
     | Some i => i = 0 \/ m_device_id (fst r) = i
     | None => True
     end.
Proof. unfold latest_rows. now rewrite filter_In, device_filter_spec. Qed.

End DeviceLatest.

(** X12.  The latest query for a device id raises [OverflowError] when the
    id does not fit 64 bits.  For an id other than 0 that fits, it returns a
    measurement of that device, joined with its device row, whose timestamp
    no joined measurement of the device exceeds (nor equals with a greater
    row id), and returns nothing exactly when the device has no joined
    measurement.  With the device id 0 both queries answer as without a
    device id. *)
Theorem latest_of_one_device (d : database) (i : Z) :
  (exists res, get_latest_measurement d (Some i) res)
  /\ (fits_int64 i = false ->
      forall res, get_latest_measurement d (Some i) res -> res = Raise OverflowError)
  /\ (i <> 0 -> fits_int64 i = true ->
      forall res,
        get_latest_measurement d (Some i) res ->
        exists o,
          res = Ok o
          /\ match o with
             | None => forall r, In r (joined d) -> m_device_id (fst r) <> i
             | Some row =>
                 exists r,
                   row = latest_dict r /\ In r (joined d) /\ m_device_id (fst r) = i
                   /\ (forall r', In r' (joined d) -> m_device_id (fst r') = i ->
                                   text_le (row_timestamp r') (row_timestamp r))
                   /\ (forall r', In r' (joined d) -> m_device_id (fst r') = i ->
                                   row_timestamp r' = row_timestamp r ->
                                   m_id (fst r') <= m_id (fst r))
             end)
  /\ (forall res,
         get_latest_measurement d (Some 0) res <-> get_latest_measurement d None res)
  /\ (forall now hours res,
         get_historical_data d now hours (Some 0) res
         <-> get_historical_data d now hours None res).
Proof.
  split; [eexists; apply get_latest_measurement_run_ok |].
  split; [| split; [| split]].
  - intros F res H. unfold get_latest_measurement in H.
    change (bindable (Some i)) with (fits_int64 i) in H. now rewrite F in H.
  - intros Hi F res H. apply get_latest_measurement_spec in H.
    change (bindable (Some i)) with (fits_int64 i) in H. rewrite F in H.
    destruct res as [[row |] | e].
    + destruct H as (r & Hr & -> & Hmax & Htie). eexists. split; [reflexivity |].
      exists r.
      apply in_latest_rows in Hr as [Hr [Hz | Hd]]; [contradiction |].
      split; [reflexivity |]. split; [exact Hr |]. split; [exact Hd |]. split.
      * intros r' Hr' Hd'. apply Hmax. apply in_latest_rows. auto.
      * intros r' Hr' Hd'. apply Htie. apply in_latest_rows. auto.
    + destruct H as [_ H]. eexists. split; [reflexivity |].
      intros r Hr Hd.
      assert (Hin : In r (latest_rows d (Some i))) by (apply in_latest_rows; auto).
      now rewrite H in Hin.
    + destruct H as [H _]. discriminate.
  - intros res. unfold get_latest_measurement.
    change (bindable (Some 0)) with true. change (bindable None) with true.
    cbv iota. now rewrite latest_rows_zero.
  - intros now hours res. unfold get_historical_data.
    destruct (sub_hours now hours); [| tauto].
    change (bindable (Some 0)) with true. change (bindable None) with true.
    cbv iota. now rewrite history_rows_zero.
Qed.

Lemma latest_of_one_device_witness :
  (exists row, get_latest_measurement_run db_tie (Some 2) = Ok (Some row)
               /\ assoc "device_id" row = Some (SqlInt 2))
  /\ (forall res, get_latest_measurement db_tie (Some 3) res -> res = Ok None)
  /\ (forall res,
         get_latest_measurement db_tie (Some 9223372036854775808) res ->
         res = Raise OverflowError).
Proof.
  destruct (latest_of_one_device db_tie 3) as (_ & _ & H3 & _).
  destruct (latest_of_one_device db_tie 9223372036854775808) as (_ & Hbig & _).
  split; [| split].
  - eexists. split; reflexivity.
  - intros res H.
    apply (H3 ltac:(lia) eq_refl) in H. destruct H as ([row |] & -> & H); [| reflexivity].
    destruct H as (r & _ & Hr & Hd & _).
    destruct Hr as [<- | [<- | []]]; discriminate.
  - apply Hbig. reflexivity.
Defined.

Section TestDevice.

Variable env : environment.

(** What [test_device] returns and leaves behind. *)
Lemma test_device_spec (i : Z) (s : state) (P : result unit * state -> Prop) :
  (forall res t,
      store_calls t = [] ->
      fetch_calls t = [] \/ fetch_calls t = [i] ->
      (device_exists (db s) i = false -> fetch_calls t = []) ->
      res = test_device_result (db s) i ->
      P (res, mkState (db s) (trace s ++ t))) ->
  P (test_device env i s).
Proof.
  intros HP. unfold test_device_result in HP. unfold test_device.
  destruct (fits_int64 i) eqn:F; cbn [negb].
  2:{ unfold raise. destruct s as [d0 t0]. simpl in HP.
      rewrite <- (app_nil_r t0). apply HP; simpl; auto. }
  unfold bind, get_db. cbv beta iota.
  destruct (find _ (devices (db s))) as [dev |] eqn:Ef.
  - assert (Hex : device_exists (db s) i = true).
    { apply find_some in Ef as [Hin Hi]. unfold device_exists.
      apply existsb_exists. now exists dev. }
    unfold lift at 1.
    destruct (json_loads (d_config dev)) as [config | e] eqn:Ej.
    + unfold ret at 1. cbv beta iota. unfold emit at 1. cbv beta iota.
      unfold try_except, lift.
      destruct (create_device_adapter _) as [a | e] eqn:Ha.
      * unfold ret at 1. cbv beta iota.
        destruct (create_device_adapter_fields _ _ Ha) as [Hid _]. simpl in Hid.
        match goal with |- context [fetch_data env a ?s0] =>
          destruct (fetch_data_spec env a s0) as (t1 & Hs1 & [Hl1 Hl1'] & _);
          destruct (fetch_data env a s0) as [res s1]
        end.
        simpl in Hs1. subst s1. rewrite Hid.
        assert (Hf1 : fetch_calls t1 = []).
        { rewrite fetch_calls_filter, Hl1'. reflexivity. }
        assert (Hc1 : store_calls t1 = []).
        { rewrite store_calls_filter, Hl1. reflexivity. }
        destruct res as [[r |] | e]; unfold emit; simpl; rewrite <- !app_assoc; apply HP;
          try (now rewrite Ef, Ej);
          unfold store_calls, fetch_calls in *; simpl;
          rewrite ?flat_map_app, ?Hf1, ?Hc1; simpl; auto; congruence.
      * unfold raise, emit. simpl. rewrite <- !app_assoc.
        apply HP; try (now rewrite Ef, Ej); simpl; auto.
    + unfold raise. cbv beta. clear Hex. destruct s as [d0 t0]. simpl in HP, Ef.
      rewrite <- (app_nil_r t0). apply HP; try (now rewrite Ef, Ej); simpl; auto.
  - unfold emit. simpl. apply HP; try (now rewrite Ef); simpl; auto.
Qed.

End TestDevice.

(** X13.  [test_device] only reads: it leaves the database as it was and
    never calls [store_measurement]; it calls [fetch_data] at most once, for
    the given device, and not at all when the device is missing or inactive.
    Two statements before the [try] can raise: the [SELECT] raises
    [OverflowError] when the device id does not fit 64 bits, and
    [json.loads] raises when the stored configuration of the device is no
    JSON ([ValueError]) or is [NULL] ([TypeError]).  When neither does, the
    command returns normally whatever the adapter and the fetch do. *)
Theorem test_device_only_reads (env : environment) (i : Z) (d : database) :
  let t := trace_of (test_device env i) d in
  let res := fst (run (test_device env i) d) in
  db_after (test_device env i) d = d
  /\ store_calls t = []
  /\ (fetch_calls t = [] \/ fetch_calls t = [i])
  /\ (device_exists d i = false -> fetch_calls t = [])
  /\ (fits_int64 i = false -> res = Raise OverflowError)
  /\ (fits_int64 i = true ->
      match find (fun r => (d_id r =? i) && d_active r) (devices d) with
      | None => res = Ok tt
      | Some dev =>
          match d_config dev with
          | ConfigJson _ => res = Ok tt
          | ConfigNotJson => res = Raise (ValueError "JSONDecodeError")
          | ConfigNull => res = Raise TypeError
          end
      end).
Proof.
  intros t res. unfold res, t, trace_of, db_after, run.
  split; [| split; [| split; [| split; [| split]]]];
    try (apply (test_device_spec env i (mkState d [])); intros r t' H1 H2 H3 H4;
         simpl; auto).
  - intros F. simpl in H4. unfold test_device_result in H4. now rewrite F in H4.
  - intros F. simpl in H4. unfold test_device_result in H4. rewrite F in H4.
    destruct (find _ (devices d)) as [dev |]; [| exact H4].
    now destruct (d_config dev).
Qed.

Lemma test_device_only_reads_witness :
  let env := sample_env first_times_out in
  fetch_calls (trace_of (test_device env 2) db_two_devices) = [2]
  /\ db_after (test_device env 2) db_two_devices = db_two_devices
  /\ fetch_calls (trace_of (test_device env 1) db_inactive) = []
  /\ fst (run (test_device env 9223372036854775808) db_two_devices)
     = Raise OverflowError
  /\ fst (run (test_device env 1)
               (mkDatabase [mkDevice 1 "kitchen" "airgradient" ConfigNull true] [] 0))
     = Raise TypeError.
Proof.
  intros env.
  destruct (test_device_only_reads env 2 db_two_devices) as (H1 & _).
  destruct (test_device_only_reads env 1 db_inactive) as (_ & _ & _ & H2 & _).
  destruct (test_device_only_reads env 9223372036854775808 db_two_devices)
    as (_ & _ & _ & _ & H3 & _).
  split; [reflexivity |]. split; [exact H1 |]. split; [apply H2; reflexivity |].
  split; [apply H3; reflexivity | reflexivity].
Defined.

Section Digits.

Lemma digit_cases (k : Z) :
  0 <= k <= 9 ->
  k = 0 \/ k = 1 \/ k = 2 \/ k = 3 \/ k = 4 \/ k = 5 \/ k = 6 \/ k = 7 \/ k = 8 \/ k = 9.
Proof. lia. Qed.

Local Ltac by_digit k H :=
  destruct (digit_cases k H) as [-> | [-> | [-> | [-> | [-> | [-> | [-> | [-> | [-> | ->]]]]]]]]].

(** The digit characters are ordered as the digits. *)
Lemma digit_char_compare (a b : Z) :
  0 <= a <= 9 -> 0 <= b <= 9 ->
  Ascii.compare (digit_char a) (digit_char b) = (a ?= b).
Proof. intros Ha Hb. by_digit a Ha; by_digit b Hb; reflexivity. Qed.

Lemma digit_val_digit_char (k : Z) :
  0 <= k <= 9 -> digit_val (digit_char k) = Some k.
Proof. intros H. by_digit k H; reflexivity. Qed.

Lemma then_compare_lt (x y : Z) (k : comparison) :
  x < y -> then_compare (x ?= y) k = Lt.
Proof. intros H. apply Z.compare_lt_iff in H. now rewrite H. Qed.

Lemma then_compare_gt (x y : Z) (k : comparison) :
  y < x -> then_compare (x ?= y) k = Gt.
Proof. intros H. apply Z.compare_gt_iff in H. now rewrite H. Qed.

Lemma then_compare_eq (x : Z) (k : comparison) : then_compare (x ?= x) k = k.
Proof. now rewrite Z.compare_refl. Qed.

(** Two numbers below 100 written on two digits compare as the numbers;
    when they are equal, what follows decides. *)
Lemma compare_pad2 (x y : Z) (s t : string) :
  0 <= x < 100 -> 0 <= y < 100 ->
  String.compare (pad2 x ++ s) (pad2 y ++ t)
  = then_compare (x ?= y) (String.compare s t).
Proof.
  intros Hx Hy. unfold pad2. simpl.
  rewrite !digit_char_compare
    by (split; [apply Z.mod_pos_bound; lia | apply Z.lt_succ_r, Z.mod_pos_bound; lia]).
  assert (Ex : x = 10 * (x / 10 mod 10) + x mod 10).
  { rewrite (Z.mod_small (x / 10) 10); [apply Z.div_mod; lia |].
    split; [apply Z.div_pos; lia | apply Z.div_lt_upper_bound; lia]. }
  assert (Ey : y = 10 * (y / 10 mod 10) + y mod 10).
  { rewrite (Z.mod_small (y / 10) 10); [apply Z.div_mod; lia |].
    split; [apply Z.div_pos; lia | apply Z.div_lt_upper_bound; lia]. }
  pose proof (Z.mod_pos_bound x 10 ltac:(lia)) as Bx.
  pose proof (Z.mod_pos_bound y 10 ltac:(lia)) as By.
  destruct (Z.compare_spec (x / 10 mod 10) (y / 10 mod 10)) as [E | L | G].
  - destruct (Z.compare_spec (x mod 10) (y mod 10)) as [E' | L' | G'].
    + assert (x = y) by lia. subst y. now rewrite then_compare_eq.
    + symmetry. apply then_compare_lt. lia.
    + symmetry. apply then_compare_gt. lia.
  - symmetry. apply then_compare_lt. lia.
  - symmetry. apply then_compare_gt. lia.
Qed.

Lemma pad4_pad2 (n : Z) :
  0 <= n -> pad4 n = pad2 (n / 100) ++ pad2 (n mod 100).
Proof.
  intros Hn. unfold pad4, pad2. simpl.
  assert (E1 : n / 100 / 10 = n / 1000) by (Z.div_mod_to_equations; lia).
  assert (E2 : n mod 100 / 10 mod 10 = n / 10 mod 10)
    by (Z.div_mod_to_equations; lia).
  assert (E3 : n mod 100 mod 10 = n mod 10) by (Z.div_mod_to_equations; lia).
  now rewrite E1, E2, E3.
Qed.

Lemma append_assoc (a b c : string) : (a ++ b) ++ c = a ++ (b ++ c).
Proof. induction a as [| x a IH]; simpl; congruence. Qed.

Lemma append_nil_r (a : string) : a ++ "" = a.
Proof. induction a as [| x a IH]; simpl; congruence. Qed.

Lemma compare_pad4 (x y : Z) (s t : string) :
  0 <= x < 10000 -> 0 <= y < 10000 ->
  String.compare (pad4 x ++ s) (pad4 y ++ t)
  = then_compare (x ?= y) (String.compare s t).
Proof.
  intros Hx Hy. rewrite !pad4_pad2, !append_assoc by lia.
  pose proof (Z.div_mod x 100 ltac:(lia)) as Dx.
  pose proof (Z.mod_pos_bound x 100 ltac:(lia)) as Bx.
  pose proof (Z.div_mod y 100 ltac:(lia)) as Dy.
  pose proof (Z.mod_pos_bound y 100 ltac:(lia)) as By.
  rewrite !compare_pad2 by lia.
  destruct (Z.compare_spec (x / 100) (y / 100)) as [E | L | G]; simpl.
  - destruct (Z.compare_spec (x mod 100) (y mod 100)) as [E' | L' | G']; simpl.
    + assert (x = y) by lia. subst y. now rewrite then_compare_eq.
    + symmetry. apply then_compare_lt. lia.
    + symmetry. apply then_compare_gt. lia.
  - symmetry. apply then_compare_lt. lia.
  - symmetry. apply then_compare_gt. lia.
Qed.

End Digits.

Section TextAndTime.

Lemma valid_bounds (t : datetime) :
  valid t = true ->
  1 <= year t <= 9999 /\ 1 <= month t <= 12
  /\ 1 <= day t <= days_in_month (year t) (month t)
  /\ 0 <= hour t <= 23 /\ 0 <= minute t <= 59 /\ 0 <= second t <= 59
  /\ 0 <= microsecond t <= 999999.
Proof.
  unfold valid, valid_fields. rewrite !andb_true_iff, !Z.leb_le. tauto.
Qed.

Lemma days_in_month_bound (y m : Z) : 28 <= days_in_month y m <= 31.
Proof.
  unfold days_in_month.
  destruct (m =? 2); [destruct (is_leap y); lia |].
  destruct ((m =? 4) || (m =? 6) || (m =? 9) || (m =? 11)); lia.
Qed.

Lemma compare_sep (c : ascii) (s t : string) :
  String.compare (String c s) (String c t) = String.compare s t.
Proof.
  simpl. unfold Ascii.compare. now rewrite N.compare_refl.
Qed.

(** From the year 1000 on, [strftime] writes what [isoformat] writes. *)
Lemma strftime_four_digits (t : datetime) :
  1000 <= year t -> strftime_ymd_hms t = isoformat_seconds t.
Proof.
  intros H. unfold strftime_ymd_hms, isoformat_seconds, strftime_Y.
  destruct (Z.ltb_spec (year t) 10); [lia |].
  destruct (Z.ltb_spec (year t) 100); [lia |].
  destruct (Z.ltb_spec (year t) 1000); [lia | reflexivity].
Qed.

(** The text has 19 characters from the year 1000 on, and fewer before. *)
Lemma strftime_length (t : datetime) :
  (1000 <= year t -> String.length (strftime_ymd_hms t) = 19%nat)
  /\ (year t < 1000 -> (String.length (strftime_ymd_hms t) < 19)%nat).
Proof.
  split.
  - intros H. now rewrite (strftime_four_digits t H).
  - intros H. unfold strftime_ymd_hms, strftime_Y.
    destruct (Z.ltb_spec (year t) 10); [simpl; lia |].
    destruct (Z.ltb_spec (year t) 100); [simpl; lia |].
    destruct (Z.ltb_spec (year t) 1000); [simpl; lia | lia].
Qed.

(** The four-digit texts of two valid values compare as their fields do,
    from the year to the second; when these are equal, what follows
    decides. *)
Lemma isoformat_compare (a b : datetime) (s t : string) :
  valid a = true -> valid b = true ->
  String.compare (isoformat_seconds a ++ s) (isoformat_seconds b ++ t)
  = then_compare (fields_compare a b) (String.compare s t).
Proof.
  intros Ha Hb.
  destruct (valid_bounds a Ha) as (Ay & Am & Ad & Ahh & Amm & Ass & _).
  destruct (valid_bounds b Hb) as (By & Bm & Bd & Bhh & Bmm & Bss & _).
  pose proof (days_in_month_bound (year a) (month a)).
  pose proof (days_in_month_bound (year b) (month b)).
  unfold isoformat_seconds, month_to_second, fields_compare.
  rewrite !append_assoc.
  rewrite compare_pad4 by lia. change ("-" ++ ?x) with (String "-" x).
  cbn [append]. rewrite compare_sep.
  rewrite compare_pad2 by lia. cbn [append]. rewrite compare_sep.
  rewrite compare_pad2 by lia. cbn [append]. rewrite compare_sep.
  rewrite compare_pad2 by lia. cbn [append]. rewrite compare_sep.
  rewrite compare_pad2 by lia. cbn [append]. rewrite compare_sep.
  rewrite compare_pad2 by lia.
  destruct (year a ?= year b); try reflexivity.
  destruct (month a ?= month b); try reflexivity.
  destruct (day a ?= day b); try reflexivity.
  destruct (hour a ?= hour b); try reflexivity.
  destruct (minute a ?= minute b); reflexivity.
Qed.

End TextAndTime.

Section Calendar.

Lemma month_cases (m : Z) :
  1 <= m <= 12 ->
  m = 1 \/ m = 2 \/ m = 3 \/ m = 4 \/ m = 5 \/ m = 6 \/ m = 7 \/ m = 8 \/ m = 9
  \/ m = 10 \/ m = 11 \/ m = 12.
Proof. lia. Qed.

Local Ltac by_month m H :=
  destruct (month_cases m H)
    as [-> | [-> | [-> | [-> | [-> | [-> | [-> | [-> | [-> | [-> | [-> | ->]]]]]]]]]]].

Lemma is_leap_spec (y : Z) :
  is_leap y = true <-> y mod 4 = 0 /\ (y mod 100 <> 0 \/ y mod 400 = 0).
Proof.
  unfold is_leap.
  rewrite andb_true_iff, orb_true_iff, negb_true_iff, !Z.eqb_eq, Z.eqb_neq. tauto.
Qed.

Lemma days_before_year_succ (y : Z) :
  days_before_year (y + 1)
  = days_before_year y + 365 + (if is_leap y then 1 else 0).
Proof.
  unfold days_before_year. cbv zeta. replace (y + 1 - 1) with y by lia.
  destruct (is_leap y) eqn:E.
  - apply is_leap_spec in E. Z.div_mod_to_equations. lia.
  - assert (H : ~ (y mod 4 = 0 /\ (y mod 100 <> 0 \/ y mod 400 = 0))).
    { intros H. apply is_leap_spec in H. congruence. }
    Z.div_mod_to_equations. lia.
Qed.

Lemma days_before_year_mono (y y' : Z) :
  y <= y' -> days_before_year y <= days_before_year y'.
Proof.
  intros H. unfold days_before_year. cbv zeta. Z.div_mod_to_equations. lia.
Qed.

(** The day of the year of a valid date. *)
Lemma day_of_year_bound (y m d : Z) :
  1 <= m <= 12 -> 1 <= d <= days_in_month y m ->
  1 <= days_before_month y m + d <= 365 + (if is_leap y then 1 else 0).
Proof.
  intros Hm Hd. unfold days_before_month, days_in_month in *.
  destruct (is_leap y); by_month m Hm; cbn -[Z.add] in *; lia.
Qed.

Lemma day_of_year_mono (y m d m' d' : Z) :
  1 <= m <= 12 -> 1 <= m' <= 12 ->
  1 <= d <= days_in_month y m -> 1 <= d' ->
  m < m' ->
  days_before_month y m + d < days_before_month y m' + d'.
Proof.
  intros Hm Hm' Hd Hd' Hlt. unfold days_before_month, days_in_month in *.
  destruct (is_leap y); by_month m Hm; cbn -[Z.add] in Hd; by_month m' Hm';
    cbn -[Z.add]; lia.
Qed.

(** The ordinal of a valid date grows with the date. *)
Lemma ymd2ord_lt (y m d y' m' d' : Z) :
  1 <= m <= 12 -> 1 <= m' <= 12 ->
  1 <= d <= days_in_month y m -> 1 <= d' <= days_in_month y' m' ->
  y < y' \/ (y = y' /\ (m < m' \/ (m = m' /\ d < d'))) ->
  ymd2ord y m d < ymd2ord y' m' d'.
Proof.
  intros Hm Hm' Hd Hd' H. unfold ymd2ord.
  destruct H as [Hy | [<- [Hlt | [<- Hlt]]]].
  - pose proof (day_of_year_bound y m d Hm Hd) as B.
    pose proof (day_of_year_bound y' m' d' Hm' Hd') as B'.
    pose proof (days_before_year_succ y) as S.
    pose proof (days_before_year_mono (y + 1) y' ltac:(lia)). lia.
  - pose proof (day_of_year_mono y m d m' d' Hm Hm' Hd ltac:(lia) Hlt). lia.
  - lia.
Qed.

Lemma ymd2ord_bounds (y m d : Z) :
  1 <= y <= 9999 -> 1 <= m <= 12 -> 1 <= d <= days_in_month y m ->
  1 <= ymd2ord y m d <= MAXORDINAL
  /\ (2 <= y -> 366 <= ymd2ord y m d).
Proof.
  intros Hy Hm Hd. unfold ymd2ord.
  pose proof (day_of_year_bound y m d Hm Hd) as B.
  pose proof (days_before_year_succ y) as S.
  pose proof (days_before_year_mono 1 y ltac:(lia)) as L1.
  pose proof (days_before_year_mono (y + 1) 10000 ltac:(lia)) as L2.
  change (days_before_year 1) with 0 in L1.
  change (days_before_year 10000) with 3652059 in L2.
  unfold MAXORDINAL. split; [lia |].
  intros H2. pose proof (days_before_year_mono 2 y H2) as L3.
  change (days_before_year 2) with 365 in L3. lia.
Qed.

(** The count of seconds of a valid value is ordered as its fields are. *)
Lemma wall_seconds_compare (a b : datetime) :
  valid a = true -> valid b = true ->
  (wall_seconds a ?= wall_seconds b) = fields_compare a b.
Proof.
  intros Ha Hb.
  destruct (valid_bounds a Ha) as (Ay & Am & Ad & Ahh & Amm & Ass & _).
  destruct (valid_bounds b Hb) as (By & Bm & Bd & Bhh & Bmm & Bss & _).
  unfold wall_seconds, fields_compare.
  pose proof (ymd2ord_lt (year a) (month a) (day a) (year b) (month b) (day b)
                         Am Bm Ad Bd) as Lab.
  pose proof (ymd2ord_lt (year b) (month b) (day b) (year a) (month a) (day a)
                         Bm Am Bd Ad) as Lba.
  destruct (Z.compare_spec (year a) (year b)) as [Ey | Ly | Gy]; simpl;
    [| apply Z.compare_lt_iff; specialize (Lab ltac:(lia)); lia
     | apply Z.compare_gt_iff; specialize (Lba ltac:(lia)); lia].
  destruct (Z.compare_spec (month a) (month b)) as [Em | Lm | Gm]; simpl;
    [| apply Z.compare_lt_iff; specialize (Lab ltac:(lia)); lia
     | apply Z.compare_gt_iff; specialize (Lba ltac:(lia)); lia].
  destruct (Z.compare_spec (day a) (day b)) as [Ed | Ld | Gd]; simpl;
    [| apply Z.compare_lt_iff; specialize (Lab ltac:(lia)); lia
     | apply Z.compare_gt_iff; specialize (Lba ltac:(lia)); lia].
  rewrite Ey, Em, Ed.
  destruct (Z.compare_spec (hour a) (hour b)) as [Eh | Lh | Gh]; simpl;
    [| apply Z.compare_lt_iff; lia | apply Z.compare_gt_iff; lia].
  destruct (Z.compare_spec (minute a) (minute b)) as [Emi | Lmi | Gmi]; simpl;
    [| apply Z.compare_lt_iff; lia | apply Z.compare_gt_iff; lia].
  rewrite Eh, Emi.
  destruct (Z.compare_spec (second a) (second b)) as [Es | Ls | Gs];
    [apply Z.compare_eq_iff | apply Z.compare_lt_iff | apply Z.compare_gt_iff]; lia.
Qed.

End Calendar.

Section Cutoff.

Lemma isoformat_space_suffix (t : datetime) :
  exists sfx,
    isoformat_space t = isoformat_seconds t ++ sfx
    /\ (String.compare sfx "" = Eq \/ String.compare sfx "" = Gt).
Proof.
  unfold isoformat_space. destruct (microsecond t =? 0).
  - exists "". split; [reflexivity | now left].
  - eexists. split; [reflexivity | now right].
Qed.

Lemma text_lt_cutoff (a b : datetime) :
  valid a = true -> valid b = true -> 1000 <= year b ->
  text_lt (isoformat_space a) (strftime_ymd_hms b) <-> fields_compare a b = Lt.
Proof.
  intros Ha Hb Yb. destruct (isoformat_space_suffix a) as (sfx & -> & Hs).
  unfold text_lt, String.ltb. rewrite (strftime_four_digits b Yb).
  rewrite <- (append_nil_r (isoformat_seconds b)), (isoformat_compare a b sfx "" Ha Hb).
  destruct (fields_compare a b); simpl.
  - destruct Hs as [-> | ->]; split; discriminate.
  - tauto.
  - split; discriminate.
Qed.

Lemma text_le_stored (a b : datetime) :
  valid a = true -> valid b = true -> 1000 <= year a -> 1000 <= year b ->
  text_le (strftime_ymd_hms a) (strftime_ymd_hms b) <-> fields_compare a b <> Gt.
Proof.
  intros Ha Hb Ya Yb. unfold text_le, String.leb.
  rewrite (strftime_four_digits a Ya), (strftime_four_digits b Yb).
  rewrite <- (append_nil_r (isoformat_seconds a)), <- (append_nil_r (isoformat_seconds b)).
  rewrite (isoformat_compare a b "" "" Ha Hb).
  destruct (fields_compare a b); simpl; split; congruence.
Qed.

End Cutoff.

(** X14.  For valid values of the year 1000 and later, the order of the
    stored texts is the order of time: the text written for [b] by
    [store_measurement] is greater than the text bound for the cutoff [a] by
    [get_historical_data] exactly when [b], taken at its whole second, is
    later than [a], microseconds included; and the texts written for two
    values are in non-decreasing order exactly when their seconds are.
    (Below the year 1000 [strftime] writes the year on fewer digits, and the
    texts no longer compare as the times do.) *)
Theorem text_order_is_time_order (a b : datetime) :
  valid a = true -> valid b = true -> 1000 <= year b ->
  (text_lt (isoformat_space a) (strftime_ymd_hms b)
   <-> wall_usec a < wall_seconds b * usec_per_second)
  /\ (text_lt (isoformat_space a) (strftime_ymd_hms b)
      <-> wall_seconds a < wall_seconds b)
  /\ (1000 <= year a ->
      (text_le (strftime_ymd_hms a) (strftime_ymd_hms b)
       <-> wall_seconds a <= wall_seconds b)).
Proof.
  intros Ha Hb Yb.
  pose proof (wall_seconds_compare a b Ha Hb) as Hc.
  destruct (valid_bounds a Ha) as (_ & _ & _ & _ & _ & _ & Hus).
  assert (H2 : text_lt (isoformat_space a) (strftime_ymd_hms b)
               <-> wall_seconds a < wall_seconds b).
  { rewrite (text_lt_cutoff a b Ha Hb Yb), <- Hc. apply Z.compare_lt_iff. }
  split; [| split; [exact H2 |]].
  - rewrite H2. unfold wall_usec, usec_per_second. fold (wall_seconds a). lia.
  - intros Ya. rewrite (text_le_stored a b Ha Hb Ya Yb), <- Hc. apply Z.compare_le_iff.
Qed.

Lemma text_order_is_time_order_witness :
  let cutoff := mkDatetime 2024 2 29 23 59 59 250000 None in
  let same_second := mkDatetime 2024 2 29 23 59 59 0 None in
  let next_day := mkDatetime 2024 3 1 0 0 0 0 None in
  isoformat_space cutoff = "2024-02-29 23:59:59.250000"
  /\ text_lt (isoformat_space cutoff) (strftime_ymd_hms next_day)
  /\ wall_usec cutoff < wall_seconds next_day * usec_per_second
  /\ ~ text_lt (isoformat_space cutoff) (strftime_ymd_hms same_second)
  /\ strftime_ymd_hms (mkDatetime 999 12 31 23 59 59 0 None) = "999-12-31 23:59:59"
  /\ text_lt (strftime_ymd_hms (mkDatetime 1000 1 1 0 0 0 0 None))
             (strftime_ymd_hms (mkDatetime 999 12 31 23 59 59 0 None)).
Proof.
  intros cutoff same_second next_day.
  destruct (text_order_is_time_order cutoff next_day eq_refl eq_refl ltac:(simpl; lia))
    as (H1 & _).
  destruct (text_order_is_time_order cutoff same_second eq_refl eq_refl
              ltac:(simpl; lia)) as (H2 & _).
  split; [reflexivity |]. split; [reflexivity |].
  split; [apply H1; reflexivity |].
  split; [| split; reflexivity].
  intros H. apply H2 in H. vm_compute in H. discriminate.
Defined.

Section ValidRequests.

(** For a valid clock in year 2 or later, going back up to a week stays in
    the range of [datetime]. *)
Lemma sub_hours_defined (now : datetime) (hours : Z) :
  valid now = true -> 2 <= year now -> 1 <= hours <= 168 ->
  exists since, sub_hours now hours = Some since.
Proof.
  intros Hv Hy Hh.
  destruct (valid_bounds now Hv) as (By & Bm & Bd & Bhh & Bmm & Bss & _).
  destruct (ymd2ord_bounds (year now) (month now) (day now) By Bm Bd) as [Bo Bo2].
  specialize (Bo2 Hy). unfold MAXORDINAL in Bo.
  unfold sub_hours. cbv zeta.
  set (secs := ymd2ord (year now) (month now) (day now) * 86400 + hour now * 3600
               + minute now * 60 + second now - hours * 3600).
  assert (Hd : 0 < secs / 86400 <= MAXORDINAL).
  { unfold MAXORDINAL, secs. Z.div_mod_to_equations. lia. }
  destruct Hd as [Hd1 Hd2].
  apply Z.ltb_lt in Hd1. apply Z.leb_le in Hd2. rewrite Hd1, Hd2. cbn [andb].
  destruct (ord2ymd (secs / 86400)) as [[y m] d]. eauto.
Qed.

End ValidRequests.

(** X15.  A request for a history that passes the checks of the facade,
    served when the clock shows a valid time in year 2 or later, is answered
    with status 200 and a list that is a result of the window query: the
    store does not raise.  A request for the current measurement that
    passes the checks is answered with status 200 and a latest row, or with
    status 404 when the query returns none. *)
Theorem facade_answers_checked_requests (d : database) (now : datetime)
        (hours : Z) (device_id : option Z) :
  check_device_id d device_id = Ok None ->
  (valid now = true -> 2 <= year now -> 1 <= hours <= 168 ->
   (exists r, serve d now (api_history d hours device_id) r)
   /\ forall r,
       serve d now (api_history d hours device_id) r ->
       exists rows,
         r = (ListBody rows, 200)
         /\ get_historical_data d now hours device_id (Ok rows))
  /\ (exists r, serve d now (api_current d device_id) r)
  /\ (forall r,
         serve d now (api_current d device_id) r ->
         (exists row, r = (DictBody row, 200)
                      /\ get_latest_measurement d device_id (Ok (Some row)))
         \/ (r = (ErrorBody "No data available", 404)
             /\ get_latest_measurement d device_id (Ok None))).
Proof.
  intros Hc. destruct (check_device_id_passes d device_id Hc) as [Hb _].
  split; [| split].
  - intros Hv Hy Hh.
    destruct (sub_hours_defined now hours Hv Hy Hh) as (since & Hs).
    destruct (api_history_passes d hours device_id Hh Hc) as (k & -> & Hk).
    simpl. split.
    + eexists. exists (get_historical_data_run d now hours device_id).
      split; [apply get_historical_data_run_ok | reflexivity].
    + intros r (res & Hres & ->).
      destruct (get_historical_data_Ok d now since hours device_id res Hs Hb Hres)
        as (rows & Ho & E).
      subst res. eexists. split; [apply Hk | exact Hres].
  - unfold api_current. rewrite Hc. simpl.
    eexists. exists (get_latest_measurement_run d device_id).
    split; [apply get_latest_measurement_run_ok | reflexivity].
  - unfold api_current. rewrite Hc. simpl.
    intros r (res & Hres & ->).
    destruct res as [[row |] | e]; [left; eauto | right; eauto |].
    apply get_latest_measurement_spec in Hres as [F _]. congruence.
Qed.

Lemma facade_answers_checked_requests_witness :
  check_device_id db_inactive None = Ok None
  /\ (exists r, serve db_inactive noon (api_history db_inactive 24 None) r)
  /\ forall r, serve db_inactive noon (api_history db_inactive 24 None) r ->
               exists rows, r = (ListBody rows, 200).
Proof.
  destruct (facade_answers_checked_requests db_inactive noon 24 None eq_refl)
    as (H & _).
  destruct (H eq_refl ltac:(simpl; lia) ltac:(lia)) as (H1 & H2).
  split; [reflexivity |]. split; [exact H1 |].
  intros r Hr. destruct (H2 r Hr) as (rows & E & _). eauto.
Defined.

Section Debug.

Lemma debug_timestamps_run_ok (d : database) (now : datetime) :
  debug_timestamps d now (debug_timestamps_run d now).
Proof.
  unfold debug_timestamps, debug_timestamps_run. eexists. split; [| reflexivity].
  apply sort_later_first.
Qed.

Lemma sorted_app_inv {A} (R : A -> A -> Prop) (l1 l2 : list A) :
  StronglySorted R (l1 ++ l2) ->
  StronglySorted R l1 /\ forall x y, In x l1 -> In y l2 -> R x y.
Proof.
  induction l1 as [| a l1 IH]; simpl; intros H.
  - split; [constructor | intros x y []].
  - apply StronglySorted_inv in H as [Hs Hall]. destruct (IH Hs) as [H1 H2].
    rewrite Forall_forall in Hall. split.
    + constructor; [exact H1 |]. apply Forall_forall. intros x Hx.
      apply Hall. apply in_or_app. now left.
    + intros x y [<- | Hx] Hy; [| now apply H2].
      apply Hall. apply in_or_app. now right.
Qed.

End Debug.

(** X16.  [debug_timestamps] has a result, and every result holds the text
    of the clock and at most five records, as many as there are joined
    measurements below five, in non-increasing order of timestamp; they are
    joined measurements that no joined measurement left out is later than;
    and the first of them carries the timestamp of every row that the latest
    query returns. *)
Theorem debug_timestamps_lists_latest_five (d : database) (now : datetime) :
  (exists res, debug_timestamps d now res)
  /\ forall res,
      debug_timestamps d now res ->
      fst res = strftime_ymd_hms now
      /\ exists rows,
          snd res = map debug_record rows
          /\ List.length rows = Nat.min 5 (List.length (joined d))
          /\ StronglySorted timestamp_desc rows
          /\ (forall r, In r rows -> In r (joined d))
          /\ (forall r r', In r rows -> In r' (joined d) ->
                In r' rows \/ text_le (row_timestamp r') (row_timestamp r))
          /\ (forall row,
                 get_latest_measurement d None (Ok (Some row)) ->
                 exists r, hd_error rows = Some r
                           /\ assoc "timestamp" row
                              = assoc "timestamp" (debug_record r)).
Proof.
  split; [eexists; apply debug_timestamps_run_ok |].
  intros res (out & [Hp Hs] & ->). split; [reflexivity |].
  exists (firstn 5 out). split; [reflexivity |].
  assert (Hsplit : out = (firstn 5 out ++ skipn 5 out)%list)
    by (symmetry; apply firstn_skipn).
  assert (Hs' : StronglySorted timestamp_desc (firstn 5 out ++ skipn 5 out))
    by (now rewrite <- Hsplit).
  destruct (sorted_app_inv _ _ _ Hs') as [Hfirst Hcross].
  split; [rewrite length_firstn; now rewrite (Permutation_length Hp) |].
  split; [exact Hfirst |]. split; [| split].
  - intros r Hr. apply (Permutation_in _ (Permutation_sym Hp)).
    rewrite Hsplit. apply in_or_app. now left.
  - intros r r' Hr Hr'. apply (Permutation_in _ Hp) in Hr'.
    rewrite Hsplit in Hr'. apply in_app_or in Hr' as [H | H]; [now left |].
    right. apply timestamp_desc_le. now apply (Hcross r r').
  - intros row H.
    apply get_latest_measurement_spec in H as (r0 & Hr0 & -> & Hmax & _).
    rewrite latest_rows_None in Hr0, Hmax.
    destruct out as [| r out'].
    + apply Permutation_sym, Permutation_nil in Hp. rewrite Hp in Hr0. destruct Hr0.
    + exists r. split; [reflexivity |]. simpl. do 2 f_equal.
      destruct (ordered_by_head timestamp_desc (joined d) r out') as [Hin Hhead].
      * intros x. apply timestamp_desc_refl.
      * now split.
      * apply String.leb_antisym;
          [apply timestamp_desc_le, (Hhead r0 Hr0) | apply (Hmax r Hin)].
Qed.

Lemma debug_timestamps_lists_latest_five_witness :
  snd (debug_timestamps_run db_tie noon)
  = [[("timestamp", SqlText "2024-01-01 11:30:00"); ("pm2", SqlInt 5);
      ("co2", SqlInt 420); ("device_name", SqlText "attic")];
     [("timestamp", SqlText "2024-01-01 11:30:00"); ("pm2", SqlInt 5);
      ("co2", SqlInt 420); ("device_name", SqlText "kitchen")]]
  /\ exists rows, snd (debug_timestamps_run db_tie noon) = map debug_record rows
                  /\ List.length rows = 2%nat.
Proof.
  split; [reflexivity |].
  destruct (proj2 (debug_timestamps_lists_latest_five db_tie noon) _
                  (debug_timestamps_run_ok db_tie noon))
    as (_ & rows & E & Hl & _).
  exists rows. split; [exact E | exact Hl].
Defined.

Section ParseDigits.

(** A character that stands for a digit is none of ['+'], ['-'], ['Z']. *)
Lemma digit_not_sign (c : ascii) (v : Z) :
  digit_val c = Some v ->
  Ascii.eqb c "+" = false /\ Ascii.eqb c "-" = false /\ Ascii.eqb c "Z" = false.
Proof.
  intros H. destruct c as [[] [] [] [] [] [] [] []];
    vm_compute in H; try discriminate; repeat split; reflexivity.
Qed.

Lemma digit_char_val (n : Z) : digit_val (digit_char (n mod 10)) = Some (n mod 10).
Proof.
  apply digit_val_digit_char.
  pose proof (Z.mod_pos_bound n 10 ltac:(lia)). lia.
Qed.

Variables h1 h2 n1 n2 s1 s2 : ascii.
Variables vh1 vh2 vn1 vn2 vs1 vs2 : Z.
Hypothesis Hh1 : digit_val h1 = Some vh1.
Hypothesis Hh2 : digit_val h2 = Some vh2.
Hypothesis Hn1 : digit_val n1 = Some vn1.
Hypothesis Hn2 : digit_val n2 = Some vn2.
Hypothesis Hs1 : digit_val s1 = Some vs1.
Hypothesis Hs2 : digit_val s2 = Some vs2.

(** [HH:MM:SS] *)
Lemma parse_hh_mm_ss (r : list ascii) :
  parse_hh_mm_ss_ff (h1 :: h2 :: ":"%char :: n1 :: n2 :: ":"%char :: s1 :: s2 :: r)
  = do us <- parse_fraction r;
    Some (10 * vh1 + vh2, 10 * vn1 + vn2, 10 * vs1 + vs2, us).
Proof.
  unfold parse_hh_mm_ss_ff, two_digits.
  rewrite Hh1, Hh2. cbn [obind]. rewrite Hn1, Hn2. cbn [obind].
  rewrite Hs1, Hs2. cbn [obind]. reflexivity.
Qed.

(** [HH:MM] *)
Lemma parse_hh_mm :
  parse_hh_mm_ss_ff [h1; h2; ":"%char; n1; n2]
  = Some (10 * vh1 + vh2, 10 * vn1 + vn2, 0, 0).
Proof.
  unfold parse_hh_mm_ss_ff, two_digits.
  rewrite Hh1, Hh2. cbn [obind]. rewrite Hn1, Hn2. cbn [obind]. reflexivity.
Qed.

(** The time part has no sign: the split is made in what follows it. *)
Lemma split_tz_time (r : list ascii) :
  split_tz (h1 :: h2 :: ":"%char :: n1 :: n2 :: ":"%char :: s1 :: s2 :: r)
  = (h1 :: h2 :: ":"%char :: n1 :: n2 :: ":"%char :: s1 :: s2 :: fst (split_tz r),
     snd (split_tz r)).
Proof.
  destruct (digit_not_sign _ _ Hh1) as (A1 & B1 & _).
  destruct (digit_not_sign _ _ Hh2) as (A2 & B2 & _).
  destruct (digit_not_sign _ _ Hn1) as (A3 & B3 & _).
  destruct (digit_not_sign _ _ Hn2) as (A4 & B4 & _).
  destruct (digit_not_sign _ _ Hs1) as (A5 & B5 & _).
  destruct (digit_not_sign _ _ Hs2) as (A6 & B6 & _).
  cbn [split_tz]. rewrite A1, B1, A2, B2.
  change (Ascii.eqb ":" "+") with false. change (Ascii.eqb ":" "-") with false.
  cbv iota. rewrite A3, B3, A4, B4, A5, B5, A6, B6.
  now destruct (split_tz r).
Qed.

End ParseDigits.

Section ParseText.

Variables y1 y2 y3 y4 m1 m2 d1 d2 h1 h2 n1 n2 s1 s2 : ascii.
Variables vy1 vy2 vy3 vy4 vm1 vm2 vd1 vd2 vh1 vh2 vn1 vn2 vs1 vs2 : Z.
Hypothesis Hy1 : digit_val y1 = Some vy1.
Hypothesis Hy2 : digit_val y2 = Some vy2.
Hypothesis Hy3 : digit_val y3 = Some vy3.
Hypothesis Hy4 : digit_val y4 = Some vy4.
Hypothesis Hm1 : digit_val m1 = Some vm1.
Hypothesis Hm2 : digit_val m2 = Some vm2.
Hypothesis Hd1 : digit_val d1 = Some vd1.
Hypothesis Hd2 : digit_val d2 = Some vd2.
Hypothesis Hh1 : digit_val h1 = Some vh1.
Hypothesis Hh2 : digit_val h2 = Some vh2.
Hypothesis Hn1 : digit_val n1 = Some vn1.
Hypothesis Hn2 : digit_val n2 = Some vn2.
Hypothesis Hs1 : digit_val s1 = Some vs1.
Hypothesis Hs2 : digit_val s2 = Some vs2.

Lemma parse_date_text :
  parse_isoformat_date [y1; y2; y3; y4; "-"%char; m1; m2; "-"%char; d1; d2]
  = Some (10 * (10 * (10 * (10 * 0 + vy1) + vy2) + vy3) + vy4,
          10 * (10 * 0 + vm1) + vm2, 10 * (10 * 0 + vd1) + vd2).
Proof.
  unfold parse_isoformat_date.
  cbn [List.length Nat.eqb slice Nat.sub skipn firstn parse_int int_of_digits nth_error].
  rewrite Hy1. cbn [obind int_of_digits]. rewrite Hy2. cbn [obind int_of_digits].
  rewrite Hy3. cbn [obind int_of_digits]. rewrite Hy4. cbn [obind int_of_digits].
  rewrite Hm1. cbn [obind int_of_digits]. rewrite Hm2. cbn [obind int_of_digits].
  rewrite Hd1. cbn [obind int_of_digits]. rewrite Hd2. cbn [obind int_of_digits].
  reflexivity.
Qed.

(** The text [YYYY-MM-DDTHH:MM:SS] followed by [sfx], read by
    [fromisoformat]. *)
Lemma fromisoformat_text (sfx : string) :
  fromisoformat
    (String y1 (String y2 (String y3 (String y4 (String "-"
    (String m1 (String m2 (String "-" (String d1 (String d2 (String "T"
    (String h1 (String h2 (String ":" (String n1 (String n2 (String ":"
    (String s1 (String s2 sfx)))))))))))))))))))
  = do (hh, mm, ss, us, tz) <-
       parse_isoformat_time
         (h1 :: h2 :: ":"%char :: n1 :: n2 :: ":"%char :: s1 :: s2
             :: list_ascii_of_string sfx);
    if valid_fields (10 * (10 * (10 * (10 * 0 + vy1) + vy2) + vy3) + vy4)
                    (10 * (10 * 0 + vm1) + vm2) (10 * (10 * 0 + vd1) + vd2)
                    hh mm ss us
    then Some (mkDatetime (10 * (10 * (10 * (10 * 0 + vy1) + vy2) + vy3) + vy4)
                          (10 * (10 * 0 + vm1) + vm2) (10 * (10 * 0 + vd1) + vd2)
                          hh mm ss us tz)
    else None.
Proof.
  unfold fromisoformat. cbn [list_ascii_of_string].
  cbn [slice Nat.sub skipn firstn]. rewrite parse_date_text. reflexivity.
Qed.

End ParseText.

Section ProviderText.

Lemma recompose2 (n : Z) :
  0 <= n < 100 -> 10 * (n / 10 mod 10) + n mod 10 = n.
Proof. intros H. Z.div_mod_to_equations. lia. Qed.

Lemma recompose4 (n : Z) :
  0 <= n < 10000 ->
  10 * (10 * (10 * (10 * 0 + n / 1000 mod 10) + n / 100 mod 10) + n / 10 mod 10)
  + n mod 10 = n.
Proof. intros H. Z.div_mod_to_equations. lia. Qed.

Lemma replace_Z_app (a b : string) :
  replace_Z (a ++ b) = replace_Z a ++ replace_Z b.
Proof.
  induction a as [| c a IH]; simpl; [reflexivity |].
  destruct (Ascii.eqb c "Z"); simpl; now rewrite IH.
Qed.

Lemma replace_Z_digit (k : Z) (s : string) :
  replace_Z (String (digit_char (k mod 10)) s)
  = String (digit_char (k mod 10)) (replace_Z s).
Proof.
  cbn [replace_Z].
  now rewrite (proj2 (proj2 (digit_not_sign _ _ (digit_char_val k)))).
Qed.

Lemma replace_Z_pad2 (n : Z) (s : string) :
  replace_Z (pad2 n ++ s) = pad2 n ++ replace_Z s.
Proof. unfold pad2. cbn [append]. now rewrite !replace_Z_digit. Qed.

Lemma replace_Z_pad4 (n : Z) (s : string) :
  replace_Z (pad4 n ++ s) = pad4 n ++ replace_Z s.
Proof. unfold pad4, pad2. cbn [append]. now rewrite !replace_Z_digit. Qed.

Lemma replace_Z_provider_text (t : datetime) (sfx : string) :
  replace_Z (provider_text t sfx) = provider_text t (replace_Z sfx).
Proof.
  unfold provider_text.
  rewrite replace_Z_pad4. f_equal. change ("-" ++ ?x) with (String "-" x).
  cbn [append replace_Z]. change (Ascii.eqb "-" "Z") with false. cbv iota. f_equal.
  rewrite replace_Z_pad2. f_equal.
  cbn [append replace_Z]. change (Ascii.eqb "-" "Z") with false. cbv iota. f_equal.
  rewrite replace_Z_pad2. f_equal.
  cbn [append replace_Z]. change (Ascii.eqb "T" "Z") with false. cbv iota. f_equal.
  rewrite replace_Z_pad2. f_equal.
  cbn [append replace_Z]. change (Ascii.eqb ":" "Z") with false. cbv iota. f_equal.
  rewrite replace_Z_pad2. f_equal.
  cbn [append replace_Z]. change (Ascii.eqb ":" "Z") with false. cbv iota. f_equal.
  now rewrite replace_Z_pad2.
Qed.

Lemma replace_Z_offset_text (negative : bool) (hh mm : Z) :
  replace_Z (offset_text negative hh mm) = offset_text negative hh mm.
Proof.
  unfold offset_text.
  assert (E : forall s, replace_Z ((if negative then "-" else "+") ++ s)
                        = (if negative then "-" else "+") ++ replace_Z s)
    by (intros s; now destruct negative).
  rewrite E. f_equal. rewrite replace_Z_pad2. f_equal.
  cbn [append replace_Z]. change (Ascii.eqb ":" "Z") with false. cbv iota. f_equal.
  rewrite <- (append_nil_r (pad2 mm)) at 1. rewrite replace_Z_pad2.
  apply append_nil_r.
Qed.

(** The characters of the time of [t]. *)
Let time_chars (t : datetime) (r : list ascii) : list ascii :=
  digit_char (hour t / 10 mod 10) :: digit_char (hour t mod 10) :: ":"%char
  :: digit_char (minute t / 10 mod 10) :: digit_char (minute t mod 10) :: ":"%char
  :: digit_char (second t / 10 mod 10) :: digit_char (second t mod 10) :: r.

Lemma fromisoformat_provider_text (t : datetime) (sfx : string) :
  valid t = true ->
  fromisoformat (provider_text t sfx)
  = do (hh, mm, ss, us, tz) <-
       parse_isoformat_time (time_chars t (list_ascii_of_string sfx));
    if valid_fields (year t) (month t) (day t) hh mm ss us
    then Some (mkDatetime (year t) (month t) (day t) hh mm ss us tz)
    else None.
Proof.
  intros Hv. destruct (valid_bounds t Hv) as (By & Bm & Bd & _).
  pose proof (days_in_month_bound (year t) (month t)) as Bdim.
  unfold provider_text, pad4, pad2. cbn [append].
  rewrite (fromisoformat_text _ _ _ _ _ _ _ _ _ _ _ _ _ _
             (year t / 1000 mod 10) (year t / 100 mod 10) (year t / 10 mod 10)
             (year t mod 10) (month t / 10 mod 10) (month t mod 10)
             (day t / 10 mod 10) (day t mod 10)
             (digit_char_val _) (digit_char_val _) (digit_char_val _)
             (digit_char_val _) (digit_char_val _) (digit_char_val _)
             (digit_char_val _) (digit_char_val _)).
  rewrite (recompose4 (year t)) by lia.
  replace (10 * (10 * 0 + month t / 10 mod 10) + month t mod 10) with (month t)
    by (Z.div_mod_to_equations; lia).
  replace (10 * (10 * 0 + day t / 10 mod 10) + day t mod 10) with (day t)
    by (Z.div_mod_to_equations; lia).
  reflexivity.
Qed.

(** The time of [t] followed by nothing. *)
Lemma parse_time_naive (t : datetime) :
  valid t = true ->
  parse_isoformat_time (time_chars t [])
  = Some (hour t, minute t, second t, 0, None).
Proof.
  intros Hv. destruct (valid_bounds t Hv) as (_ & _ & _ & Bh & Bm & Bs & _).
  unfold parse_isoformat_time, time_chars.
  rewrite (split_tz_time _ _ _ _ _ _ _ _ _ _ _ _
             (digit_char_val _) (digit_char_val _) (digit_char_val _)
             (digit_char_val _) (digit_char_val _) (digit_char_val _)).
  cbn [split_tz fst snd].
  rewrite (parse_hh_mm_ss _ _ _ _ _ _ _ _ _ _ _ _
             (digit_char_val _) (digit_char_val _) (digit_char_val _)
             (digit_char_val _) (digit_char_val _) (digit_char_val _)).
  cbn [parse_fraction obind].
  now rewrite !recompose2 by lia.
Qed.

(** The time of [t] followed by an offset. *)
Lemma parse_time_offset (t : datetime) (negative : bool) (th tm : Z) :
  valid t = true -> 0 <= th <= 23 -> 0 <= tm <= 59 ->
  parse_isoformat_time
    (time_chars t (list_ascii_of_string (offset_text negative th tm)))
  = Some (hour t, minute t, second t, 0,
          Some ((if negative then -1 else 1)
                * (th * usec_per_hour + tm * 60 * usec_per_second))).
Proof.
  intros Hv Hth Htm. destruct (valid_bounds t Hv) as (_ & _ & _ & Bh & Bm & Bs & _).
  unfold parse_isoformat_time, time_chars.
  rewrite (split_tz_time _ _ _ _ _ _ _ _ _ _ _ _
             (digit_char_val _) (digit_char_val _) (digit_char_val _)
             (digit_char_val _) (digit_char_val _) (digit_char_val _)).
  assert (Es : split_tz (list_ascii_of_string (offset_text negative th tm))
               = ([], Some (if negative then -1 else 1,
                            [digit_char (th / 10 mod 10); digit_char (th mod 10);
                             ":"%char;
                             digit_char (tm / 10 mod 10); digit_char (tm mod 10)])))
    by (now destruct negative).
  rewrite Es. cbn [fst snd].
  rewrite (parse_hh_mm_ss _ _ _ _ _ _ _ _ _ _ _ _
             (digit_char_val _) (digit_char_val _) (digit_char_val _)
             (digit_char_val _) (digit_char_val _) (digit_char_val _)).
  cbn [parse_fraction obind List.length Nat.eqb orb].
  rewrite (parse_hh_mm _ _ _ _ _ _ _ _
             (digit_char_val _) (digit_char_val _) (digit_char_val _)
             (digit_char_val _)).
  cbn [obind]. rewrite !recompose2 by lia.
  set (off := (if negative then -1 else 1)
              * (th * usec_per_hour + tm * 60 * usec_per_second
                 + 0 * usec_per_second + 0)).
  assert (Hoff : (- usec_per_day <? off) && (off <? usec_per_day) = true).
  { apply andb_true_iff. rewrite !Z.ltb_lt.
    unfold off, usec_per_day, usec_per_hour, usec_per_second.
    destruct negative; lia. }
  rewrite Hoff. unfold off. do 3 f_equal. lia.
Qed.

End ProviderText.

Section StoredAsWritten.

Lemma valid_whole_second (t : datetime) :
  valid t = true ->
  valid_fields (year t) (month t) (day t) (hour t) (minute t) (second t) 0 = true.
Proof.
  unfold valid, valid_fields. rewrite !andb_true_iff, !Z.leb_le.
  intros H. repeat split; try tauto; lia.
Qed.

Lemma provider_text_not_empty (t : datetime) (sfx : string) :
  String.eqb (provider_text t sfx) "" = false.
Proof. reflexivity. Qed.

(** What [fromisoformat] reads in the provider's text for [t] with no
    offset, and with an offset. *)
Lemma fromisoformat_naive (t : datetime) :
  valid t = true ->
  fromisoformat (provider_text t "")
  = Some (mkDatetime (year t) (month t) (day t) (hour t) (minute t) (second t) 0 None).
Proof.
  intros Hv. rewrite (fromisoformat_provider_text t "" Hv).
  cbn [list_ascii_of_string]. rewrite (parse_time_naive t Hv). cbn [obind].
  now rewrite (valid_whole_second t Hv).
Qed.

Lemma fromisoformat_offset (t : datetime) (negative : bool) (th tm : Z) :
  valid t = true -> 0 <= th <= 23 -> 0 <= tm <= 59 ->
  fromisoformat (provider_text t (offset_text negative th tm))
  = Some (mkDatetime (year t) (month t) (day t) (hour t) (minute t) (second t) 0
            (Some ((if negative then -1 else 1)
                   * (th * usec_per_hour + tm * 60 * usec_per_second)))).
Proof.
  intros Hv Hth Htm. rewrite (fromisoformat_provider_text t _ Hv).
  rewrite (parse_time_offset t negative th tm Hv Hth Htm). cbn [obind].
  now rewrite (valid_whole_second t Hv).
Qed.

Lemma timestamp_str_text (env : environment) (r : reading) (t : datetime)
      (sfx : string) (parsed : datetime) :
  timestamp r = JStr (provider_text t sfx) ->
  fromisoformat (replace_Z (provider_text t sfx)) = Some parsed ->
  timestamp_str env r = Ok (strftime_ymd_hms (replace_tzinfo_None parsed)).
Proof.
  intros Ht Hp. unfold timestamp_str. rewrite Ht. cbn [truthy].
  rewrite provider_text_not_empty. cbn [negb]. now rewrite Hp.
Qed.

End StoredAsWritten.

(** X17.  For every valid date and time that the provider writes as
    [YYYY-MM-DDTHH:MM:SS], alone, followed by [Z], or followed by an offset
    [+HH:MM] or [-HH:MM], [store_measurement] computes the text that
    [strftime] writes for the fields as they are written: from the year 1000
    on this is [YYYY-MM-DD HH:MM:SS], of 19 characters; before, the year
    loses its leading zeros and the text is shorter.  With an offset the
    instant that was sent is the written time less the offset, so what is
    stored is that instant's UTC time only when the offset is zero. *)
Theorem provider_timestamp_stored_as_written (env : environment) (t : datetime) :
  valid t = true ->
  (1000 <= year t ->
   strftime_ymd_hms t = isoformat_seconds t
   /\ String.length (strftime_ymd_hms t) = 19%nat)
  /\ (year t < 1000 -> (String.length (strftime_ymd_hms t) < 19)%nat)
  /\ (forall r sfx,
      timestamp r = JStr (provider_text t sfx) -> sfx = "" \/ sfx = "Z" ->
      timestamp_str env r = Ok (strftime_ymd_hms t))
  /\ (forall r negative hh mm,
         0 <= hh <= 23 -> 0 <= mm <= 59 ->
         timestamp r = JStr (provider_text t (offset_text negative hh mm)) ->
         timestamp_str env r = Ok (strftime_ymd_hms t)
         /\ option_map utc_usec
              (fromisoformat (provider_text t (offset_text negative hh mm)))
            = Some (wall_seconds t * usec_per_second
                    - (if negative then -1 else 1)
                      * (hh * usec_per_hour + mm * 60 * usec_per_second))).
Proof.
  intros Hv. destruct (strftime_length t) as [L1 L2].
  split; [intros Y; split; [now apply strftime_four_digits | now apply L1] |].
  split; [exact L2 |]. split.
  - intros r sfx Ht [-> | ->].
    + rewrite (timestamp_str_text env r t "" _ Ht
                 (eq_trans (f_equal fromisoformat (replace_Z_provider_text t ""))
                           (fromisoformat_naive t Hv))).
      reflexivity.
    + rewrite (timestamp_str_text env r t "Z" _ Ht
                 (eq_trans (f_equal fromisoformat (replace_Z_provider_text t "Z"))
                           (fromisoformat_offset t false 0 0 Hv ltac:(lia) ltac:(lia)))).
      reflexivity.
  - intros r negative hh mm Hh Hm Ht. split.
    + assert (Hp : fromisoformat (replace_Z (provider_text t (offset_text negative hh mm)))
                   = Some (mkDatetime (year t) (month t) (day t) (hour t) (minute t)
                             (second t) 0
                             (Some ((if negative then -1 else 1)
                                    * (hh * usec_per_hour + mm * 60 * usec_per_second))))).
      { rewrite replace_Z_provider_text, replace_Z_offset_text.
        apply (fromisoformat_offset t negative hh mm Hv Hh Hm). }
      rewrite (timestamp_str_text env r t _ _ Ht Hp). reflexivity.
    + rewrite (fromisoformat_offset t negative hh mm Hv Hh Hm).
      cbn [option_map]. f_equal. unfold utc_usec, wall_usec, wall_seconds.
      cbn [year month day hour minute second microsecond tzinfo]. lia.
Qed.

Lemma provider_timestamp_stored_as_written_witness :
  let t := mkDatetime 2024 1 1 2 0 0 0 None in
  let r := mkReading 1 (JStr "2024-01-01T02:00:00+02:00") JNull JNull JNull JNull
                     JNull JNull JNull JNull in
  provider_text t (offset_text false 2 0) = "2024-01-01T02:00:00+02:00"
  /\ timestamp_str (sample_env (answers JNull)) r = Ok "2024-01-01 02:00:00"
  /\ option_map utc_usec (fromisoformat "2024-01-01T02:00:00+02:00")
     = Some (wall_seconds (mkDatetime 2024 1 1 0 0 0 0 None) * usec_per_second)
  /\ timestamp_str (sample_env (answers JNull))
       (mkReading 1 (JStr "0999-12-31T23:59:59Z") JNull JNull JNull JNull
                  JNull JNull JNull JNull)
     = Ok "999-12-31 23:59:59".
Proof.
  intros t r.
  destruct (provider_timestamp_stored_as_written (sample_env (answers JNull)) t eq_refl)
    as (_ & _ & _ & H).
  destruct (H r false 2 0 ltac:(lia) ltac:(lia) eq_refl) as [H1 H2].
  split; [reflexivity |]. split; [exact H1 |]. split; [exact H2 |].
  apply (proj1 (proj2 (proj2 (provider_timestamp_stored_as_written
                                (sample_env (answers JNull))
                                (mkDatetime 999 12 31 23 59 59 0 None) eq_refl)))
           _ "Z"); [reflexivity | now right].
Defined.

Section BadConfig.

(** [get_configured_devices] raises exactly when the configuration of a
    listed row is no JSON. *)
Lemma load_configs_raises (rows : list device_row) :
  (exists r, In r rows /\ forall v, d_config r <> ConfigJson v) ->
  exists e, load_configs rows = Raise e.
Proof.
  intros (r & Hr & Hc). induction rows as [| x rows IH]; [destruct Hr |].
  simpl. destruct (d_config x) as [c | |] eqn:Ex; simpl; eauto.
  destruct Hr as [-> | Hr]; [now destruct (Hc c) |].
  destruct (IH Hr) as (e & ->). eauto.
Qed.

Lemma load_configs_loads (rows : list device_row) :
  (forall r, In r rows -> exists v, d_config r = ConfigJson v) ->
  exists cfgs, load_configs rows = Ok cfgs.
Proof.
  induction rows as [| x rows IH]; intros H; [now exists [] |].
  simpl. destruct (H x (or_introl eq_refl)) as (v & ->). simpl.
  destruct IH as (cfgs & ->); [intros r Hr; apply H; now right |]. eauto.
Qed.

End BadConfig.

(** X18.  When the stored configuration of one active device is no JSON (a
    text that does not parse, or NULL), reading the device list fails and
    the tick stops there: it logs the error and returns normally, but calls
    [fetch_data] for no device, the others included, and stores nothing.
    When every active device has a configuration that is JSON, the list is
    read. *)
Theorem bad_config_aborts_tick (env : environment) (d : database) :
  ((exists r, In r (devices d) /\ d_active r = true
              /\ forall v, d_config r <> ConfigJson v) ->
   fst (run (data_fetcher_tick env) d) = Ok tt
   /\ db_after (data_fetcher_tick env) d = d
   /\ trace_of (data_fetcher_tick env) d = [LogError "Error in data fetcher"])
  /\ ((forall r, In r (devices d) -> d_active r = true ->
                 exists v, d_config r = ConfigJson v) ->
      exists cfgs,
        load_configs (select_active_devices d) = Ok cfgs
        /\ List.length cfgs = List.length (filter d_active (devices d))).
Proof.
  destruct (select_active_devices_spec d) as [Hp _]. split.
  - intros (r & Hr & Ha & Hc).
    assert (Hl : exists e, load_configs (select_active_devices d) = Raise e).
    { apply load_configs_raises. exists r. split; [| exact Hc].
      apply (Permutation_in _ Hp). apply filter_In. auto. }
    destruct Hl as (e & Hl).
    unfold run, db_after, trace_of, run, data_fetcher_tick, get_configured_devices,
      try_except, bind, get_db, lift.
    simpl. rewrite Hl. simpl. auto.
  - intros H.
    destruct (load_configs_loads (select_active_devices d)) as (cfgs & Hl).
    + intros r Hr. apply (Permutation_in _ (Permutation_sym Hp)) in Hr.
      apply filter_In in Hr as [Hr Ha]. now apply H.
    + exists cfgs. split; [exact Hl |].
      rewrite (load_configs_length _ _ Hl). symmetry. now apply Permutation_length.
Qed.

Lemma bad_config_aborts_tick_witness :
  let d := mkDatabase [sample_device 1 "kitchen" true;
                       mkDevice 2 "attic" "airgradient" ConfigNotJson true] [] 0 in
  let d' := mkDatabase [mkDevice 1 "attic" "airgradient" ConfigNull true;
                        sample_device 2 "kitchen" true] [] 0 in
  let env := sample_env (answers (JStr "2024-01-01T11:30:00Z")) in
  measurements (db_after (data_fetcher_tick env) d) = []
  /\ trace_of (data_fetcher_tick env) d = [LogError "Error in data fetcher"]
  /\ trace_of (data_fetcher_tick env) d' = [LogError "Error in data fetcher"]
  /\ List.length (measurements (db_after (data_fetcher_tick env) db_two_devices))
     = 2%nat.
Proof.
  intros d d' env.
  destruct (proj1 (bad_config_aborts_tick env d)) as (_ & H1 & H2).
  - exists (mkDevice 2 "attic" "airgradient" ConfigNotJson true).
    split; [right; now left |]. split; [reflexivity | discriminate].
  - split; [now rewrite H1 |]. split; [exact H2 |]. split; reflexivity.
Defined.

Section StoreErrors.

Variable env : environment.

(** The exceptions that the computation of the timestamp text can raise. *)
Lemma timestamp_str_raises (r : reading) (e : exn) :
  timestamp_str env r = Raise e ->
  e = ValueError "Invalid isoformat string" \/ e = AttributeError.
Proof.
  unfold timestamp_str. destruct (truthy (timestamp r)); [| discriminate].
  destruct (timestamp r); try (intros [= <-]; now right).
  destruct (fromisoformat _); [discriminate |]. intros [= <-]. now left.
Qed.

(** What [store_measurement] returns: it raises what the computation of the
    timestamp or the binding of a value raises, unless that is an error of
    the database. *)
Lemma store_measurement_result (r : reading) (s : state) :
  fst (store_measurement env (Some r) s)
  = match timestamp_str env r with
    | Raise e => Raise e
    | Ok ts =>
        match bind_reading ts r (next_measurement_id (db s)) with
        | Raise e => if is_sqlite3_Error e then Ok tt else Raise e
        | Ok _ => Ok tt
        end
    end.
Proof.
  unfold store_measurement, insert_measurement, bind, try_except, emit, lift,
    get_db, put_db, ret, raise.
  simpl.
  destruct (timestamp_str env r) as [ts | e] eqn:Et; simpl.
  - destruct (bind_reading ts r (next_measurement_id (db s))) as [row | e]; simpl.
    + now destruct (sqlite_fault env (device_id r)).
    + now destruct (is_sqlite3_Error e).
  - destruct (timestamp_str_raises r e Et) as [-> | ->]; reflexivity.
Qed.

Lemma store_measurement_fault (r : reading) (s : state) (msg : string) :
  sqlite_fault env (device_id r) = Some msg ->
  db (snd (store_measurement env (Some r) s)) = db s.
Proof.
  intros Hf. apply (store_measurement_db env r s (fun d' => d' = db s));
    [reflexivity |].
  intros ts row _ _ E. congruence.
Qed.

Lemma store_measurement_fault_log (r : reading) (s : state) (msg ts : string)
      (row : measurement_row) :
  timestamp_str env r = Ok ts ->
  bind_reading ts r (next_measurement_id (db s)) = Ok row ->
  sqlite_fault env (device_id r) = Some msg ->
  trace (snd (store_measurement env (Some r) s))
  = (trace s ++ [CallStore (device_id r); LogError "Database error"])%list.
Proof.
  intros Et Eb Ef.
  unfold store_measurement, insert_measurement, bind, try_except, emit, lift,
    get_db, put_db, ret, raise.
  simpl. rewrite Et. simpl. rewrite Eb. simpl. rewrite Ef. simpl.
  now rewrite <- app_assoc.
Qed.

End StoreErrors.

(** X7.  The failures of [store_measurement] that start inside its [try]
    (opening the connection comes before it and is not covered): when the
    engine fails on the insertion the function logs the error, returns
    normally and stores nothing; when the provider timestamp cannot be
    parsed, or is not a string, the [ValueError] or [AttributeError] leaves
    the function.  Whenever an exception leaves, nothing was stored; and in
    every case the database is as it was or holds one more row. *)
Theorem store_measurement_failure_paths
        (env : environment) (r : reading) (s : state) :
  let out := store_measurement env (Some r) s in
  (forall msg ts row,
      timestamp_str env r = Ok ts ->
      bind_reading ts r (next_measurement_id (db s)) = Ok row ->
      sqlite_fault env (device_id r) = Some msg ->
      fst out = Ok tt /\ db (snd out) = db s
      /\ In (LogError "Database error") (trace (snd out)))
  /\ (forall e,
         timestamp_str env r = Raise e ->
         fst out = Raise e
         /\ (e = ValueError "Invalid isoformat string" \/ e = AttributeError))
  /\ (forall e, fst out = Raise e -> db (snd out) = db s)
  /\ (db (snd out) = db s
      \/ exists row,
          db (snd out)
          = mkDatabase (devices (db s)) (measurements (db s) ++ [row])
                       (next_measurement_id (db s))).
Proof.
  intros out. unfold out. split; [| split; [| split]].
  - intros msg ts row Et Eb Ef. rewrite store_measurement_result, Et, Eb.
    split; [reflexivity |].
    split; [now apply (store_measurement_fault env r s msg) |].
    rewrite (store_measurement_fault_log env r s msg ts row Et Eb Ef).
    apply in_or_app. right. right. now left.
  - intros e Et. rewrite store_measurement_result, Et.
    split; [reflexivity | now apply (timestamp_str_raises env r)].
  - intros e He. rewrite store_measurement_result in He.
    destruct (timestamp_str env r) as [ts | e'] eqn:Et.
    + destruct (bind_reading ts r (next_measurement_id (db s))) as [row | e''] eqn:Eb;
        [discriminate |].
      apply (store_measurement_db env r s (fun d' => d' = db s)); [reflexivity |].
      intros ts' row Et' Eb' _. rewrite Et in Et'. injection Et' as <-. congruence.
    + apply (store_measurement_db env r s (fun d' => d' = db s)); [reflexivity |].
      intros ts row E. congruence.
  - apply (store_measurement_db env r s
             (fun d' => d' = db s
                        \/ exists row,
                            d' = mkDatabase (devices (db s))
                                            (measurements (db s) ++ [row])
                                            (next_measurement_id (db s))));
      [now left |].
    intros ts row _ _ _. right. now exists row.
Qed.

Lemma store_measurement_failure_paths_witness :
  let r := mkReading 1 (JStr "yesterday") JNull JNull JNull JNull JNull JNull
                     JNull JNull in
  let s := mkState db_one_device [] in
  let faulty := mkEnv (fun _ => TimedOut) (fun _ => noon) (fun _ => Some "disk I/O error") in
  fst (store_measurement faulty (Some r) s) = Raise (ValueError "Invalid isoformat string")
  /\ fst (store_measurement faulty
            (Some (mkReading 1 JNull JNull JNull JNull JNull JNull JNull JNull JNull)) s)
     = Ok tt
  /\ db (snd (store_measurement faulty
            (Some (mkReading 1 JNull JNull JNull JNull JNull JNull JNull JNull JNull)) s))
     = db_one_device.
Proof.
  intros r s faulty.
  destruct (store_measurement_failure_paths faulty r s)
    as (_ & H2 & _).
  destruct (store_measurement_failure_paths faulty
              (mkReading 1 JNull JNull JNull JNull JNull JNull JNull JNull JNull) s)
    as (H1 & _).
  split; [apply (H2 (ValueError "Invalid isoformat string")); reflexivity |].
  edestruct (H1 "disk I/O error") as (Ha & Hb & _);
    [reflexivity | reflexivity | reflexivity |].
  split; [exact Ha | exact Hb].
Defined.

Section OrdinalRoundTrip.

Lemma all_from_iter (p : Z -> bool) (n : positive) (s : Z) (b : bool) :
  fst (Pos.iter (fun st => (fst st + 1, snd st && p (fst st))) (s, b) n) = s + Z.pos n
  /\ (snd (Pos.iter (fun st => (fst st + 1, snd st && p (fst st))) (s, b) n) = true ->
      forall i, s <= i < s + Z.pos n -> p i = true).
Proof.
  induction n as [| n [F S]] using Pos.peano_ind.
  - simpl. split; [lia |]. intros H i Hi. apply andb_true_iff in H.
    replace i with s by lia. tauto.
  - rewrite Pos.iter_succ.
    destruct (Pos.iter (fun st => (fst st + 1, snd st && p (fst st))) (s, b) n)
      as [k ok].
    simpl in *. split; [lia |].
    intros H i Hi. apply andb_true_iff in H as [H1 H2].
    destruct (Z.eq_dec i k) as [-> | Hne]; [exact H2 |].
    apply (S H1). lia.
Qed.

Lemma all_from_spec (start : Z) (n : positive) (p : Z -> bool) :
  all_from start n p = true ->
  forall i, start <= i < start + Z.pos n -> p i = true.
Proof. intros H. exact (proj2 (all_from_iter p n start true) H). Qed.

(** The calendar repeats every 400 years. *)
Lemma is_leap_period (y q : Z) : is_leap (y + 400 * q) = is_leap y.
Proof.
  unfold is_leap.
  replace ((y + 400 * q) mod 4) with (y mod 4)
    by (replace (y + 400 * q) with (y + (100 * q) * 4) by lia;
        now rewrite Z_mod_plus_full).
  replace ((y + 400 * q) mod 100) with (y mod 100)
    by (replace (y + 400 * q) with (y + (4 * q) * 100) by lia;
        now rewrite Z_mod_plus_full).
  replace ((y + 400 * q) mod 400) with (y mod 400)
    by (replace (y + 400 * q) with (y + q * 400) by lia;
        now rewrite Z_mod_plus_full).
  reflexivity.
Qed.

Lemma days_in_month_period (y q m : Z) :
  days_in_month (y + 400 * q) m = days_in_month y m.
Proof. unfold days_in_month. now rewrite is_leap_period. Qed.

Lemma days_before_year_period (y q : Z) :
  days_before_year (y + 400 * q) = days_before_year y + DI400Y * q.
Proof.
  unfold days_before_year, DI400Y. cbv zeta. Z.div_mod_to_equations. lia.
Qed.

Lemma ymd2ord_period (y q m d : Z) :
  ymd2ord (y + 400 * q) m d = ymd2ord y m d + DI400Y * q.
Proof.
  unfold ymd2ord, days_before_month.
  rewrite is_leap_period, days_before_year_period. lia.
Qed.

Lemma ord2ymd_period (n q : Z) :
  1 <= n <= DI400Y ->
  ord2ymd (n + DI400Y * q)
  = (fst (fst (ord2ymd n)) + 400 * q, snd (fst (ord2ymd n)), snd (ord2ymd n)).
Proof.
  intros Hn. unfold ord2ymd. cbv zeta.
  replace (n + DI400Y * q - 1) with (n - 1 + q * DI400Y) by lia.
  rewrite Z.div_add, Z.mod_add by (unfold DI400Y; lia).
  rewrite (Z.div_small (n - 1) DI400Y), (Z.mod_small (n - 1) DI400Y) by lia.
  repeat match goal with
         | |- context [if ?c then _ else _] => destruct c
         end; cbn [fst snd]; f_equal; f_equal; lia.
Qed.

Lemma ordinal_cycle : all_from 1 146097 ordinal_round_trips = true.
Proof. vm_compute. reflexivity. Qed.

Lemma ord2ymd_ymd2ord_cycle (r q : Z) :
  1 <= r <= DI400Y -> 0 <= q -> r + DI400Y * q <= MAXORDINAL ->
  ymd2ord (fst (fst (ord2ymd (r + DI400Y * q)))) (snd (fst (ord2ymd (r + DI400Y * q))))
          (snd (ord2ymd (r + DI400Y * q)))
  = r + DI400Y * q
  /\ 1 <= fst (fst (ord2ymd (r + DI400Y * q))) <= 9999
  /\ 1 <= snd (fst (ord2ymd (r + DI400Y * q))) <= 12
  /\ 1 <= snd (ord2ymd (r + DI400Y * q))
     <= days_in_month (fst (fst (ord2ymd (r + DI400Y * q))))
                      (snd (fst (ord2ymd (r + DI400Y * q)))).
Proof.
  intros Hr Hq Hn.
  pose proof (all_from_spec 1 146097 ordinal_round_trips ordinal_cycle r) as C.
  unfold DI400Y in Hr. specialize (C ltac:(lia)). fold DI400Y in Hr.
  unfold ordinal_round_trips in C.
  rewrite (ord2ymd_period r q Hr).
  destruct (ord2ymd r) as [[y m] d]. cbn [fst snd].
  rewrite !andb_true_iff, !Z.leb_le, Z.eqb_eq in C.
  destruct C as ((((((C1 & C2) & C3) & C4) & C5) & C6) & C7).
  rewrite ymd2ord_period, days_in_month_period, C1.
  assert (Hy : y + 400 * q <= 9999).
  { destruct (Z_le_gt_dec (y + 400 * q) 9999) as [L | G]; [exact L | exfalso].
    pose proof (days_before_year_mono 10000 (y + 400 * q) ltac:(lia)) as M.
    change (days_before_year 10000) with 3652059 in M.
    pose proof (day_of_year_bound (y + 400 * q) m d ltac:(lia)) as B.
    rewrite days_in_month_period in B. specialize (B ltac:(lia)).
    pose proof (ymd2ord_period y q m d) as P. unfold ymd2ord in P at 1.
    rewrite C1 in P. unfold MAXORDINAL in Hn. lia. }
  repeat split; lia.
Qed.

(** [ord2ymd] gives the valid date whose ordinal it was given. *)
Lemma ord2ymd_ymd2ord (n : Z) :
  1 <= n <= MAXORDINAL ->
  ymd2ord (fst (fst (ord2ymd n))) (snd (fst (ord2ymd n))) (snd (ord2ymd n)) = n
  /\ 1 <= fst (fst (ord2ymd n)) <= 9999
  /\ 1 <= snd (fst (ord2ymd n)) <= 12
  /\ 1 <= snd (ord2ymd n)
     <= days_in_month (fst (fst (ord2ymd n))) (snd (fst (ord2ymd n))).
Proof.
  intros Hn.
  assert (E : n = ((n - 1) mod DI400Y + 1) + DI400Y * ((n - 1) / DI400Y))
    by (unfold DI400Y; Z.div_mod_to_equations; lia).
  rewrite E. apply ord2ymd_ymd2ord_cycle.
  - unfold DI400Y; Z.div_mod_to_equations; lia.
  - unfold DI400Y; Z.div_mod_to_equations; lia.
  - rewrite <- E. lia.
Qed.

(** [t - timedelta(hours=h)], when it is defined, is a valid value exactly
    [h] hours before [t]. *)
Lemma sub_hours_exact (t : datetime) (h : Z) (since : datetime) :
  valid t = true -> sub_hours t h = Some since ->
  valid since = true
  /\ wall_seconds since = wall_seconds t - h * 3600
  /\ microsecond since = microsecond t
  /\ tzinfo since = tzinfo t.
Proof.
  intros Hv. destruct (valid_bounds t Hv) as (_ & _ & _ & _ & _ & _ & Bus).
  unfold sub_hours. cbv zeta. fold (wall_seconds t).
  set (secs := wall_seconds t - h * 3600).
  destruct ((0 <? secs / 86400) && (secs / 86400 <=? MAXORDINAL)) eqn:Hr;
    [| discriminate].
  apply andb_true_iff in Hr as [H1 H2]. apply Z.ltb_lt in H1. apply Z.leb_le in H2.
  destruct (ord2ymd_ymd2ord (secs / 86400) ltac:(lia)) as (Ho & By & Bm & Bd).
  destruct (ord2ymd (secs / 86400)) as [[y m] d]. cbn [fst snd] in *.
  intros [= <-].
  unfold valid, valid_fields, wall_seconds.
  cbn [year month day hour minute second microsecond tzinfo].
  rewrite Ho. split; [| split; [| split; reflexivity]].
  - rewrite !andb_true_iff, !Z.leb_le.
    repeat split; try lia; Z.div_mod_to_equations; lia.
  - Z.div_mod_to_equations. lia.
Qed.

End OrdinalRoundTrip.

Section WindowInstants.

(** The subtraction overflows exactly when the cutoff leaves the years 1 to
    9999. *)
Lemma sub_hours_range (t : datetime) (h : Z) :
  sub_hours t h = None
  <-> ~ (86400 <= wall_seconds t - h * 3600 < (MAXORDINAL + 1) * 86400).
Proof.
  unfold sub_hours. cbv zeta. fold (wall_seconds t).
  set (secs := wall_seconds t - h * 3600).
  destruct ((0 <? secs / 86400) && (secs / 86400 <=? MAXORDINAL)) eqn:Hr.
  - apply andb_true_iff in Hr as [H1 H2]. apply Z.ltb_lt in H1. apply Z.leb_le in H2.
    destruct (ord2ymd (secs / 86400)) as [[y m] d].
    split; [discriminate |]. intros H. exfalso. apply H.
    unfold MAXORDINAL in *. Z.div_mod_to_equations. lia.
  - split; [| reflexivity]. intros _ H.
    apply andb_false_iff in Hr as [Hr | Hr];
      [apply Z.ltb_ge in Hr | apply Z.leb_gt in Hr];
      unfold MAXORDINAL in *; Z.div_mod_to_equations; lia.
Qed.

(** The comparison that the window query makes, read on instants. *)
Lemma cutoff_before_stored (a b : datetime) :
  valid a = true -> valid b = true -> 1000 <= year b ->
  text_lt (isoformat_space a) (strftime_ymd_hms b)
  <-> wall_usec a < wall_seconds b * usec_per_second.
Proof.
  intros Ha Hb Yb. destruct (valid_bounds a Ha) as (_ & _ & _ & _ & _ & _ & Hus).
  rewrite (text_lt_cutoff a b Ha Hb Yb), <- (wall_seconds_compare a b Ha Hb).
  rewrite Z.compare_lt_iff.
  unfold wall_usec, usec_per_second. fold (wall_seconds a). lia.
Qed.

End WindowInstants.

(** X19.  The window of [get_historical_data] read on instants.  Called at a
    valid clock time, it raises [OverflowError] exactly when the cutoff, the
    clock time less [hours] hours, leaves the years 1 to 9999, or the device
    id does not fit 64 bits.  Otherwise a joined row whose timestamp is the
    stored text of a valid time [b] of the year 1000 or later is returned
    exactly when [b] is later than the cutoff, microseconds of the clock
    included, and the row passes the device filter. *)
Theorem history_window_in_instants (d : database) (now : datetime) (hours : Z)
        (device_id : option Z) (res : result (list pydict)) :
  valid now = true ->
  get_historical_data d now hours device_id res ->
  (res = Raise OverflowError
   <-> ~ (86400 <= wall_seconds now - hours * 3600 < (MAXORDINAL + 1) * 86400)
       \/ bindable device_id = false)
  /\ (86400 <= wall_seconds now - hours * 3600 < (MAXORDINAL + 1) * 86400 ->
      bindable device_id = true ->
      exists rows,
        res = Ok (map history_dict rows)
        /\ forall r b,
             In r (joined d) -> valid b = true -> 1000 <= year b ->
             row_timestamp r = strftime_ymd_hms b ->
             (In r rows
              <-> wall_usec now - hours * usec_per_hour
                  < wall_seconds b * usec_per_second
                  /\ device_filter device_id r = true)).
Proof.
  intros Hv H. pose proof (sub_hours_range now hours) as R.
  unfold get_historical_data in H.
  destruct (sub_hours now hours) as [since |] eqn:Es.
  - assert (In_range : 86400 <= wall_seconds now - hours * 3600
                       < (MAXORDINAL + 1) * 86400).
    { destruct (Z_le_gt_dec 86400 (wall_seconds now - hours * 3600)) as [A | A];
        [destruct (Z_lt_ge_dec (wall_seconds now - hours * 3600)
                               ((MAXORDINAL + 1) * 86400)) as [B | B]; [lia |] |];
        exfalso; assert (N : Some since = None) by (apply R; lia); discriminate. }
    destruct (bindable device_id) eqn:Eb.
    + destruct H as (rows & [Hp _] & ->).
      split; [split; [discriminate | intros [N | N]; [now destruct N | discriminate]] |].
      intros _ _. exists rows. split; [reflexivity |].
      intros r b Hr Hb Yb Et.
      destruct (sub_hours_exact now hours since Hv Es) as (Vs & Ws & Us & _).
      assert (Hc : wall_usec since = wall_usec now - hours * usec_per_hour).
      { unfold wall_usec, usec_per_hour, usec_per_second.
        fold (wall_seconds since). fold (wall_seconds now). rewrite Ws, Us. lia. }
      rewrite <- Hc, <- (cutoff_before_stored since b Vs Hb Yb), <- Et.
      split.
      * intros Hi. apply (Permutation_in _ (Permutation_sym Hp)) in Hi.
        apply in_history_rows in Hi. tauto.
      * intros [Ht Hf]. apply (Permutation_in _ Hp). apply in_history_rows. tauto.
    + subst res. split; [split; [now right | reflexivity] |].
      intros _ F. discriminate.
  - subst res. split; [split; [intros _; left; now apply R | reflexivity] |].
    intros In_range. exfalso. now apply (proj1 R).
Qed.

Lemma history_window_in_instants_witness :
  (exists rows,
      get_historical_data_run db_tie noon 1 None = Ok (map history_dict rows)
      /\ (forall r, In r (joined db_tie) -> In r rows)
      /\ get_historical_data_run db_tie noon 0 None = Ok [])
  /\ get_historical_data_run db_tie noon 1 (Some 9223372036854775808)
     = Raise OverflowError.
Proof.
  split.
  - destruct (history_window_in_instants db_tie noon 1 None
                (get_historical_data_run db_tie noon 1 None) eq_refl
                (get_historical_data_run_ok db_tie noon 1 None)) as [_ H].
    destruct H as (rows & E & Hin);
      [vm_compute; split; [discriminate | reflexivity] | reflexivity |].
    exists rows. split; [exact E |]. split; [| reflexivity].
    intros r Hr.
    apply (Hin r (mkDatetime 2024 1 1 11 30 0 0 None) Hr eq_refl).
    + simpl. lia.
    + destruct Hr as [<- | [<- | []]]; reflexivity.
    + split; [reflexivity | reflexivity].
  - apply (history_window_in_instants db_tie noon 1 (Some 9223372036854775808)
             _ eq_refl (get_historical_data_run_ok db_tie noon 1 _)).
    now right.
Defined.

Section WholeSeconds.

(** [fromisoformat] returns only values that its constructor accepts. *)
Lemma fromisoformat_valid (s : string) (t : datetime) :
  fromisoformat s = Some t -> valid t = true.
Proof.
  unfold fromisoformat. cbv zeta.
  destruct (parse_isoformat_date (slice (list_ascii_of_string s) 0 10))
    as [[[y m] d] |]; [| discriminate].
  cbv beta iota delta [obind].
  destruct (match skipn 10 (list_ascii_of_string s) with
            | [] => Some (0, 0, 0, 0, None)
            | _ :: tstr => parse_isoformat_time tstr
            end) as [[[[[hh mm] ss] us] tz] |]; [| discriminate].
  destruct (valid_fields y m d hh mm ss us) eqn:V; [| discriminate].
  intros [= <-]. exact V.
Qed.

(** The text that [store_measurement] computes is the text of a valid
    value, whether it comes from the provider or from the clock. *)
Lemma timestamp_str_whole_second (env : environment) (r : reading) (ts : string) :
  valid (utcnow env (device_id r)) = true ->
  timestamp_str env r = Ok ts -> whole_second_text ts.
Proof.
  intros Hc. unfold timestamp_str. cbv zeta.
  destruct (truthy (timestamp r)).
  - destruct (timestamp r) as [| | | | s | |]; try discriminate.
    all: try (destruct (fromisoformat (replace_Z s)) as [t |] eqn:E;
              [| discriminate];
              intros [= <-]; exists (replace_tzinfo_None t);
              split; [exact (fromisoformat_valid _ _ E) | reflexivity]).
  - intros [= <-]. exists (utcnow env (device_id r)). now split.
Qed.

End WholeSeconds.

(** X20.  If the clock shows valid times and every timestamp stored so far
    is the text that [strftime] writes for a valid date and time, then so is
    every timestamp stored after a tick, whatever the providers sent: a
    provider text that does not parse stores no row.  For a year from 1000
    on the text is [YYYY-MM-DD HH:MM:SS], of 19 characters; for an earlier
    year the year is written without leading zeros and the text is
    shorter. *)
Theorem tick_stores_whole_second_texts (env : environment) (d : database) :
  (forall i, valid (utcnow env i) = true) ->
  (forall m, In m (measurements d) -> whole_second_text (m_timestamp m)) ->
  forall m,
    In m (measurements (db_after (data_fetcher_tick env) d)) ->
    exists b,
      valid b = true /\ m_timestamp m = strftime_ymd_hms b
      /\ (1000 <= year b ->
          m_timestamp m = isoformat_seconds b
          /\ String.length (m_timestamp m) = 19%nat)
      /\ (year b < 1000 -> (String.length (m_timestamp m) < 19)%nat).
Proof.
  intros Hclock Hd.
  assert (H : forall m,
             In m (measurements (db_after (data_fetcher_tick env) d)) ->
             whole_second_text (m_timestamp m)).
  { unfold db_after, run.
    apply (data_fetcher_tick_db env (mkState d [])
             (fun d' => forall m, In m (measurements d') ->
                                  whole_second_text (m_timestamp m))).
    - exact Hd.
    - intros d0 dc r ts row IH _ Hts Hb _ m Hm. cbn [measurements] in Hm.
      apply in_app_or in Hm as [Hm | [<- | []]]; [now apply IH |].
      destruct (bind_reading_fields _ _ _ _ Hb) as (_ & _ & ->).
      apply (timestamp_str_whole_second env r ts (Hclock _) Hts). }
  intros m Hm. destruct (H m Hm) as (b & Vb & E). exists b.
  split; [exact Vb |]. split; [exact E |]. rewrite E.
  destruct (strftime_length b) as [L1 L2]. split; [| exact L2].
  intros Y. split; [now apply strftime_four_digits | now apply L1].
Qed.

Lemma tick_stores_whole_second_texts_witness :
  let env := sample_env (answers (JStr "2024-02-30T11:30:00Z")) in
  let env' := sample_env (answers (JStr "2024-02-29T11:30:00+05:30")) in
  let old := sample_env (answers (JStr "0999-12-31T23:59:59")) in
  measurements (db_after (data_fetcher_tick env) db_one_device) = []
  /\ (forall m,
         In m (measurements (db_after (data_fetcher_tick env') db_one_device)) ->
         whole_second_text (m_timestamp m)
         /\ m_timestamp m = "2024-02-29 11:30:00")
  /\ map m_timestamp (measurements (db_after (data_fetcher_tick old) db_one_device))
     = ["999-12-31 23:59:59"].
Proof.
  intros env env' old. split; [reflexivity |]. split; [| reflexivity].
  intros m Hm. split.
  - destruct (tick_stores_whole_second_texts env' db_one_device
                (fun _ => eq_refl) (fun m' (F : In m' []) => match F with end) m Hm)
      as (b & Vb & E & _).
    now exists b.
  - destruct Hm as [<- | []]. reflexivity.
Defined.
